(** * Travel-model-one NextGen Freeways metrics: tables, deltas, orchestration

    A shallow embedding of the metric scripts
      utilities/NextGenFwys/metrics/ngfs_metrics.py
      utilities/NextGenFwys/metrics/Round 2 Metrics/Safe2_change_in_vmt.py

    Data frames are lists of rows in row order.  A missing cell (NaN / None)
    is [None].  Sums of measure columns are written over exact rationals
    [Qc].  pandas accumulates them in binary64 (or int64), in an order of its
    own; the two agree on columns of non-negative integers whose total is
    below 2^53, where every partial sum is exact in any order.  A statement
    that compares sums computed along different paths carries that condition
    on its inputs ([exact_counts], [exact_measure], [exact_od_table]); what
    is stated for every input is about which rows enter which group, in
    which order.  A single subtraction or division of numpy.float64 scalars
    or columns is modelled on binary64 itself ([PrimFloat]). *)

From Stdlib Require Import ZArith QArith Qcanon Floats.
From stdpp Require Import base list strings gmap sorting pretty.

Local Open Scope Z_scope.

(** ** Numbers *)

Definition Qc_leb (x y : Qc) : bool := Qle_bool (this x) (this y).

Definition Qc_sum (l : list Qc) : Qc := foldr Qcplus 0%Qc l.

(** *** Where binary64 is exact

    The measure columns are binary64 in the code (int64 when every cell of a
    column is an integer), and the model computes with exact rationals.  The
    two agree where no operation rounds: an integer of magnitude below 2^53
    is a binary64 number, and a sum, product or quotient of such numbers
    whose exact value is again an integer below 2^53 is computed exactly, in
    whatever order a sum is accumulated, and without int64 wrap-around.
    Statements that equate numbers computed along different paths are made
    for tables of this kind. *)

(** A non-negative integer. *)
Definition count_like (q : Qc) : bool := Pos.eqb (Qden (this q)) 1 && Qc_leb 0%Qc q.

Definition below_2_53 (q : Qc) : bool := negb (Qc_leb (Qc_of_Z (2 ^ 53)) q).

(** A column of non-negative integers that add up to less than 2^53: every
    partial sum, in any order, is such an integer. *)
Definition exact_counts (l : list Qc) : bool := forallb count_like l && below_2_53 (Qc_sum l).

(** The binary64 number of an integer of magnitude below 2^53, and of a
    rational with numerator and denominator of that size: the quotient of
    the two, rounded once.  On an integer below 2^53 it is the integer. *)
Definition Z_to_float (z : Z) : float :=
  if z <? 0 then (- PrimFloat.of_uint63 (Uint63.of_Z (- z)))%float
  else PrimFloat.of_uint63 (Uint63.of_Z z).

Definition Qc_to_float (q : Qc) : float :=
  (Z_to_float (Qnum (this q)) / Z_to_float (Zpos (Qden (this q))))%float.

(** Exceptions raised by pandas and the file system. *)
Inductive exn := KeyError | ValueError | IndexError | FileNotFoundError | AttributeError.

(** ** Data-frame operations (pandas) *)

Module Frames.

Section Sorting.
Context {A : Type} (le : A → A → bool).

(** [DataFrame.sort_values]: rows are reordered, each keeping its index
    label.  pandas sorts with numpy's quicksort, which leaves the relative
    order of equal keys unspecified; the model keeps equal keys in their
    original order. *)
Fixpoint insert_by (x : A) (l : list A) : list A :=
  match l with
  | [] => [x]
  | y :: l' => if le x y then x :: l else y :: insert_by x l'
  end.

Definition sort_by (l : list A) : list A := foldr insert_by [] l.
End Sorting.

Section Merge.
Context {L R K : Type} `{EqDecision K}.
Context (left_on : L → K) (right_on : R → K).

Definition matches (l : L) (right : list R) : list R :=
  filter (λ r, right_on r = left_on l) right.

(** [pd.merge(left, right, how='left')]: every left row, in order, paired
    with each matching right row in right order; a left row without a match
    is kept once with missing right-hand cells. *)
Definition merge_left_row (right : list R) (l : L) : list (L * option R) :=
  match matches l right with
  | [] => [(l, None)]
  | ms => map (λ r, (l, Some r)) ms
  end.

Definition merge_left (left : list L) (right : list R) : list (L * option R) :=
  flat_map (merge_left_row right) left.
End Merge.

Section DropDuplicates.
Context {A K : Type} `{EqDecision K} (subset : A → K).

(** [DataFrame.drop_duplicates(subset)] with the default keep='first'. *)
Fixpoint drop_duplicates_from (seen : list K) (l : list A) : list A :=
  match l with
  | [] => []
  | x :: l' =>
      if decide (subset x ∈ seen) then drop_duplicates_from seen l'
      else x :: drop_duplicates_from (subset x :: seen) l'
  end.

Definition drop_duplicates (l : list A) : list A := drop_duplicates_from [] l.
End DropDuplicates.

(** Rows that carry their index label, as a frame does through
    [sort_values] and [drop_duplicates]. *)
Definition indexed (A : Type) : Type := (nat * A)%type.

Fixpoint reset_index_from {A} (n : nat) (l : list A) : list (indexed A) :=
  match l with
  | [] => []
  | x :: l' => (n, x) :: reset_index_from (S n) l'
  end.

Definition reset_index {A} (l : list A) : list (indexed A) := reset_index_from 0 l.

(** [DataFrame.sort_index()]. *)
Definition sort_index {A} (l : list (indexed A)) : list (indexed A) :=
  sort_by (λ x y, Nat.leb (fst x) (fst y)) l.

Section GroupBy.
Context {R K V : Type} `{EqDecision K}.
Context (by_ : R → option K) (vals : R → V) (vadd : V → V → V).
Context (kle : K → K → bool).

(** One step of the group-sum accumulation: the row's values are added to
    the running total of its group; a group is created at its first row. *)
Fixpoint group_add (k : K) (v : V) (acc : list (K * V)) : list (K * V) :=
  match acc with
  | [] => [(k, v)]
  | (k', s) :: acc' =>
      if decide (k = k') then (k', vadd s v) :: acc'
      else (k', s) :: group_add k v acc'
  end.

(** Rows with a missing grouping key are left out (dropna=True, the
    default of [DataFrame.groupby]). *)
Definition group_step (acc : list (K * V)) (r : R) : list (K * V) :=
  match by_ r with
  | None => acc
  | Some k => group_add k (vals r) acc
  end.

Definition group_sums (rows : list R) : list (K * V) :=
  foldl group_step [] rows.

(** [df.groupby(by).agg(sum).reset_index()]: one row per distinct key
    tuple, in sorted key order (sort=True, the default). *)
Definition groupby_sum (rows : list R) : list (K * V) :=
  sort_by (λ x y, kle (fst x) (fst y)) (group_sums rows).
End GroupBy.

(** [df.loc[mask, col].sum()]: the sum of a column over the rows selected by
    a mask; the sum of no rows is 0. *)
Definition sum_where {X} (mask : X → bool) (col : X → Qc) (df : list X) : Qc :=
  Qc_sum (map col (List.filter mask df)).

(** A mask on grouping keys, False on a missing key. *)
Definition key_pass {K} (P : K → bool) (o : option K) : bool :=
  match o with Some k => P k | None => false end.

(** *** Untyped frames, for [concat] and [melt] *)

Inductive cell :=
  | CNaN
  | CStr (s : string)
  | CNum (q : Qc).

Record DataFrame := {
  columns : list string;
  data : list (list cell)
}.

Fixpoint col_index (c : string) (cols : list string) : option nat :=
  match cols with
  | [] => None
  | c' :: cols' => if decide (c = c') then Some 0%nat else S <$> col_index c cols'
  end.

(** The cell of [row] under column [c]; NaN when the frame has no such column. *)
Definition get_cell (cols : list string) (row : list cell) (c : string) : cell :=
  match col_index c cols with
  | Some i => default CNaN (row !! i)
  | None => CNaN
  end.

Definition reindex (cols new_cols : list string) (row : list cell) : list cell :=
  map (get_cell cols row) new_cols.

(** Union of the column labels in order of first appearance. *)
Definition union_columns (acc cols : list string) : list string :=
  acc ++ filter (λ c, c ∉ acc) cols.

(** [pd.concat(frames)]: rows stacked; a column absent from a frame is NaN. *)
Definition concat (frames : list DataFrame) : DataFrame :=
  let cols := foldl union_columns [] (map columns frames) in
  {| columns := cols;
     data := flat_map (λ f, map (reindex (columns f) cols) (data f)) frames |}.

(** [DataFrame.melt(id_vars, var_name)]: one output row per value column and
    input row, value columns in column order, rows in row order.  An id
    column that the frame lacks is a KeyError; the value column is named
    value, which may not be a column of the frame already. *)
Definition melt_row (cols id_vars : list string) (v : string) (row : list cell) : list cell :=
  map (get_cell cols row) id_vars ++ [CStr v; get_cell cols row v].

Definition value_vars (f : DataFrame) (id_vars : list string) : list string :=
  filter (λ c, c ∉ id_vars) (columns f).

Definition melt (f : DataFrame) (id_vars : list string) (var_name : string)
  : exn + DataFrame :=
  if negb (forallb (λ c, bool_decide (c ∈ columns f)) id_vars) then inl KeyError
  else if bool_decide ("value"%string ∈ columns f) then inl ValueError
  else inr {| columns := id_vars ++ [var_name; "value"%string];
              data := flat_map (λ v, map (melt_row (columns f) id_vars v) (data f))
                        (value_vars f id_vars) |}.

(** [df[name] = v] for a scalar [v] and a new column label. *)
Definition assign_const (name : string) (v : cell) (f : DataFrame) : DataFrame :=
  {| columns := columns f ++ [name]; data := map (λ r, r ++ [v]) (data f) |}.

(** [df.loc[mask, col] = v] on one row of a string column. *)
Definition loc_assign_str (mask : bool) (v cur : string) : string :=
  if mask then v else cur.

(** Python [s.endswith(suffix)]. *)
Definition str_endswith (suffix s : string) : bool :=
  let n := String.length s in
  let m := String.length suffix in
  (m <=? n)%nat && String.eqb (String.substring (n - m) m s) suffix.

(** Lexicographic comparison of key tuples, for the sorted group order. *)
Definition lex (c1 c2 : comparison) : comparison :=
  match c1 with Eq => c2 | _ => c1 end.

Definition not_gt (c : comparison) : bool :=
  match c with Gt => false | _ => true end.

End Frames.

(** ** Round 2 Metrics/Safe2_change_in_vmt.py *)

Module Safe2.
Import Frames.

(** network_links_TAZ.csv, columns A, B, TAZ1454, linktaz_share. *)
Record LinkTaz := {
  A_node : Z;
  B_node : Z;
  TAZ1454 : Z;
  linktaz_share : Qc
}.

(** taz_epc_crosswalk.csv (NGFS_EPC_TAZ_DF). *)
Record EpcRow := {
  epc_TAZ1454 : Z;
  taz_epc : Z
}.

(** avgload5period.csv, the columns the metric reads. *)
Record NetLink := {
  a_node : Z;
  b_node : Z;
  ft : Z;
  tollclass : option Z;
  distance : Qc;
  volEA_tot : Qc; volAM_tot : Qc; volMD_tot : Qc; volPM_tot : Qc; volEV_tot : Qc;
  ctimEA : Qc; ctimAM : Qc; ctimMD : Qc; ctimPM : Qc; ctimEV : Qc
}.

Definition LinkEpc : Type := (LinkTaz * option EpcRow)%type.

Definition link_key (x : indexed LinkEpc) : Z * Z :=
  (A_node (fst (snd x)), B_node (fst (snd x))).

Definition share_of (x : indexed LinkEpc) : Qc := linktaz_share (fst (snd x)).

(** Descending order on linktaz_share (ascending=False). *)
Definition share_desc (x y : indexed LinkEpc) : bool := Qc_leb (share_of y) (share_of x).

(** Lines 107-112: network_links_TAZ left-joined to the EPC crosswalk. *)
Definition links_epc_merged (links : list LinkTaz) (epc : list EpcRow) : list (indexed LinkEpc) :=
  reset_index (merge_left TAZ1454 epc_TAZ1454 links epc).

(** Line 113: sort_values('linktaz_share', ascending=False)
    .drop_duplicates(['A','B']).sort_index(). *)
Definition tm_network_links_with_epc_df (links : list LinkTaz) (epc : list EpcRow)
  : list (indexed LinkEpc) :=
  sort_index (drop_duplicates link_key (sort_by share_desc (links_epc_merged links epc))).

Definition net_key (l : NetLink) : Z * Z := (a_node l, b_node l).

(** Line 116: loaded network left-joined to the link lookup on (a,b)=(A,B). *)
Definition loaded_network_joined (net : list NetLink) (links : list LinkTaz) (epc : list EpcRow)
  : list (NetLink * option (indexed LinkEpc)) :=
  merge_left net_key link_key net (tm_network_links_with_epc_df links epc).

(** Lines 150-161: facility type to grouping. *)
Record FtRow := {
  ft_code : Z;
  ft_Freeway_Non_Freeway : option string;
  ft_Facility_Type_Definition : option string
}.

Definition ft_to_grouping_key_df : list FtRow :=
  [ {| ft_code := 1; ft_Freeway_Non_Freeway := Some "Freeway"; ft_Facility_Type_Definition := Some "Freeway" |};
    {| ft_code := 2; ft_Freeway_Non_Freeway := Some "Freeway"; ft_Facility_Type_Definition := Some "Freeway" |};
    {| ft_code := 3; ft_Freeway_Non_Freeway := Some "Non-Freeway"; ft_Facility_Type_Definition := Some "Expressway" |};
    {| ft_code := 4; ft_Freeway_Non_Freeway := Some "Non-Freeway"; ft_Facility_Type_Definition := Some "Collector" |};
    {| ft_code := 5; ft_Freeway_Non_Freeway := Some "Freeway"; ft_Facility_Type_Definition := Some "Freeway" |};
    {| ft_code := 6; ft_Freeway_Non_Freeway := Some "Non-Freeway"; ft_Facility_Type_Definition := Some "Other" |};
    {| ft_code := 7; ft_Freeway_Non_Freeway := Some "Non-Freeway"; ft_Facility_Type_Definition := Some "Arterial" |};
    {| ft_code := 8; ft_Freeway_Non_Freeway := Some "Freeway"; ft_Facility_Type_Definition := Some "Freeway" |};
    {| ft_code := 9; ft_Freeway_Non_Freeway := None; ft_Facility_Type_Definition := None |};
    {| ft_code := 10; ft_Freeway_Non_Freeway := None; ft_Facility_Type_Definition := None |} ].

(** A row of loaded_network_df after the three joins. *)
Definition NetRow : Type := ((NetLink * option (indexed LinkEpc)) * option FtRow)%type.

Definition row_link (r : NetRow) : NetLink := fst (fst r).
Definition row_lookup (r : NetRow) : option (indexed LinkEpc) := snd (fst r).

Definition row_TAZ1454 (r : NetRow) : option Z :=
  x ← row_lookup r; Some (TAZ1454 (fst (snd x))).

Definition row_taz_epc (r : NetRow) : option Z :=
  x ← row_lookup r; e ← snd (snd x); Some (taz_epc e).

Definition row_Freeway_Non_Freeway (r : NetRow) : option string :=
  f ← snd r; ft_Freeway_Non_Freeway f.

Definition row_Facility_Type_Definition (r : NetRow) : option string :=
  f ← snd r; ft_Facility_Type_Definition f.

(** Line 167. *)
Definition loaded_network_df (net : list NetLink) (links : list LinkTaz) (epc : list EpcRow)
  : list NetRow :=
  merge_left (λ x, ft (fst x)) ft_code (loaded_network_joined net links epc) ft_to_grouping_key_df.

(** Lines 120-147: derived measures. *)
Definition Total_VMT (l : NetLink) : Qc :=
  ((volEA_tot l + volAM_tot l + volMD_tot l + volPM_tot l + volEV_tot l) * distance l)%Qc.
Definition EA_VMT (l : NetLink) : Qc := (volEA_tot l * distance l)%Qc.
Definition AM_VMT (l : NetLink) : Qc := (volAM_tot l * distance l)%Qc.
Definition MD_VMT (l : NetLink) : Qc := (volMD_tot l * distance l)%Qc.
Definition PM_VMT (l : NetLink) : Qc := (volPM_tot l * distance l)%Qc.
Definition EV_VMT (l : NetLink) : Qc := (volEV_tot l * distance l)%Qc.
Definition VHT (l : NetLink) : Qc :=
  ((ctimEA l * volEA_tot l + ctimAM l * volAM_tot l + ctimMD l * volMD_tot l
    + ctimPM l * volPM_tot l + ctimEV l * volEV_tot l) / Qc_of_Z 60)%Qc.

(** A comparison against a missing cell is False. *)
Definition cell_test (p : Z → bool) (c : option Z) : bool :=
  match c with Some z => p z | None => false end.

(** Lines 170-171. *)
Definition EPC_Non_EPC (r : NetRow) : string :=
  loc_assign_str (cell_test (Z.eqb 1) (row_taz_epc r)) "EPCs" "Non-EPCs".

(** Lines 174-175. *)
Definition Tolled_Non_tolled_Facilities (r : NetRow) : string :=
  loc_assign_str (cell_test (Z.ltb 700000) (tollclass (row_link r)))
    "Tolled facilities" "Non-tolled facilities".

(** Lines 179-187: bounds are exclusive, assignments run in this order. *)
Definition county_ranges : list (Z * Z * string) :=
  [ (190, 347, "San Mateo"); (346, 715, "Santa Clara"); (714, 1040, "Alameda");
    (1039, 1211, "Contra Costa"); (1210, 1291, "Solano"); (1290, 1318, "Napa");
    (1317, 1404, "Sonoma"); (1403, 1455, "Marin") ]%string.

Definition in_range (lo hi : Z) (z : Z) : bool := (lo <? z) && (z <? hi).

Definition County (r : NetRow) : string :=
  foldl (λ cur '(lo, hi, name), loc_assign_str (cell_test (in_range lo hi) (row_TAZ1454 r)) name cur)
    "San Francisco"%string county_ranges.

(** Lines 189-195: the seven summed measures of a group. *)
Record VmtSums := {
  sum_Total_VMT : Qc;
  sum_VHT : Qc;
  sum_EA_VMT : Qc;
  sum_AM_VMT : Qc;
  sum_MD_VMT : Qc;
  sum_PM_VMT : Qc;
  sum_EV_VMT : Qc
}.

Definition sums_add (x y : VmtSums) : VmtSums :=
  {| sum_Total_VMT := sum_Total_VMT x + sum_Total_VMT y;
     sum_VHT := sum_VHT x + sum_VHT y;
     sum_EA_VMT := sum_EA_VMT x + sum_EA_VMT y;
     sum_AM_VMT := sum_AM_VMT x + sum_AM_VMT y;
     sum_MD_VMT := sum_MD_VMT x + sum_MD_VMT y;
     sum_PM_VMT := sum_PM_VMT x + sum_PM_VMT y;
     sum_EV_VMT := sum_EV_VMT x + sum_EV_VMT y |}%Qc.

(** Freeway/Non-Freeway, Facility Type Definition, EPC/Non-EPC,
    Tolled/Non-tolled Facilities, County. *)
Definition FtKey : Type := (string * string * string * string * string)%type.

Definition ft_by (r : NetRow) : option FtKey :=
  f ← row_Freeway_Non_Freeway r;
  d ← row_Facility_Type_Definition r;
  Some (f, d, EPC_Non_EPC r, Tolled_Non_tolled_Facilities r, County r).

Definition ft_vals (r : NetRow) : VmtSums :=
  let l := row_link r in
  {| sum_Total_VMT := Total_VMT l; sum_VHT := VHT l; sum_EA_VMT := EA_VMT l;
     sum_AM_VMT := AM_VMT l; sum_MD_VMT := MD_VMT l; sum_PM_VMT := PM_VMT l;
     sum_EV_VMT := EV_VMT l |}.

Definition ft_key_le (k1 k2 : FtKey) : bool :=
  let '(f1, d1, e1, t1, c1) := k1 in
  let '(f2, d2, e2, t2, c2) := k2 in
  not_gt (lex (String.compare f1 f2) (lex (String.compare d1 d2)
    (lex (String.compare e1 e2) (lex (String.compare t1 t2) (String.compare c1 c2))))).

Definition ft_metrics_df (net : list NetLink) (links : list LinkTaz) (epc : list EpcRow)
  : list (FtKey * VmtSums) :=
  groupby_sum ft_by ft_vals sums_add ft_key_le (loaded_network_df net links epc).

(** auto_times.csv, the columns the metric reads.  A blank cell is [None].
    Income and Mode are columns of text (Mode holds mode names: da, datoll,
    s2, truck, da_ix, da_air, zpv_tnc, ...): the cells that are not blank
    are strings. *)
Record AutoTimes := {
  Income : option string;
  Mode : option string;
  Vehicle_Miles : Qc;
  Vehicle_Minutes : Qc
}.

(** [Series.str]: a column of strings has the accessor, blank cells or not.
    A column whose cells are all blank is read as float64 and has none:
    AttributeError.  The columns of a table without rows are string columns. *)
Definition str_accessor (col : list (option string)) : exn + list (option string) :=
  match col with
  | [] => inr []
  | _ :: _ => if forallb (λ c, bool_decide (c = None)) col then inl AttributeError else inr col
  end.

(** [Series.str.endswith(suffix)]: missing on a blank cell. *)
Definition endswith_mask (suffix : string) (col : list (option string)) : list (option bool) :=
  map (fmap (str_endswith suffix)) col.

(** [df.loc[mask, cols] = values]: a mask that holds a missing value raises
    ValueError. *)
Definition loc_mask (mask : list (option bool)) : exn + list bool :=
  if forallb (λ b, bool_decide (is_Some b)) mask then inr (map (default false) mask)
  else inl ValueError.

(** The masks of lines 80 and 81, which read Mode through [.str].  The
    comparisons of lines 82 and 83 are False on a blank cell and raise
    nothing. *)
Definition Mode_masks (auto_times : list AutoTimes) : exn + list bool * list bool :=
  match str_accessor (map Mode auto_times) with
  | inl e => inl e
  | inr col =>
      match loc_mask (endswith_mask "ix" col) with
      | inl e => inl e
      | inr ix =>
          match loc_mask (endswith_mask "air" col) with
          | inl e => inl e
          | inr air => inr (ix, air)
          end
      end
  end.

(** A test on a string cell, False on a blank cell. *)
Definition str_test (p : string → bool) (c : option string) : bool :=
  match c with Some s => p s | None => false end.

(** Lines 78-83: the two summary columns, set by successive masked
    assignments. *)
Definition household_recode (r : AutoTimes) : string * option string :=
  let c0 := ("Household"%string, Income r) in
  let c1 := if str_test (str_endswith "ix") (Mode r)
            then ("Non-Household"%string, Some "ix"%string) else c0 in
  let c2 := if str_test (str_endswith "air") (Mode r)
            then ("Non-Household"%string, Some "air"%string) else c1 in
  let c3 := if str_test (String.eqb "zpv_tnc") (Mode r)
            then ("Non-Household"%string, Some "zpv_tnc"%string) else c2 in
  if str_test (String.eqb "truck") (Mode r) then ("Truck"%string, Some "truck"%string) else c3.

Definition auto_by (r : AutoTimes) : option (string * string) :=
  let '(h, i) := household_recode r in k ← i; Some (h, k).

Definition auto_vals (r : AutoTimes) : Qc * Qc := (Vehicle_Miles r, Vehicle_Minutes r).

Definition pair_add (x y : Qc * Qc) : Qc * Qc := (fst x + fst y, snd x + snd y)%Qc.

Definition auto_key_le (k1 k2 : string * string) : bool :=
  not_gt (lex (String.compare (fst k1) (fst k2)) (String.compare (snd k1) (snd k2))).

(** Lines 85-88: grouped sums, then VHT = Vehicle Minutes / 60 and the
    rename of Vehicle Miles to VMT. *)
Definition auto_times_frame (groups : list (string * string * (Qc * Qc))) : DataFrame :=
  {| columns := ["Household/Non-Household"; "Income Level/Travel Mode"; "VMT"; "VHT"]%string;
     data := map (λ '((h, i), (miles, minutes)),
                    [CStr h; CStr i; CNum miles; CNum (minutes / Qc_of_Z 60)%Qc])
               groups |}.

(** Lines 76-88, on the table read from auto_times.csv. *)
Definition auto_times_df (auto_times : list AutoTimes) : exn + DataFrame :=
  match Mode_masks auto_times with
  | inl e => inl e
  | inr _ =>
      inr (auto_times_frame (groupby_sum auto_by auto_vals pair_add auto_key_le auto_times))
  end.

Definition ft_metrics_frame (groups : list (FtKey * VmtSums)) : DataFrame :=
  {| columns := ["Freeway/Non-Freeway"; "Facility Type Definition"; "EPC/Non-EPC";
                 "Tolled/Non-tolled Facilities"; "County";
                 "Total VMT"; "VHT"; "EA VMT"; "AM VMT"; "MD VMT"; "PM VMT"; "EV VMT"]%string;
     data := map (λ '((f, d, e, t, c), s),
                    [CStr f; CStr d; CStr e; CStr t; CStr c;
                     CNum (sum_Total_VMT s); CNum (sum_VHT s); CNum (sum_EA_VMT s);
                     CNum (sum_AM_VMT s); CNum (sum_MD_VMT s); CNum (sum_PM_VMT s);
                     CNum (sum_EV_VMT s)])
               groups |}.

Definition id_vars : list string :=
  ["Freeway/Non-Freeway"; "Facility Type Definition"; "EPC/Non-EPC";
   "Tolled/Non-tolled Facilities"; "County"; "Household/Non-Household";
   "Income Level/Travel Mode"]%string.

Definition METRIC_ID : string := "Safe 2".

(** Lines 198-207: the two roll-ups stacked, melted and labelled. *)
Definition long_form (tm_run_id : string) (auto_times_df : DataFrame)
    (ft_metrics_df : list (FtKey * VmtSums)) : exn + DataFrame :=
  let metrics_df := concat [auto_times_df; ft_metrics_frame ft_metrics_df] in
  match melt metrics_df id_vars "Metric Description" with
  | inl e => inl e
  | inr metrics_df =>
      inr (assign_const "Year" (CStr (String.substring 0 4 tm_run_id))
            (assign_const "Intermediate/Final" (CStr "final")
              (assign_const "Metric ID" (CStr METRIC_ID)
                (assign_const "Model Run ID" (CStr tm_run_id) metrics_df))))
  end.

(** The function on the tables of the run directory.  The masks on Mode are
    evaluated before the network tables are used. *)
Definition calculate_Safe2_change_in_vmt (tm_run_id : string)
    (auto_times : list AutoTimes) (net : list NetLink)
    (links : list LinkTaz) (epc : list EpcRow) : exn + DataFrame :=
  match auto_times_df auto_times with
  | inl e => inl e
  | inr auto_times_df => long_form tm_run_id auto_times_df (ft_metrics_df net links epc)
  end.

End Safe2.

(** ** ngfs_metrics.py *)

Module Ngfs.
Import Frames.

(** The key tuple of metrics_dict, named after METRICS_COLUMNS. *)
Record MetricKey := MetricKeyOf {
  col_grouping1 : string;
  col_grouping2 : string;
  col_grouping3 : string;
  col_modelrun_id : string;
  col_metric_id : string;
  col_intermediate_final : string;
  col_key : string;
  col_metric_desc : string;
  col_year : string
}.

Global Instance MetricKey_eq_dec : EqDecision MetricKey.
Proof. solve_decision. Defined.

(** A Python dict keeps insertion order; assigning to a key that is present
    replaces the value where it stands. *)
Definition Dict (V : Type) : Type := list (MetricKey * V).

Fixpoint dict_set {V} (k : MetricKey) (v : V) (d : Dict V) : Dict V :=
  match d with
  | [] => [(k, v)]
  | (k', v') :: d' =>
      if decide (k = k') then (k', v) :: d' else (k', v') :: dict_set k v d'
  end.

Fixpoint dict_get {V} (k : MetricKey) (d : Dict V) : option V :=
  match d with
  | [] => None
  | (k', v') :: d' => if decide (k = k') then Some v' else dict_get k d'
  end.

(** Python [pat in s]: [pat] occurs in [s]. *)
Definition str_contains (pat s : string) : bool :=
  match String.index 0 pat s with Some _ => true | None => false end.

(** The characters that are special in a Python regular expression. *)
Definition regex_special : string := ".^$*+?{}[]\|()".

(** A pattern without special characters: as a regular expression it matches
    itself and nothing else. *)
Fixpoint regex_plain (pat : string) : bool :=
  match pat with
  | EmptyString => true
  | String c pat' => negb (str_contains (String c EmptyString) regex_special) && regex_plain pat'
  end.

(** [Series.str.contains(pat)] searches for the regular expression [pat].
    For a plain pattern the search is the substring test, and the model is
    this case: it covers the constants the scripts pass ('Affordable 2' and
    'Reliable 1' at lines 831 and 1630, the city names and period labels of
    Reliable 2).  Statements about a pattern that is a parameter assume
    [regex_plain]. *)
Definition series_str_contains (pat s : string) : bool := str_contains pat s.

(** Python [s.split(sep)] for a non-empty [sep]: [skip] counts the characters
    of a separator still to be consumed. *)
Fixpoint split_go (sep : string) (skip : nat) (cur : string) (s : string) : list string :=
  match s with
  | EmptyString => [cur]
  | String c s' =>
      match skip with
      | S n => split_go sep n cur s'
      | O =>
          if String.prefix sep s
          then cur :: split_go sep (String.length sep - 1) EmptyString s'
          else split_go sep 0 (cur +:+ String c EmptyString) s'
      end
  end.

Definition str_split (sep s : string) : list string := split_go sep 0 EmptyString s.

Section Change.
Context (tm_run_id BASE_SCENARIO_RUN_ID year metric_id : string).

(** Lines 497-501. *)
Definition next_key (key metric : string) : string :=
  if str_contains "_AM" metric then
    let temp := hd EmptyString (str_split "_AM" metric) in
    List.last (str_split "travel_time_" temp) EmptyString
  else if str_contains "across_key_corridors" metric then "Average Across Corridors"
  else key.

(** [df.loc[modelrun_id == run].loc[metric_desc == metric].iloc[0]['value']]:
    positional indexing into an empty selection raises IndexError. *)
Definition first_value (metrics_dict_df : Dict float) (run metric : string) : exn + float :=
  match filter (λ kv, col_metric_desc (fst kv) = metric)
          (filter (λ kv, col_modelrun_id (fst kv) = run) metrics_dict_df) with
  | [] => inl IndexError
  | kv :: _ => inr (snd kv)
  end.

Definition change_key (key desc : string) : MetricKey :=
  MetricKeyOf key " " " " tm_run_id metric_id "debug step" "By Corridor" desc year.

(** Lines 496-506: the loop over metrics_list.  The dictionary is updated
    in place, so what was written before an exception stays written. *)
Fixpoint change_loop (metrics_dict_df : Dict float) (key : string)
    (metrics_dict : Dict float) (metrics_list : list string) : Dict float * option exn :=
  match metrics_list with
  | [] => (metrics_dict, None)
  | metric :: rest =>
      let key := next_key key metric in
      match first_value metrics_dict_df tm_run_id metric with
      | inl e => (metrics_dict, Some e)
      | inr val_run =>
          match first_value metrics_dict_df BASE_SCENARIO_RUN_ID metric with
          | inl e => (metrics_dict, Some e)
          | inr val_base =>
              let d1 := dict_set (change_key key ("change_in_" +:+ metric))
                          (val_run - val_base)%float metrics_dict in
              let d2 := dict_set (change_key key ("pct_change_in_" +:+ metric))
                          ((val_run - val_base) / val_base)%float d1 in
              change_loop metrics_dict_df key d2 rest
          end
      end
  end.

(** Lines 491-492. *)
Definition metrics_list (metrics_dict_df : Dict float) : list string :=
  map (λ kv, col_metric_desc (fst kv))
    (filter (λ kv, series_str_contains metric_id (col_metric_id (fst kv)) = true)
       (filter (λ kv, col_modelrun_id (fst kv) = tm_run_id) metrics_dict_df)).

(** Lines 487-489: the dictionary as a frame.  The index of a Series built
    from a non-empty dictionary has the nine levels of the key tuples, and
    the frame the ten columns that line 489 names.  The frame of an empty
    dictionary has two columns, and naming ten raises ValueError. *)
Definition metrics_dict_df (metrics_dict : Dict float) : exn + Dict float :=
  match metrics_dict with
  | [] => inl ValueError
  | _ :: _ => inr metrics_dict
  end.

Definition calculate_change_between_run_and_base (metrics_dict : Dict float)
  : Dict float * option exn :=
  match metrics_dict_df metrics_dict with
  | inl e => (metrics_dict, Some e)
  | inr metrics_dict_df =>
      change_loop metrics_dict_df "Change" metrics_dict (metrics_list metrics_dict_df)
  end.
End Change.

(** Lines 373-388 of calculate_top_level_metrics: freeway and non-freeway
    VMT and VHT of the loaded network, written into metrics_dict. *)
Section TopLevel.
Import Safe2.
Context (tm_run_id year : string).

Definition total_vmt (l : NetLink) : Qc :=
  (distance l * (volEA_tot l + volAM_tot l + volMD_tot l + volPM_tot l + volEV_tot l))%Qc.

Definition total_vht (l : NetLink) : Qc :=
  ((ctimEA l * volEA_tot l + ctimAM l * volAM_tot l + ctimMD l * volMD_tot l
    + ctimPM l * volPM_tot l + ctimEV l * volEV_tot l) / Qc_of_Z 60)%Qc.

Definition fwy_vmt_df (vmt_df : list NetLink) : list NetLink :=
  filter (λ l, ft l = 1 ∨ ft l = 2 ∨ ft l = 8) vmt_df.
Definition arterial_vmt_df (vmt_df : list NetLink) : list NetLink :=
  filter (λ l, ft l = 7) vmt_df.
Definition expressway_vmt_df (vmt_df : list NetLink) : list NetLink :=
  filter (λ l, ft l = 3) vmt_df.
Definition collector_vmt_df (vmt_df : list NetLink) : list NetLink :=
  filter (λ l, ft l = 4) vmt_df.

(** [df.loc[:, col].sum()]; the sum of no rows is 0. *)
Definition column_sum (col : NetLink → Qc) (df : list NetLink) : Qc := Qc_sum (map col df).

Definition top_key (grouping1 key desc : string) : MetricKey :=
  MetricKeyOf grouping1 " " " " tm_run_id "overall" "top_level" key desc year.

Definition top_level_vmt_vht (tm_loaded_network_df : list NetLink) (metrics_dict : Dict Qc)
  : Dict Qc :=
  let vmt_df := tm_loaded_network_df in
  let d := dict_set (top_key "Freeway" "VMT" "Freeway") (column_sum total_vmt (fwy_vmt_df vmt_df)) metrics_dict in
  let d := dict_set (top_key "Non-Freeway" "VMT" "Arterial") (column_sum total_vmt (arterial_vmt_df vmt_df)) d in
  let d := dict_set (top_key "Non-Freeway" "VMT" "Expressway") (column_sum total_vmt (expressway_vmt_df vmt_df)) d in
  let d := dict_set (top_key "Non-Freeway" "VMT" "Collector") (column_sum total_vmt (collector_vmt_df vmt_df)) d in
  let d := dict_set (top_key "Freeway" "VHT" "Freeway") (column_sum total_vht (fwy_vmt_df vmt_df)) d in
  let d := dict_set (top_key "Non-Freeway" "VHT" "Arterial") (column_sum total_vht (arterial_vmt_df vmt_df)) d in
  let d := dict_set (top_key "Non-Freeway" "VHT" "Expressway") (column_sum total_vht (expressway_vmt_df vmt_df)) d in
  dict_set (top_key "Non-Freeway" "VHT" "Collector") (column_sum total_vht (collector_vmt_df vmt_df)) d.
End TopLevel.

(** Lines 207-223 of trips_commute_mode_pkop. *)
Definition MODES_TRANSIT : list Z := [9; 10; 11; 12; 13; 14; 15; 16; 17; 18].
Definition MODES_TAXI_TNC : list Z := [19; 20; 21].
Definition MODES_SOV : list Z := [1; 2].
Definition MODES_HOV : list Z := [3; 4; 5; 6].
Definition MODES_PRIVATE_AUTO : list Z := MODES_SOV ++ MODES_HOV.
Definition PURPOSES_COMMUTE : list string :=
  ["work_low"; "work_med"; "work_high"; "work_very high"]%string.
Definition TIME_PERIODS_PEAK : list string := ["AM"; "PM"]%string.

(** core_summaries/TripDistance.csv, the columns the roll-up reads. *)
Record Trip := {
  trip_mode : Z;
  tour_purpose : string;
  timeCode : string;
  freq : Qc
}.

Definition isin {T} `{EqDecision T} (x : T) (l : list T) : bool := bool_decide (x ∈ l).

Definition agg_trip_mode (t : Trip) : string :=
  loc_assign_str (isin (trip_mode t) MODES_TAXI_TNC) "other"
    (loc_assign_str (isin (trip_mode t) MODES_PRIVATE_AUTO) "auto"
      (loc_assign_str (isin (trip_mode t) MODES_TRANSIT) "transit" "active")).

Definition commute_non (t : Trip) : string :=
  loc_assign_str (isin (tour_purpose t) PURPOSES_COMMUTE) "commute" "noncommute".

Definition peak_non (t : Trip) : string :=
  loc_assign_str (isin (timeCode t) TIME_PERIODS_PEAK) "peak" "offpeak".

Definition trips_by (t : Trip) : option (string * string * string) :=
  Some (agg_trip_mode t, commute_non t, peak_non t).

Definition trips_key_le (k1 k2 : string * string * string) : bool :=
  let '(m1, c1, p1) := k1 in
  let '(m2, c2, p2) := k2 in
  not_gt (lex (String.compare m1 m2) (lex (String.compare c1 c2) (String.compare p1 p2))).

(** Line 222: the roll-up; the summed column is renamed to trips. *)
Definition tm_trips_df (trips : list Trip) : list (string * string * string * Qc) :=
  groupby_sum trips_by freq Qcplus trips_key_le trips.

End Ngfs.

(** ** The main loops of the two scripts *)

Module Main.
Import Frames.

(** The part of the world the loops touch: the files by path, and the
    messages logged at level INFO, in order.  (LOGGER.debug reaches the log
    file only and is not recorded.) *)
Record World (Out : Type) := {
  files : gmap string Out;
  log : list string
}.
Arguments files {Out} _.
Arguments log {Out} _.

Definition log_info {Out} (msg : string) (w : World Out) : World Out :=
  {| files := files w; log := log w ++ [msg] |}.

Definition log_infos {Out} (msgs : list string) (w : World Out) : World Out :=
  {| files := files w; log := log w ++ msgs |}.

(** [df.to_csv(path)] creates the file or replaces it. *)
Definition to_csv {Out} (path : string) (df : Out) (w : World Out) : World Out :=
  {| files := <[path := df]> (files w); log := log w |}.

(** [os.path.exists(path)]. *)
Definition path_exists {Out} (path : string) (w : World Out) : bool :=
  bool_decide (is_Some (files w !! path)).

(** A computation that logs: the INFO messages it logged, in order, with its
    result or the exception that ended it. *)
Definition Logged (X : Type) : Type := (list string * (exn + X))%type.

Definition ret {X} (x : X) : Logged X := ([], inr x).

(** A step that logs nothing. *)
Definition lift {X} (m : exn + X) : Logged X := ([], m).

(** [LOGGER.info(msg)]. *)
Definition info (msg : string) : Logged unit := ([msg], inr tt).

Definition logged_bind {X Y} (m : Logged X) (f : X → Logged Y) : Logged Y :=
  match snd m with
  | inl e => (fst m, inl e)
  | inr x => (fst m ++ fst (f x), snd (f x))
  end.

Notation "'let*' x ':=' m 'in' k" := (logged_bind m (λ x, k))
  (at level 10, x name, m at level 100, k at level 200, only parsing).

(** ['{:,}'.format(n)]: the decimal digits of [n], a comma before every
    group of three digits counted from the right. *)
Fixpoint thousands_rev (digits : string) (k : nat) : string :=
  match digits with
  | EmptyString => EmptyString
  | String c rest =>
      match k with
      | 3%nat => "," +:+ String c (thousands_rev rest 1)
      | _ => String c (thousands_rev rest (S k))
      end
  end.

Definition format_thousands (n : nat) : string :=
  String.rev (thousands_rev (String.rev (pretty n)) 0).

(** ["  Read {:,} rows from {}".format(len(df), file)]. *)
Definition read_message (n : nat) (file : string) : string :=
  "  Read " +:+ format_thousands n +:+ " rows from " +:+ file.

Section Loop.
Context {Out : Type}.
(** [os.path.join(os.getcwd(), name)]. *)
Context (cwd_path : string → string).
(** The output file name pattern, and the body between the message
    "Processing run ..." and [to_csv]: it computes the metrics of one run,
    logs as it goes and may raise. *)
Context (out_name : string → string) (process : string → Logged Out).
Context (skip_if_exists : bool).

Definition out_filename (tm_run_id : string) : string := cwd_path (out_name tm_run_id).

(** The world once a run is announced and its body has logged. *)
Definition announced (w : World Out) (tm_run_id : string) : World Out :=
  log_infos (fst (process tm_run_id)) (log_info ("Processing run " +:+ tm_run_id) w).

(** One iteration of [for tm_run_id in current_runs_list]. *)
Definition run_one (w : World Out) (tm_run_id : string) : World Out * option exn :=
  let out := out_filename tm_run_id in
  if skip_if_exists && path_exists out w then
    (log_info ("Skipping " +:+ tm_run_id +:+ " -- " +:+ out +:+ " exists") w, None)
  else
    let w := announced w tm_run_id in
    match snd (process tm_run_id) with
    | inl e => (w, Some e)
    | inr metrics_df => (log_info ("Wrote " +:+ out) (to_csv out metrics_df w), None)
    end.

(** The loop; an exception leaves it at once, nothing catches it. *)
Fixpoint main_loop (w : World Out) (current_runs_list : list string) : World Out * option exn :=
  match current_runs_list with
  | [] => (w, None)
  | tm_run_id :: rest =>
      match run_one w tm_run_id with
      | (w', None) => main_loop w' rest
      | (w', Some e) => (w', Some e)
      end
  end.
End Loop.

(** *** Safe2_change_in_vmt.py *)

(** What the directory of a run holds for this metric; a file that is not
    there is [None]. *)
Record RunOutput := {
  auto_times_csv : option (list Safe2.AutoTimes);
  avgload5period_csv : option (list Safe2.NetLink);
  network_links_TAZ_csv : option (list Safe2.LinkTaz)
}.

Section Safe2Main.
Context (cwd_path : string → string).
(** [os.path.join(NGFS_SCENARIOS, tm_run_id, ...)]. *)
Context (scenario_path : string → list string → string).
(** The run directories under NGFS_SCENARIOS, and NGFS_EPC_TAZ_DF. *)
Context (scenarios : gmap string RunOutput) (NGFS_EPC_TAZ_DF : list Safe2.EpcRow).

Definition Safe2_out_name (tm_run_id : string) : string :=
  "Safe2_change_in_vmt_" +:+ tm_run_id +:+ ".csv".

(** [pd.read_csv] raises when the run directory has no such file. *)
Definition read_csv {T} (file : RunOutput → option T) (tm_run_id : string) : exn + T :=
  match scenarios !! tm_run_id with
  | Some o => match file o with Some t => inr t | None => inl FileNotFoundError end
  | None => inl FileNotFoundError
  end.

(** Lines 43-207: the function as the script runs it, reading the three
    tables and logging as it goes. *)
Definition calculate_Safe2_change_in_vmt (tm_run_id : string) : Logged DataFrame :=
  let* _ := info ("Calculating " +:+ Safe2.METRIC_ID +:+ " for " +:+ tm_run_id) in
  let auto_times_file := scenario_path tm_run_id ["OUTPUT"; "metrics"; "auto_times.csv"]%string in
  let* auto_times := lift (read_csv auto_times_csv tm_run_id) in
  let* _ := info (read_message (length auto_times) auto_times_file) in
  let* auto_times_df := lift (Safe2.auto_times_df auto_times) in
  let loaded_network_file := scenario_path tm_run_id ["OUTPUT"; "avgload5period.csv"]%string in
  let* loaded_network_df := lift (read_csv avgload5period_csv tm_run_id) in
  let* _ := info (read_message (length loaded_network_df) loaded_network_file) in
  let tm_network_links_taz_file :=
    scenario_path tm_run_id ["OUTPUT"; "shapefile"; "network_links_TAZ.csv"]%string in
  let* tm_network_links_taz_df := lift (read_csv network_links_TAZ_csv tm_run_id) in
  let* _ := info (read_message (length tm_network_links_taz_df) tm_network_links_taz_file) in
  lift (Safe2.long_form tm_run_id auto_times_df
          (Safe2.ft_metrics_df loaded_network_df tm_network_links_taz_df NGFS_EPC_TAZ_DF)).

(** Lines 255-262: the body of the loop between "Processing run ..." and
    [to_csv]. *)
Definition Safe2_process (tm_run_id : string) : Logged DataFrame :=
  let* metrics_df := calculate_Safe2_change_in_vmt tm_run_id in
  let* _ := info "@@@@@@@@@@@@@ S2 Done" in
  ret metrics_df.

(** Lines 248-266. *)
Definition Safe2_main (skip_if_exists : bool) : World DataFrame → list string → World DataFrame * option exn :=
  main_loop cwd_path Safe2_out_name Safe2_process skip_if_exists.
End Safe2Main.

(** *** ngfs_metrics.py, lines 2471-2586 *)

Section NgfsMain.
Context {Tables Dbf Inputs Frame : Type}.
Context (cwd_path : string → string).
(** [os.path.join(NGFS_SCENARIOS, tm_run_id)]. *)
Context (tm_run_location : string → string).
(** Lines 2501-2508: the first tables read for a run; lines 2518-2521: the
    network links read with simpledbf; lines 2523-2546: the join and the
    remaining tables.  None of them logs at level INFO. *)
Context (read_run_tables : string → exn + Tables).
Context (read_network_links_dbf : string → exn + Dbf).
Context (read_run_lookups : string → Tables → Dbf → exn + Inputs).
(** The metric functions: those that return a frame, and those that fill
    metrics_dict.  Each logs its own progress. *)
Context (calculate_Affordable1_transportation_costs : string → Logged Frame).
Context (calculate_Affordable2_ratio_time_cost
           : string → Inputs → Ngfs.Dict float → Logged (Ngfs.Dict float)).
Context (calculate_Efficient1_ratio_travel_time : string → Logged Frame).
Context (calculate_Efficient2_commute_mode_share : string → Logged Frame).
Context (calculate_Reliable1_change_travel_time
           : string → Inputs → Ngfs.Dict float → Logged (Ngfs.Dict float)).
Context (calculate_Reliable2_ratio_peak_nonpeak
           : string → Inputs → Ngfs.Dict float → Logged (Ngfs.Dict float)).
Context (calculate_Safe1_fatalities_freeways_nonfreeways
           : string → Inputs → Ngfs.Dict float → Logged (Ngfs.Dict float)).
Context (calculate_Safe2_change_in_vmt : string → Logged Frame).
Context (calculate_top_level_metrics : string → Inputs → Logged Frame).
Context (metrics_dict_to_df : Ngfs.Dict float → Frame).
(** [pd.DataFrame()], [pd.concat([x, y])] and [df[METRICS_COLUMNS]]. *)
Context (empty_frame : Frame) (concat2 : Frame → Frame → Frame).
Context (select_METRICS_COLUMNS : Frame → exn + Frame).

Definition ngfs_out_name (tm_run_id : string) : string :=
  "ngfs_metrics_" +:+ tm_run_id +:+ ".csv".

(** Line 2516: the file named in the message "Reading ...". *)
Definition network_links_file (tm_run_id : string) : string :=
  tm_run_location tm_run_id +:+ "\OUTPUT\shapefile\network_links.DBF".

(** Lines 2481-2582: the body of the loop between "Processing run ..." and
    [to_csv].  ODTRAVELTIME_FILENAME is not the reduced file (line 193), so
    the network links are read from the DBF and the reading is logged. *)
Definition ngfs_process (tm_run_id : string) : Logged Frame :=
  let* tables := lift (read_run_tables tm_run_id) in
  let* _ := info ("Reading " +:+ network_links_file tm_run_id) in
  let* network_links_dbf := lift (read_network_links_dbf tm_run_id) in
  let* inputs := lift (read_run_lookups tm_run_id tables network_links_dbf) in
  let metrics_dict := [] in
  let metrics_df := empty_frame in
  let* affordable1_metrics_df := calculate_Affordable1_transportation_costs tm_run_id in
  let metrics_df := concat2 metrics_df affordable1_metrics_df in
  let* metrics_dict := calculate_Affordable2_ratio_time_cost tm_run_id inputs metrics_dict in
  let* efficient1_metrics_df := calculate_Efficient1_ratio_travel_time tm_run_id in
  let metrics_df := concat2 metrics_df efficient1_metrics_df in
  let* efficient2_metrics_df := calculate_Efficient2_commute_mode_share tm_run_id in
  let metrics_df := concat2 metrics_df efficient2_metrics_df in
  let* metrics_dict := calculate_Reliable1_change_travel_time tm_run_id inputs metrics_dict in
  let* metrics_dict := calculate_Reliable2_ratio_peak_nonpeak tm_run_id inputs metrics_dict in
  let* metrics_dict := calculate_Safe1_fatalities_freeways_nonfreeways tm_run_id inputs metrics_dict in
  let* safe2_metrics_df := calculate_Safe2_change_in_vmt tm_run_id in
  let metrics_df := concat2 metrics_df safe2_metrics_df in
  let* toplevel_metrics_df := calculate_top_level_metrics tm_run_id inputs in
  let metrics_df := concat2 metrics_df toplevel_metrics_df in
  let metrics_df := concat2 metrics_df (metrics_dict_to_df metrics_dict) in
  lift (select_METRICS_COLUMNS metrics_df).

Definition ngfs_main (skip_if_exists : bool) : World Frame → list string → World Frame * option exn :=
  main_loop cwd_path ngfs_out_name ngfs_process skip_if_exists.

(** A message that one of the metric functions logs for the run, whatever
    the tables and the dictionary it is called with. *)
Definition metric_message (tm_run_id msg : string) : Prop :=
  msg ∈ fst (calculate_Affordable1_transportation_costs tm_run_id) ∨
  (∃ inputs d, msg ∈ fst (calculate_Affordable2_ratio_time_cost tm_run_id inputs d)) ∨
  msg ∈ fst (calculate_Efficient1_ratio_travel_time tm_run_id) ∨
  msg ∈ fst (calculate_Efficient2_commute_mode_share tm_run_id) ∨
  (∃ inputs d, msg ∈ fst (calculate_Reliable1_change_travel_time tm_run_id inputs d)) ∨
  (∃ inputs d, msg ∈ fst (calculate_Reliable2_ratio_peak_nonpeak tm_run_id inputs d)) ∨
  (∃ inputs d, msg ∈ fst (calculate_Safe1_fatalities_freeways_nonfreeways tm_run_id inputs d)) ∨
  msg ∈ fst (calculate_Safe2_change_in_vmt tm_run_id) ∨
  (∃ inputs, msg ∈ fst (calculate_top_level_metrics tm_run_id inputs)).
End NgfsMain.

End Main.

(** ** Vocabulary of the statements *)

(** Masks on rows by grouping key. *)
Definition key_is {R K} `{EqDecision K} (by_ : R → option K) (k : K) (r : R) : bool :=
  Frames.key_pass (λ k', bool_decide (k = k')) (by_ r).

Definition key_present {R K} (by_ : R → option K) (r : R) : bool :=
  Frames.key_pass (λ _, true) (by_ r).

(** The measures summed at lines 189-195 of Safe2_change_in_vmt.py: each
    aggregated column with the link measure it sums. *)
Definition ft_measures : list ((Safe2.VmtSums → Qc) * (Safe2.NetLink → Qc)) :=
  [ (Safe2.sum_Total_VMT, Safe2.Total_VMT); (Safe2.sum_VHT, Safe2.VHT);
    (Safe2.sum_EA_VMT, Safe2.EA_VMT); (Safe2.sum_AM_VMT, Safe2.AM_VMT);
    (Safe2.sum_MD_VMT, Safe2.MD_VMT); (Safe2.sum_PM_VMT, Safe2.PM_VMT);
    (Safe2.sum_EV_VMT, Safe2.EV_VMT) ].

(** The cells of a link that the measures are computed from are
    non-negative integers. *)
Definition exact_inputs (l : Safe2.NetLink) : bool :=
  forallb count_like
    [ Safe2.distance l;
      Safe2.volEA_tot l; Safe2.volAM_tot l; Safe2.volMD_tot l; Safe2.volPM_tot l;
      Safe2.volEV_tot l;
      Safe2.ctimEA l; Safe2.ctimAM l; Safe2.ctimMD l; Safe2.ctimPM l; Safe2.ctimEV l ].

(** A network on which a measure is computed and summed without rounding:
    integer inputs, an integer value of the measure on every link (for VHT:
    vehicle minutes that are a multiple of 60), and volumes, vehicle miles
    and vehicle minutes that add up to less than 2^53 over the network, which
    bounds every intermediate result of every measure. *)
Definition exact_measure (col : Safe2.NetLink → Qc) (net : list Safe2.NetLink) : bool :=
  forallb exact_inputs net
  && forallb (λ l, count_like (col l)) net
  && below_2_53 (Qc_sum (map (λ l, Safe2.volEA_tot l + Safe2.volAM_tot l + Safe2.volMD_tot l
                                   + Safe2.volPM_tot l + Safe2.volEV_tot l)%Qc net))
  && below_2_53 (Qc_sum (map Safe2.Total_VMT net))
  && below_2_53 (Qc_sum (map (λ l, Qc_of_Z 60 * Safe2.VHT l)%Qc net)).

(** The groups of one Freeway/Non-Freeway label. *)
Definition fwy_is (label : string) (k : Safe2.FtKey) : bool :=
  String.eqb (fst (fst (fst (fst k)))) label.


(** The wide table that Safe 2 melts (line 199). *)
Definition Safe2_wide (auto_times : list Safe2.AutoTimes) (net : list Safe2.NetLink)
    (links : list Safe2.LinkTaz) (epc : list Safe2.EpcRow) : Frames.DataFrame :=
  Frames.concat [Safe2.auto_times_frame
                   (Frames.groupby_sum Safe2.auto_by Safe2.auto_vals Safe2.pair_add
                      Safe2.auto_key_le auto_times);
                 Safe2.ft_metrics_frame (Safe2.ft_metrics_df net links epc)].

(** ** Example inputs *)

(** A special-facility link (ft = 9) carrying 7 vehicle miles. *)
Definition special_facility_link : Safe2.NetLink :=
  {| Safe2.a_node := 5; Safe2.b_node := 6; Safe2.ft := 9; Safe2.tollclass := None;
     Safe2.distance := Qc_of_Z 1;
     Safe2.volEA_tot := Qc_of_Z 7; Safe2.volAM_tot := Qc_of_Z 0; Safe2.volMD_tot := Qc_of_Z 0;
     Safe2.volPM_tot := Qc_of_Z 0; Safe2.volEV_tot := Qc_of_Z 0;
     Safe2.ctimEA := Qc_of_Z 1; Safe2.ctimAM := Qc_of_Z 1; Safe2.ctimMD := Qc_of_Z 1;
     Safe2.ctimPM := Qc_of_Z 1; Safe2.ctimEV := Qc_of_Z 1 |}.

(** Three trip records: two auto commute peak, one transit noncommute offpeak. *)
Definition example_trips : list Ngfs.Trip :=
  [ {| Ngfs.trip_mode := 1; Ngfs.tour_purpose := "work_low"; Ngfs.timeCode := "AM";
       Ngfs.freq := Qc_of_Z 3 |};
    {| Ngfs.trip_mode := 9; Ngfs.tour_purpose := "shopping"; Ngfs.timeCode := "MD";
       Ngfs.freq := Qc_of_Z 4 |};
    {| Ngfs.trip_mode := 2; Ngfs.tour_purpose := "work_med"; Ngfs.timeCode := "PM";
       Ngfs.freq := Qc_of_Z 5 |} ].

(** An arterial link, its single TAZ record and a crosswalk without that TAZ. *)
Definition recode_example_link : Safe2.NetLink :=
  {| Safe2.a_node := 1; Safe2.b_node := 2; Safe2.ft := 7; Safe2.tollclass := Some 30;
     Safe2.distance := Qc_of_Z 1;
     Safe2.volEA_tot := Qc_of_Z 1; Safe2.volAM_tot := Qc_of_Z 1; Safe2.volMD_tot := Qc_of_Z 1;
     Safe2.volPM_tot := Qc_of_Z 1; Safe2.volEV_tot := Qc_of_Z 1;
     Safe2.ctimEA := Qc_of_Z 1; Safe2.ctimAM := Qc_of_Z 1; Safe2.ctimMD := Qc_of_Z 1;
     Safe2.ctimPM := Qc_of_Z 1; Safe2.ctimEV := Qc_of_Z 1 |}.

Definition recode_example_linktaz : Safe2.LinkTaz :=
  {| Safe2.A_node := 1; Safe2.B_node := 2; Safe2.TAZ1454 := 100;
     Safe2.linktaz_share := Qc_of_Z 1 |}.

Definition recode_example_links : list Safe2.LinkTaz := [recode_example_linktaz].

Definition recode_example_epc : list Safe2.EpcRow :=
  [ {| Safe2.epc_TAZ1454 := 7; Safe2.taz_epc := 1 |} ].

(** The row of the joined network table for that link: its TAZ (100) has no
    row in the crosswalk, its tollclass is 30. *)
Definition recode_example_row : Safe2.NetRow :=
  (recode_example_link, Some (0%nat, (recode_example_linktaz, None)),
   Some (Safe2.Build_FtRow 7 (Some "Non-Freeway"%string) (Some "Arterial"%string))).

(** A link of the two-link scenario, its whole volume in the AM period. *)
Definition scenario_link (a b ft_ : Z) (vol dist : Z) : Safe2.NetLink :=
  {| Safe2.a_node := a; Safe2.b_node := b; Safe2.ft := ft_; Safe2.tollclass := Some 0;
     Safe2.distance := Qc_of_Z dist;
     Safe2.volEA_tot := Qc_of_Z 0; Safe2.volAM_tot := Qc_of_Z vol; Safe2.volMD_tot := Qc_of_Z 0;
     Safe2.volPM_tot := Qc_of_Z 0; Safe2.volEV_tot := Qc_of_Z 0;
     Safe2.ctimEA := Qc_of_Z 1; Safe2.ctimAM := Qc_of_Z 1; Safe2.ctimMD := Qc_of_Z 1;
     Safe2.ctimPM := Qc_of_Z 1; Safe2.ctimEV := Qc_of_Z 1 |}.

(** Two auto_times.csv records. *)
Definition example_auto_times : list Safe2.AutoTimes :=
  [ {| Safe2.Income := Some "inc1"%string; Safe2.Mode := Some "da"%string;
       Safe2.Vehicle_Miles := Qc_of_Z 3; Safe2.Vehicle_Minutes := Qc_of_Z 120 |};
    {| Safe2.Income := Some "na"%string; Safe2.Mode := Some "truck"%string;
       Safe2.Vehicle_Miles := Qc_of_Z 5; Safe2.Vehicle_Minutes := Qc_of_Z 60 |} ].

(** A metrics_dict holding one corridor travel time for a run and, when
    [val_base] is given, for the base run. *)
Definition delta_example_key (run : string) : Ngfs.MetricKey :=
  Ngfs.MetricKeyOf "EastBay_880" "Travel Time" " " run "Reliable 1" "extra" "By Corridor"
    "travel_time_EastBay_880_AM" "2035".

Definition delta_example_dict (val_run : float) (val_base : option float) : Ngfs.Dict float :=
  (delta_example_key "2035_TM152_NGF_Path1", val_run)
  :: match val_base with
     | Some v => [(delta_example_key "2035_TM152_NGF_Path4", v)]
     | None => []
     end.






(** [os.path.join] under NGFS_SCENARIOS, with the separator of Windows. *)
Definition example_scenario_path (tm_run_id : string) (parts : list string) : string :=
  foldl (λ path part, path +:+ "\" +:+ part)
    ("L:\Application\Model_One\NextGenFwys\Scenarios\" +:+ tm_run_id) parts.

(** A batch for ngfs_metrics.py in which one metric of one run cannot read
    its input: frames are lists of metric names; a metric function that
    returns a frame logs "Calculating <metric> for <run>", reads its input
    file, which is missing for one run and has one row for the others, and
    logs "  Read 1 rows from <file>"; the dictionary-filling metrics leave
    the dictionary as it is and log nothing. *)
Definition example_frame_metric (name : string) (file : list string) (bad_run : string)
    (tm_run_id : string) : Main.Logged (list string) :=
  Main.logged_bind (Main.info ("Calculating " +:+ name +:+ " for " +:+ tm_run_id)) (λ _,
  Main.logged_bind
    (Main.lift (if String.eqb tm_run_id bad_run then inl FileNotFoundError else inr 1%nat))
    (λ rows,
  Main.logged_bind (Main.info (Main.read_message rows (example_scenario_path tm_run_id file)))
    (λ _, Main.ret [name]))).

Definition example_dict_metric (tm_run_id : string) (inputs : unit)
    (metrics_dict : Ngfs.Dict float) : Main.Logged (Ngfs.Dict float) :=
  Main.ret metrics_dict.

Definition example_cwd_path (name : string) : string := "metrics/" +:+ name.

Definition example_run_location (tm_run_id : string) : string :=
  "L:\Application\Model_One\NextGenFwys\Scenarios\" +:+ tm_run_id.

Definition example_ngfs_process : string → Main.Logged (list string) :=
  Main.ngfs_process example_run_location (λ _, inr tt) (λ _, inr tt) (λ _ _ _, inr tt)
    (example_frame_metric "Affordable 1"
       ["OUTPUT"; "core_summaries"; "travel-cost-hhldtraveltype.csv"] "")
    example_dict_metric
    (example_frame_metric "Efficient 1"
       ["OUTPUT"; "core_summaries"; "ODTravelTime_byModeTimeperiodIncome.csv"]
       "2035_TM152_NGF_Path1")
    (example_frame_metric "Efficient 2"
       ["OUTPUT"; "core_summaries"; "JourneyToWork_modes.csv"] "")
    example_dict_metric example_dict_metric example_dict_metric
    (example_frame_metric "Safe 2" ["OUTPUT"; "metrics"; "auto_times.csv"] "")
    (λ tm_run_id _,
       example_frame_metric "overall" ["OUTPUT"; "core_summaries"; "TripDistance.csv"] ""
         tm_run_id)
    (λ _, []) [] (λ x y, x ++ y) (λ df, inr df).

Definition example_ngfs_main (skip_if_exists : bool)
  : Main.World (list string) → list string → Main.World (list string) * option exn :=
  Main.ngfs_main example_cwd_path example_run_location
    (λ _, inr tt) (λ _, inr tt) (λ _ _ _, inr tt)
    (example_frame_metric "Affordable 1"
       ["OUTPUT"; "core_summaries"; "travel-cost-hhldtraveltype.csv"] "")
    example_dict_metric
    (example_frame_metric "Efficient 1"
       ["OUTPUT"; "core_summaries"; "ODTravelTime_byModeTimeperiodIncome.csv"]
       "2035_TM152_NGF_Path1")
    (example_frame_metric "Efficient 2"
       ["OUTPUT"; "core_summaries"; "JourneyToWork_modes.csv"] "")
    example_dict_metric example_dict_metric example_dict_metric
    (example_frame_metric "Safe 2" ["OUTPUT"; "metrics"; "auto_times.csv"] "")
    (λ tm_run_id _,
       example_frame_metric "overall" ["OUTPUT"; "core_summaries"; "TripDistance.csv"] ""
         tm_run_id)
    (λ _, []) [] (λ x y, x ++ y) (λ df, inr df) skip_if_exists.

Definition empty_world {Out} : Main.World Out := {| Main.files := ∅; Main.log := [] |}.

(** A run directory for Safe2_change_in_vmt.py and a working directory that
    already holds the output of that run. *)
Definition example_scenarios : gmap string Main.RunOutput :=
  {[ "2035_TM152_NGF_Path1"%string :=
       {| Main.auto_times_csv := Some example_auto_times;
          Main.avgload5period_csv := Some [special_facility_link];
          Main.network_links_TAZ_csv := Some [] |} ]}.

Definition stale_frame : Frames.DataFrame :=
  {| Frames.columns := ["value"%string]; Frames.data := [] |}.

Definition example_world : Main.World Frames.DataFrame :=
  {| Main.files := {[ example_cwd_path (Main.Safe2_out_name "2035_TM152_NGF_Path1") := stale_frame ]};
     Main.log := [] |}.

(** Two TAZ records of link (1, 2), shares 1/3 and 2/3, and one of link (2, 3). *)
Definition example_links : list Safe2.LinkTaz :=
  [ {| Safe2.A_node := 1; Safe2.B_node := 2; Safe2.TAZ1454 := 200;
       Safe2.linktaz_share := Q2Qc (1 # 3) |};
    {| Safe2.A_node := 1; Safe2.B_node := 2; Safe2.TAZ1454 := 400;
       Safe2.linktaz_share := Q2Qc (2 # 3) |};
    {| Safe2.A_node := 2; Safe2.B_node := 3; Safe2.TAZ1454 := 10;
       Safe2.linktaz_share := Qc_of_Z 1 |} ].

(** A crosswalk that lists TAZ 400 twice. *)
Definition example_epc : list Safe2.EpcRow :=
  [ {| Safe2.epc_TAZ1454 := 400; Safe2.taz_epc := 1 |};
    {| Safe2.epc_TAZ1454 := 400; Safe2.taz_epc := 1 |} ].

(** A mask on links by facility type. *)
Definition ft_in (codes : list Z) (l : Safe2.NetLink) : bool :=
  Ngfs.isin (Safe2.ft l) codes.

(** The two measures that both the Safe 2 roll-up and the top-level metrics
    sum by facility type: the metric description of the top-level entry, the
    aggregated column of the roll-up and the link measure of
    calculate_top_level_metrics. *)
Definition shared_measures : list (string * (Safe2.VmtSums → Qc) * (Safe2.NetLink → Qc)) :=
  [ ("VMT"%string, Safe2.sum_Total_VMT, Ngfs.total_vmt);
    ("VHT"%string, Safe2.sum_VHT, Ngfs.total_vht) ].

(** A network of a freeway link, a freeway ramp and a dummy link: 200, 50
    and 10 vehicle miles. *)
Definition example_ramp_network : list Safe2.NetLink :=
  [ scenario_link 1 2 1 100 2; scenario_link 2 3 5 50 1; scenario_link 3 4 6 10 1 ].

(** The metric descriptions of the corridor travel times and speeds, as
    lines 787-792, 1547, 1554 and 1594 of ngfs_metrics.py build them:
    ['<stem>%s' % i + '_AM']. *)
Definition corridor_metric_desc (stem i : string) : string := stem +:+ i +:+ "_AM".

Definition travel_time_stems : list string :=
  ["travel_time_"; "Freeway_travel_time_"; "Parallel_Arterial_travel_time_";
   "Tolled_Arterial_travel_time_"]%string.

(** No nonempty suffix of [pre] starts with [sep] or is a beginning of
    [sep]: no occurrence of [sep] starts inside [pre], whatever follows. *)
Fixpoint no_overlap (sep pre : string) : bool :=
  match pre with
  | EmptyString => true
  | String _ pre' =>
      negb (String.prefix sep pre) && negb (String.prefix pre sep) && no_overlap sep pre'
  end.

(** ** The run list of both scripts *)

Module Runs.

(** A row of the sheet all_runs of ModelRuns.xlsx, the columns the scripts
    read by name.  A blank cell is [None]. *)
Record RunRow := {
  year : option Z;
  directory : string;
  category : option string;
  status : option string
}.

(** Lines 237-240 of Safe2_change_in_vmt.py, 2384-2387 of ngfs_metrics.py. *)
Definition current_runs_df (all_runs : list RunRow) : list RunRow :=
  filter (λ r, year r = Some 2035) (filter (λ r, status r = Some "current"%string) all_runs).

(** Line 246, line 2393. *)
Definition current_runs_list (all_runs : list RunRow) : list string :=
  map directory (current_runs_df all_runs).

End Runs.


(** A run sheet with one current 2035 run, the current 2015 run and a
    superseded 2035 run. *)
Definition example_all_runs : list Runs.RunRow :=
  [ {| Runs.year := Some 2035; Runs.directory := "2035_TM152_NGF_Path1";
       Runs.category := Some "Pathway 1a"%string; Runs.status := Some "current"%string |};
    {| Runs.year := Some 2015; Runs.directory := "2015_TM152_NGF_05";
       Runs.category := None; Runs.status := Some "current"%string |};
    {| Runs.year := Some 2035; Runs.directory := "2035_TM152_NGF_Path4_01";
       Runs.category := Some "Pathway 4"%string; Runs.status := Some "superseded"%string |} ].

(** ** ngfs_metrics.py, trips_commute_mode_pkop: totals and shares *)

Module TripShares.
Import Frames.

(** Division of two numeric columns, on cells that are integers below 2^53:
    the binary64 quotient.  pandas raises nothing on a zero denominator: the
    quotient is then an infinity or NaN. *)
Definition pandas_div (x y : Qc) : float := (Qc_to_float x / Qc_to_float y)%float.

(** A row of the frame the function returns.  The grouping columns are
    absent from some of the concatenated blocks; an absent cell is [None]. *)
Record MetricRow := {
  grouping1 : option string;
  grouping2 : option string;
  grouping3 : option string;
  key : string;
  intermediate_final : string;
  metric_desc : string;
  value : float
}.

(** A row of the rolled-up tm_trips_df: agg_trip_mode, commute_non,
    peak_non, trips. *)
Definition TripGroup : Type := (string * string * string * Qc)%type.

Definition agg_trip_mode (g : TripGroup) : string := fst (fst (fst g)).
Definition commute_non (g : TripGroup) : string := snd (fst (fst g)).
Definition peak_non (g : TripGroup) : string := snd (fst g).
Definition trips (g : TripGroup) : Qc := snd g.

Definition pair_key_le (k1 k2 : string * string) : bool :=
  not_gt (lex (String.compare (fst k1) (fst k2)) (String.compare (snd k1) (snd k2))).

(** Lines 226-236: total trips. *)
Definition metrics_trip_df (metric_id : string) (tm_trips_df : list TripGroup) : list MetricRow :=
  map (λ g, {| grouping1 := Some (commute_non g);
               grouping2 := Some (agg_trip_mode g);
               grouping3 := Some (peak_non g);
               key := commute_non g +:+ "_" +:+ agg_trip_mode g +:+ "_" +:+ peak_non g;
               intermediate_final := metric_id;
               metric_desc := "trips";
               value := Qc_to_float (trips g) |})
    tm_trips_df.

(** The quotient of a row's trips by the total joined to it; a row without
    a joined total has a missing total, and its quotient is NaN. *)
Definition share_value (g : TripGroup) (total : option (string * string * Qc)) : float :=
  match total with
  | Some (_, total_trips) => pandas_div (trips g) total_trips
  | None => nan
  end.

(** Lines 245-250: the row totals over peak and offpeak, joined on the
    common columns agg_trip_mode and commute_non. *)
Definition peak_offpeak_trips (tm_trips_df : list TripGroup) : list (string * string * Qc) :=
  groupby_sum (λ g, Some (agg_trip_mode g, commute_non g)) trips Qcplus pair_key_le tm_trips_df.

(** Lines 243-258. *)
Definition metrics_peak_offpeak_share_df (metric_id : string) (tm_trips_df : list TripGroup)
  : list MetricRow :=
  map (λ x, let g := fst x in
            {| grouping1 := None; grouping2 := None; grouping3 := None;
               key := peak_non g;
               intermediate_final := metric_id;
               metric_desc := agg_trip_mode g +:+ "_" +:+ commute_non g
                              +:+ "_peak-vs-offpeak_share";
               value := share_value g (snd x) |})
    (merge_left (λ g, (agg_trip_mode g, commute_non g)) fst
       tm_trips_df (peak_offpeak_trips tm_trips_df)).

(** Lines 262-267: the totals over modes, joined on commute_non and peak_non. *)
Definition allmode_trips (tm_trips_df : list TripGroup) : list (string * string * Qc) :=
  groupby_sum (λ g, Some (commute_non g, peak_non g)) trips Qcplus pair_key_le tm_trips_df.

(** Lines 260-279; the rows are sorted by metric_desc.  The default sort of
    sort_values need not keep rows of equal metric_desc in their order: the
    statements take this frame up to the order of its rows. *)
Definition metrics_modeshare_df (metric_id : string) (tm_trips_df : list TripGroup)
  : list MetricRow :=
  sort_by (λ x y, not_gt (String.compare (metric_desc x) (metric_desc y)))
    (map (λ x, let g := fst x in
               {| grouping1 := Some (peak_non g);
                  grouping2 := Some (commute_non g);
                  grouping3 := None;
                  key := agg_trip_mode g;
                  intermediate_final := metric_id;
                  metric_desc := peak_non g +:+ "_" +:+ commute_non g +:+ "_mode_share";
                  value := share_value g (snd x) |})
       (merge_left (λ g, (commute_non g, peak_non g)) fst
          tm_trips_df (allmode_trips tm_trips_df))).

(** The function, on the trip table already read from the run directory. *)
Definition trips_commute_mode_pkop (metric_id : string) (TripDistance : list Ngfs.Trip)
  : list MetricRow :=
  let tm_trips_df := Ngfs.tm_trips_df TripDistance in
  metrics_trip_df metric_id tm_trips_df
  ++ metrics_peak_offpeak_share_df metric_id tm_trips_df
  ++ metrics_modeshare_df metric_id tm_trips_df.

End TripShares.

(** Masks on the trip table: the trips of the aggregate mode and commute
    class of a group, and those of its commute class and period. *)
Definition same_mode_commute (g : TripShares.TripGroup) (t : Ngfs.Trip) : bool :=
  bool_decide ((TripShares.agg_trip_mode g, TripShares.commute_non g)
               = (Ngfs.agg_trip_mode t, Ngfs.commute_non t)).

Definition same_commute_peak (g : TripShares.TripGroup) (t : Ngfs.Trip) : bool :=
  bool_decide ((TripShares.commute_non g, TripShares.peak_non g)
               = (Ngfs.commute_non t, Ngfs.peak_non t)).

(** ** ngfs_metrics.py, calculate_Reliable2_ratio_peak_nonpeak: the O-D pairs *)

Module Reliable2.
Import Frames.

(** Lines 68-79. *)
Definition NGFS_OD_CITIES_OF_INTEREST : list (string * string) :=
  [ ("OAKLAND", "SAN FRANCISCO"); ("VALLEJO", "SAN FRANCISCO"); ("ANTIOCH", "SAN FRANCISCO");
    ("ANTIOCH", "OAKLAND"); ("SAN JOSE", "SAN FRANCISCO"); ("OAKLAND", "PALO ALTO");
    ("OAKLAND", "SAN JOSE"); ("LIVERMORE", "SAN JOSE"); ("FAIRFIELD", "DUBLIN");
    ("SANTA ROSA", "SAN FRANCISCO") ]%string.

(** ODTravelTime_byModeTimeperiodIncome.csv after the two joins to the city
    lookup (line 1669): the columns the metric reads.  A TAZ without a city
    has a missing CITY. *)
Record ODRow := {
  trip_mode : Z;
  timeperiod_label : string;
  num_trips : Qc;
  avg_travel_time_in_mins : Qc;
  CITY : option string;
  CITY_dest : option string
}.

(** [series.str.contains(pat) == True]: False on a missing cell. *)
Definition contains_True (pat : string) (c : option string) : bool :=
  match c with Some s => Ngfs.str_contains pat s | None => false end.

(** Lines 1670-1671: auto, taxi and TNC trips with a positive travel time. *)
Definition tm_od_travel_times_df (df : list ODRow) : list ODRow :=
  List.filter (λ r, negb (Qc_leb (avg_travel_time_in_mins r) 0))
    (List.filter (λ r, Ngfs.isin (trip_mode r) [1; 2; 3; 4; 5; 6; 19; 20; 21]) df).

(** Lines 1672-1673. *)
Definition od_tt_peak_df (df : list ODRow) : list ODRow :=
  List.filter (λ r, Ngfs.str_contains "AM Peak" (timeperiod_label r)
                    || Ngfs.str_contains "PM Peak" (timeperiod_label r))
    (tm_od_travel_times_df df).

Definition od_tt_nonpeak_df (df : list ODRow) : list ODRow :=
  List.filter (λ r, Ngfs.str_contains "Midday" (timeperiod_label r)) (tm_od_travel_times_df df).

(** Lines 1683-1686: the rows of one origin and destination. *)
Definition od_rows (od : string * string) (df : list ODRow) : list ODRow :=
  List.filter (λ r, contains_True (snd od) (CITY_dest r))
    (List.filter (λ r, contains_True (fst od) (CITY r)) df).

(** [numpy.average(a, weights)] over the travel times and trip counts of the
    same rows.  It raises ZeroDivisionError when the weights add up to zero,
    as they do for no rows at all; [None] stands for the exception.  The
    quotient is written over [Qc]; numpy rounds it to binary64.  On a table
    with [exact_od_table] the two sums are exact and positive whenever the
    rational ones are, so the rounded quotient is positive exactly when this
    one is: the statements use which case is taken and the sign of the
    quotient, never an identity between quotients. *)
Definition numpy_average (rows : list ODRow) : option Qc :=
  let scl := Qc_sum (map num_trips rows) in
  if decide (scl = 0%Qc) then None
  else Some (Qc_sum (map (λ r, avg_travel_time_in_mins r * num_trips r) rows) / scl)%Qc.

(** Lines 1688-1693: the try block and its bare except. *)
Definition od_averages (od : string * string) (df : list ODRow) : Qc * Qc :=
  match numpy_average (od_rows od (od_tt_peak_df df)) with
  | None => (0, 0)%Qc
  | Some avg_tt_peak =>
      match numpy_average (od_rows od (od_tt_nonpeak_df df)) with
      | None => (0, 0)%Qc
      | Some avg_tt_nonpeak => (avg_tt_peak, avg_tt_nonpeak)
      end
  end.

(** Lines 1696-1699.  The quotient is over [Qc], as in [numpy_average]. *)
Definition ratio_peak_nonpeak (od : string * string) (df : list ODRow) : Qc :=
  let '(avg_tt_peak, avg_tt_nonpeak) := od_averages od df in
  if decide (avg_tt_nonpeak = 0%Qc) then 0%Qc else (avg_tt_peak / avg_tt_nonpeak)%Qc.

Section Loop.
Context (tm_run_id year : string) (df : list ODRow).

Definition metric_key (level key desc : string) : Ngfs.MetricKey :=
  Ngfs.MetricKeyOf " " " " " " tm_run_id "Reliable 2" level key desc year.

Definition od_key (od : string * string) : string := fst od +:+ "_" +:+ snd od.

(** One iteration of the loop over the pairs: the dictionary, the counter
    and the running sum of the ratios. *)
Definition od_step (st : Ngfs.Dict Qc * Z * Qc) (od : string * string)
  : Ngfs.Dict Qc * Z * Qc :=
  let '(metrics_dict, n, total_travel_time) := st in
  let d := Ngfs.dict_set (metric_key "extra" (od_key od) "average peak travel time")
             (fst (od_averages od df)) metrics_dict in
  let d := Ngfs.dict_set (metric_key "extra" (od_key od) "average nonpeak travel time")
             (snd (od_averages od df)) d in
  let d := Ngfs.dict_set (metric_key "intermediate" (od_key od)
                            "ratio of average peak to nonpeak travel time")
             (ratio_peak_nonpeak od df) d in
  let d := Ngfs.dict_set (metric_key "debug step" (od_key od) "observed number of peak trips")
             (Qc_sum (map num_trips (od_rows od (od_tt_peak_df df)))) d in
  let d := Ngfs.dict_set (metric_key "debug step" (od_key od) "observed number of nonpeak trips")
             (Qc_sum (map num_trips (od_rows od (od_tt_nonpeak_df df)))) d in
  (d, n + 1, (total_travel_time + ratio_peak_nonpeak od df)%Qc).

(** Lines 1676-1709.  The pair list is a non-empty constant, so the final
    division is by 10. *)
Definition od_pairs (metrics_dict : Ngfs.Dict Qc) : Ngfs.Dict Qc :=
  let '(d, n, total_travel_time) :=
    foldl od_step (metrics_dict, 0, 0%Qc) NGFS_OD_CITIES_OF_INTEREST in
  Ngfs.dict_set (metric_key "final" "Average across 10 O-D pairs"
                   "ratio_travel_time_peak_nonpeak_across_pairs")
    (total_travel_time / Qc_of_Z n)%Qc d.
End Loop.

End Reliable2.

(** An O-D table whose weighted sums are exact: trip counts and travel times
    that are non-negative integers, with trips and trip minutes that add up
    to less than 2^53 over the table. *)
Definition exact_od_table (df : list Reliable2.ODRow) : bool :=
  forallb (λ r, count_like (Reliable2.num_trips r)
                && count_like (Reliable2.avg_travel_time_in_mins r)) df
  && below_2_53 (Qc_sum (map Reliable2.num_trips df))
  && below_2_53 (Qc_sum (map (λ r, Reliable2.avg_travel_time_in_mins r
                                   * Reliable2.num_trips r)%Qc df)).

(** A peak and a midday record of drive-alone trips from Oakland to San
    Francisco. *)
Definition example_od_rows : list Reliable2.ODRow :=
  [ {| Reliable2.trip_mode := 1; Reliable2.timeperiod_label := "AM Peak";
       Reliable2.num_trips := Qc_of_Z 10; Reliable2.avg_travel_time_in_mins := Qc_of_Z 30;
       Reliable2.CITY := Some "OAKLAND"%string;
       Reliable2.CITY_dest := Some "SAN FRANCISCO"%string |};
    {| Reliable2.trip_mode := 1; Reliable2.timeperiod_label := "Midday";
       Reliable2.num_trips := Qc_of_Z 5; Reliable2.avg_travel_time_in_mins := Qc_of_Z 20;
       Reliable2.CITY := Some "OAKLAND"%string;
       Reliable2.CITY_dest := Some "SAN FRANCISCO"%string |} ].

(** The entries one iteration of the O-D loop of Reliable 2 writes (lines
    1694-1702), with their values. *)
Definition od_entries (tm_run_id year : string) (df : list Reliable2.ODRow)
    (od : string * string) : list (Ngfs.MetricKey * Qc) :=
  [ (Reliable2.metric_key tm_run_id year "extra" (Reliable2.od_key od)
       "average peak travel time",
     fst (Reliable2.od_averages od df));
    (Reliable2.metric_key tm_run_id year "extra" (Reliable2.od_key od)
       "average nonpeak travel time",
     snd (Reliable2.od_averages od df));
    (Reliable2.metric_key tm_run_id year "intermediate" (Reliable2.od_key od)
       "ratio of average peak to nonpeak travel time",
     Reliable2.ratio_peak_nonpeak od df);
    (Reliable2.metric_key tm_run_id year "debug step" (Reliable2.od_key od)
       "observed number of peak trips",
     Qc_sum (map Reliable2.num_trips (Reliable2.od_rows od (Reliable2.od_tt_peak_df df))));
    (Reliable2.metric_key tm_run_id year "debug step" (Reliable2.od_key od)
       "observed number of nonpeak trips",
     Qc_sum (map Reliable2.num_trips (Reliable2.od_rows od (Reliable2.od_tt_nonpeak_df df)))) ].

(** ** ngfs_metrics.py, Safe 1: collision classes and networks *)

Module Safe1.

(** Lines 1816-1822 of calculate_fatalitites: the facility type used for the
    join to the collision rates, set by successive masked assignments. *)
Definition ft_collision (ft lanes : Z) : Z :=
  let c := ft in
  let c := if c =? 1 then 2 else c in
  let c := if c =? 8 then 2 else c in
  let c := if c =? 6 then -1 else c in
  let c := if lanes <=? 0 then -1 else c in
  if 4 <? c then 4 else c.

(** Lines 1817, 1823-1824: the area type used for the join. *)
Definition at_collision (at_ : Z) : Z :=
  let a := at_ in
  let a := if a <? 3 then 3 else a in
  if 4 <? a then 4 else a.

(** Line 1827: the links that stay. *)
Definition kept (ft lanes : Z) : bool := negb (ft_collision ft lanes =? -1).

(** Lines 1902-1903: the exponent of the speed adjustment, a column that
    does not exist before; a link that neither mask selects has none. *)
Definition fatality_exponent (ft_collision : Z) : option Qc :=
  let e := if Ngfs.isin ft_collision [1; 2; 3; 5; 6; 8] then Some (Q2Qc (46 # 10)) else None in
  if Ngfs.isin ft_collision [4; 7] then Some (Qc_of_Z 3) else e.

(** Lines 1962-1963 of calculate_Safe1_fatalities_freeways_nonfreeways: the
    two networks passed to calculate_fatalitites. *)
Definition fwy_network_df (tm_loaded_network_df : list Safe2.NetLink) : list Safe2.NetLink :=
  filter (λ l, Safe2.ft l ≠ 7 ∨ Safe2.ft l ≠ 4 ∨ Safe2.ft l ≠ 3 ∨ Safe2.ft l ≠ 6)
    tm_loaded_network_df.

Definition nonfwy_network_df (tm_loaded_network_df : list Safe2.NetLink) : list Safe2.NetLink :=
  filter (λ l, Safe2.ft l = 7 ∨ Safe2.ft l = 4 ∨ Safe2.ft l = 3) tm_loaded_network_df.

End Safe1.

(** * Properties *)

(** ** The code on small inputs *)

Example str_split_AM :
  Ngfs.str_split "_AM" "travel_time_EastBay_880_AM_x_AM"
  = ["travel_time_EastBay_880"; "_x"; ""]%string.
Proof. reflexivity. Qed.

Example next_key_corridor :
  Ngfs.next_key "Change" "travel_time_EastBay_880_AM" = "EastBay_880"%string.
Proof. reflexivity. Qed.

Example next_key_average :
  Ngfs.next_key "EastBay_880" "Fwy_avg_change_across_key_corridors"
  = "Average Across Corridors"%string.
Proof. reflexivity. Qed.

Example next_key_kept : Ngfs.next_key "EastBay_880" "VMT" = "EastBay_880"%string.
Proof. reflexivity. Qed.

Example household_recode_truck :
  map Safe2.household_recode example_auto_times
  = [("Household", Some "inc1"); ("Truck", Some "truck")]%string.
Proof. reflexivity. Qed.

Example trip_keys :
  map Ngfs.trips_by example_trips
  = [Some ("auto", "commute", "peak"); Some ("transit", "noncommute", "offpeak");
     Some ("auto", "commute", "peak")]%string.
Proof. reflexivity. Qed.

(** The link lookup keeps, for link (1, 2), the TAZ of share 2/3, once,
    although the crosswalk join had doubled it. *)
Example link_lookup_example :
  map (λ x, (fst x, Safe2.link_key x, Safe2.TAZ1454 (fst (snd x))))
    (Safe2.tm_network_links_with_epc_df example_links example_epc)
  = [(1%nat, (1, 2), 400); (3%nat, (2, 3), 10)].
Proof. vm_compute. reflexivity. Qed.

(** One link in Santa Clara, in an EPC; one tolled link without a TAZ record;
    the special-facility link has no grouping key. *)
Example ft_by_example :
  map Safe2.ft_by
    (Safe2.loaded_network_df
       [scenario_link 1 2 1 100 2;
        {| Safe2.a_node := 7; Safe2.b_node := 8; Safe2.ft := 7;
           Safe2.tollclass := Some 800000; Safe2.distance := Qc_of_Z 1;
           Safe2.volEA_tot := Qc_of_Z 0; Safe2.volAM_tot := Qc_of_Z 50;
           Safe2.volMD_tot := Qc_of_Z 0; Safe2.volPM_tot := Qc_of_Z 0;
           Safe2.volEV_tot := Qc_of_Z 0;
           Safe2.ctimEA := Qc_of_Z 1; Safe2.ctimAM := Qc_of_Z 1; Safe2.ctimMD := Qc_of_Z 1;
           Safe2.ctimPM := Qc_of_Z 1; Safe2.ctimEV := Qc_of_Z 1 |};
        special_facility_link]
       example_links example_epc)
  = [Some ("Freeway", "Freeway", "EPCs", "Non-tolled facilities", "Santa Clara");
     Some ("Non-Freeway", "Arterial", "Non-EPCs", "Tolled facilities", "San Francisco");
     None]%string.
Proof. vm_compute. reflexivity. Qed.


(** ** Numbers and lists *)

Lemma Qc_leb_le (x y : Qc) : Qc_leb x y = true ↔ (x ≤ y)%Qc.
Proof. unfold Qc_leb, Qcle. apply Qle_bool_iff. Qed.

Lemma Qc_leb_total (x y : Qc) : Qc_leb x y = false → Qc_leb y x = true.
Proof.
  intros H. apply Qc_leb_le. destruct (Qclt_le_dec y x) as [Hlt|Hle].
  - apply Qclt_le_weak. exact Hlt.
  - apply Qc_leb_le in Hle. congruence.
Qed.

Lemma Qc_sum_cons (x : Qc) (l : list Qc) : Qc_sum (x :: l) = (x + Qc_sum l)%Qc.
Proof. reflexivity. Qed.



Lemma map_perm {X Y} (f : X → Y) (l1 l2 : list X) : l1 ≡ₚ l2 → map f l1 ≡ₚ map f l2.
Proof. apply Permutation_map. Qed.

Lemma elem_of_map {X Y} (f : X → Y) (l : list X) (y : Y) :
  y ∈ map f l ↔ ∃ x, y = f x ∧ x ∈ l.
Proof.
  rewrite list_elem_of_In, in_map_iff. split.
  - intros (x & <- & Hx). exists x. by rewrite list_elem_of_In.
  - intros (x & -> & Hx). exists x. by rewrite <- list_elem_of_In.
Qed.


Section SortingFacts.
Context {X : Type} (le : X → X → bool).

Lemma insert_by_perm (x : X) (l : list X) : Frames.insert_by le x l ≡ₚ x :: l.
Proof.
  induction l as [|y l IH]; simpl; [done|].
  destruct (le x y); [done|]. rewrite IH. apply Permutation_swap.
Qed.

Lemma sort_by_perm (l : list X) : Frames.sort_by le l ≡ₚ l.
Proof.
  induction l as [|x l IH]; simpl; [done|].
  rewrite insert_by_perm. by rewrite IH.
Qed.

Context (le_total : ∀ x y, le x y = false → le y x = true).
Context (le_trans : ∀ x y z, le x y = true → le y z = true → le x z = true).

Lemma insert_by_sorted (x : X) (l : list X) :
  StronglySorted (λ a b, le a b = true) l →
  StronglySorted (λ a b, le a b = true) (Frames.insert_by le x l).
Proof.
  induction 1 as [|y l Hs IH Hall]; simpl.
  - repeat constructor.
  - destruct (le x y) eqn:Hxy.
    + constructor; [by constructor|]. constructor; [done|].
      eapply Forall_impl; [exact Hall|]. intros z Hz. by eapply le_trans.
    + constructor; [done|].
      rewrite (Forall_forall (λ b, le y b = true)). intros z Hz.
      rewrite insert_by_perm in Hz. apply elem_of_cons in Hz as [->|Hz].
      * by apply le_total.
      * rewrite Forall_forall in Hall. by apply Hall.
Qed.

Lemma sort_by_sorted (l : list X) :
  StronglySorted (λ a b, le a b = true) (Frames.sort_by le l).
Proof.
  induction l as [|x l IH]; simpl; [constructor|]. by apply insert_by_sorted.
Qed.
End SortingFacts.

(** ** Left joins *)

Section MergeFacts.
Context {L R K : Type} `{EqDecision K}.
Context (left_on : L → K) (right_on : R → K).

Lemma matches_unique (l : L) (right : list R) :
  NoDup (map right_on right) → (length (Frames.matches left_on right_on l right) ≤ 1)%nat.
Proof.
  unfold Frames.matches. induction right as [|r right IH]; simpl; [lia|].
  intros Hnd. apply NoDup_cons in Hnd as [Hr Hnd]. rewrite filter_cons.
  destruct (decide (right_on r = left_on l)) as [Heq|]; [|by apply IH].
  assert (filter (λ r0, right_on r0 = left_on l) right = []) as ->; [|simpl; lia].
  apply elem_of_nil_inv. intros x Hx. apply list_elem_of_filter in Hx as [Hk Hx].
  apply Hr. apply elem_of_map. exists x. split; [congruence|done].
Qed.

Lemma merge_left_row_elem (right : list R) (l l' : L) (o : option R) :
  (l', o) ∈ Frames.merge_left_row left_on right_on right l ↔
  l' = l ∧ ((o = None ∧ ∀ r, r ∈ right → right_on r ≠ left_on l)
            ∨ ∃ r, o = Some r ∧ r ∈ right ∧ right_on r = left_on l).
Proof.
  unfold Frames.merge_left_row.
  destruct (Frames.matches left_on right_on l right) as [|m ms] eqn:Hm.
  - rewrite list_elem_of_singleton. split.
    + intros [= -> ->]. split; [done|]. left. split; [done|].
      intros r Hr Hk. eapply filter_nil_not_elem_of; [exact Hm| |exact Hr]. exact Hk.
    + intros [-> [[-> _]|(r & -> & Hr & Hk)]]; [done|].
      exfalso. eapply filter_nil_not_elem_of; [exact Hm| |exact Hr]. exact Hk.
  - rewrite elem_of_map. split.
    + intros (r & [= -> ->] & Hr). split; [done|]. right. exists r.
      rewrite <- Hm in Hr. apply list_elem_of_filter in Hr as [Hk Hr]. done.
    + intros [-> [[-> Hno]|(r & -> & Hr & Hk)]].
      * exfalso. apply (Hno m); [|].
        -- assert (m ∈ Frames.matches left_on right_on l right) as Hin
             by (rewrite Hm; left).
           by apply list_elem_of_filter in Hin as [_ Hin].
        -- assert (m ∈ Frames.matches left_on right_on l right) as Hin
             by (rewrite Hm; left).
           by apply list_elem_of_filter in Hin as [Hk _].
      * exists r. split; [done|]. rewrite <- Hm. by apply list_elem_of_filter.
Qed.

Lemma merge_left_elem (left : list L) (right : list R) (l : L) (o : option R) :
  (l, o) ∈ Frames.merge_left left_on right_on left right ↔
  l ∈ left ∧ ((o = None ∧ ∀ r, r ∈ right → right_on r ≠ left_on l)
              ∨ ∃ r, o = Some r ∧ r ∈ right ∧ right_on r = left_on l).
Proof.
  unfold Frames.merge_left. rewrite list_elem_of_In, in_flat_map. split.
  - intros (l0 & Hl0 & Hin). apply list_elem_of_In, merge_left_row_elem in Hin as [-> Hcase].
    split; [by apply list_elem_of_In|done].
  - intros [Hl Hcase]. exists l. split; [by apply list_elem_of_In|].
    apply list_elem_of_In, merge_left_row_elem. done.
Qed.

(** With at most one candidate per key the join returns the left table,
    row for row. *)
Lemma merge_left_fst (left : list L) (right : list R) :
  NoDup (map right_on right) →
  map fst (Frames.merge_left left_on right_on left right) = left.
Proof.
  intros Hnd. unfold Frames.merge_left. induction left as [|l left IH]; simpl; [done|].
  rewrite map_app, IH. f_equal. clear IH. unfold Frames.merge_left_row.
  pose proof (matches_unique l right Hnd) as Hlen.
  destruct (Frames.matches left_on right_on l right) as [|m [|m' ms]]; simpl in *;
    [done|done|lia].
Qed.
End MergeFacts.

(** ** Removing duplicates *)

Section DropDuplicatesFacts.
Context {X K : Type} `{EqDecision K} (subset : X → K).

Lemma drop_duplicates_from_elem (seen : list K) (l : list X) (x : X) :
  x ∈ Frames.drop_duplicates_from subset seen l → x ∈ l ∧ subset x ∉ seen.
Proof.
  revert seen. induction l as [|y l IH]; simpl; intros seen Hx.
  - by apply elem_of_nil in Hx.
  - destruct (decide (subset y ∈ seen)) as [Hy|Hy].
    + apply IH in Hx as [Hx Hs]. split; [by right|done].
    + apply elem_of_cons in Hx as [->|Hx]; [split; [left|done]|].
      apply IH in Hx as [Hx Hs]. split; [by right|].
      intros Hin. apply Hs. by right.
Qed.

Lemma drop_duplicates_from_NoDup (seen : list K) (l : list X) :
  NoDup (map subset (Frames.drop_duplicates_from subset seen l)).
Proof.
  revert seen. induction l as [|y l IH]; simpl; intros seen; [constructor|].
  destruct (decide (subset y ∈ seen)) as [Hy|Hy]; [apply IH|].
  simpl. apply NoDup_cons. split; [|apply IH].
  intros Hin. apply elem_of_map in Hin as (x & Hk & Hx).
  apply drop_duplicates_from_elem in Hx as [_ Hs]. apply Hs. rewrite <- Hk. left.
Qed.

Lemma drop_duplicates_from_covers (seen : list K) (l : list X) (x : X) :
  x ∈ l → subset x ∉ seen →
  ∃ y, y ∈ Frames.drop_duplicates_from subset seen l ∧ subset y = subset x.
Proof.
  revert seen. induction l as [|y l IH]; simpl; intros seen Hx Hs.
  - by apply elem_of_nil in Hx.
  - destruct (decide (subset y ∈ seen)) as [Hy|Hy].
    + apply elem_of_cons in Hx as [->|Hx]; [done|]. by apply IH.
    + destruct (decide (subset x = subset y)) as [Heq|Hne].
      * exists y. split; [left|done].
      * apply elem_of_cons in Hx as [->|Hx]; [done|].
        destruct (IH (subset y :: seen) Hx) as (z & Hz & Hk).
        -- intros Hin. apply elem_of_cons in Hin as [?|?]; done.
        -- exists z. split; [by right|done].
Qed.

(** On a list sorted by [R], the row kept for a key is [R]-before every
    other row of that key. *)
Lemma drop_duplicates_from_first (R : X → X → Prop) (seen : list K) (l : list X) :
  (∀ x, R x x) → StronglySorted R l →
  ∀ y x, y ∈ Frames.drop_duplicates_from subset seen l → x ∈ l →
         subset x = subset y → R y x.
Proof.
  intros Hrefl Hs. revert seen. induction Hs as [|h t Hs IH Hall]; simpl; intros seen y x Hy Hx Hk.
  - by apply elem_of_nil in Hx.
  - rewrite Forall_forall in Hall.
    destruct (decide (subset h ∈ seen)) as [Hh|Hh].
    + pose proof (drop_duplicates_from_elem _ _ _ Hy) as [_ Hys].
      apply elem_of_cons in Hx as [->|Hx]; [congruence|]. by eapply IH.
    + apply elem_of_cons in Hy as [->|Hy].
      * apply elem_of_cons in Hx as [->|Hx]; [done|]. by apply Hall.
      * pose proof (drop_duplicates_from_elem _ _ _ Hy) as [_ Hys].
        apply elem_of_cons in Hx as [->|Hx].
        -- exfalso. apply Hys. rewrite Hk. left.
        -- by eapply IH.
Qed.
End DropDuplicatesFacts.

(** ** Safe 2: the link lookup and the joins *)

Section Safe2Joins.
Import Frames Safe2.
Context (net : list NetLink) (links : list LinkTaz) (epc : list EpcRow).

Lemma share_desc_total (x y : indexed LinkEpc) :
  share_desc x y = false → share_desc y x = true.
Proof. unfold share_desc. apply Qc_leb_total. Qed.

Lemma share_desc_trans (x y z : indexed LinkEpc) :
  share_desc x y = true → share_desc y z = true → share_desc x z = true.
Proof.
  unfold share_desc. rewrite !Qc_leb_le. intros H1 H2. by eapply Qcle_trans.
Qed.

Lemma links_with_epc_elem (x : indexed LinkEpc) :
  x ∈ tm_network_links_with_epc_df links epc ↔
  x ∈ drop_duplicates link_key (sort_by share_desc (links_epc_merged links epc)).
Proof. unfold tm_network_links_with_epc_df, sort_index. by rewrite sort_by_perm. Qed.

Lemma links_with_epc_NoDup :
  NoDup (map link_key (tm_network_links_with_epc_df links epc)).
Proof.
  unfold tm_network_links_with_epc_df, sort_index.
  rewrite (map_perm link_key _ _ (sort_by_perm _ _)).
  apply drop_duplicates_from_NoDup.
Qed.

Lemma links_with_epc_merged (x : indexed LinkEpc) :
  x ∈ tm_network_links_with_epc_df links epc → x ∈ links_epc_merged links epc.
Proof.
  rewrite links_with_epc_elem. intros Hx.
  apply drop_duplicates_from_elem in Hx as [Hx _]. by rewrite sort_by_perm in Hx.
Qed.

(** Largest share wins. *)
Lemma links_with_epc_largest (x y : indexed LinkEpc) :
  x ∈ tm_network_links_with_epc_df links epc →
  y ∈ links_epc_merged links epc → link_key y = link_key x →
  (share_of y ≤ share_of x)%Qc.
Proof.
  rewrite links_with_epc_elem. intros Hx Hy Hk.
  apply Qc_leb_le. change (share_desc x y = true).
  eapply (drop_duplicates_from_first link_key (λ a b, share_desc a b = true));
    [| |exact Hx| |exact Hk].
  - intros z. unfold share_desc. apply Qc_leb_le, Qcle_refl.
  - apply sort_by_sorted; [apply share_desc_total|apply share_desc_trans].
  - by rewrite sort_by_perm.
Qed.

Lemma links_with_epc_covers (y : indexed LinkEpc) :
  y ∈ links_epc_merged links epc →
  ∃ x, x ∈ tm_network_links_with_epc_df links epc ∧ link_key x = link_key y.
Proof.
  intros Hy.
  destruct (drop_duplicates_from_covers link_key []
              (sort_by share_desc (links_epc_merged links epc)) y) as (x & Hx & Hk).
  - by rewrite sort_by_perm.
  - apply not_elem_of_nil.
  - exists x. split; [by apply links_with_epc_elem|done].
Qed.

Lemma ft_codes_NoDup : NoDup (map ft_code ft_to_grouping_key_df).
Proof. apply (bool_decide_unpack _). vm_compute. reflexivity. Qed.

Lemma loaded_network_joined_fst :
  map fst (loaded_network_joined net links epc) = net.
Proof. apply merge_left_fst, links_with_epc_NoDup. Qed.

Lemma loaded_network_df_links :
  map row_link (loaded_network_df net links epc) = net.
Proof.
  transitivity (map fst (map fst (loaded_network_df net links epc)));
    [by rewrite map_map|].
  unfold loaded_network_df. rewrite merge_left_fst by apply ft_codes_NoDup.
  apply loaded_network_joined_fst.
Qed.
End Safe2Joins.

(** C2. Join preservation: the loaded network, left-joined to the link
    lookup that was reduced to one row per (A, B) by sorting on
    linktaz_share descending and dropping duplicates, has exactly one row for
    each network link, in the original order; the same holds after the
    facility-type join.  The lookup row attached to a link is one with the
    link's key and the largest share among the candidates of that key, and a
    link without any candidate keeps missing lookup cells. *)
Theorem join_preservation (net : list Safe2.NetLink) (links : list Safe2.LinkTaz)
    (epc : list Safe2.EpcRow) :
  map fst (Safe2.loaded_network_joined net links epc) = net ∧
  map Safe2.row_link (Safe2.loaded_network_df net links epc) = net ∧
  ∀ l o, (l, o) ∈ Safe2.loaded_network_joined net links epc →
    match o with
    | Some x =>
        x ∈ Safe2.links_epc_merged links epc ∧ Safe2.link_key x = Safe2.net_key l ∧
        ∀ y, y ∈ Safe2.links_epc_merged links epc →
             Safe2.link_key y = Safe2.net_key l →
             (Safe2.share_of y ≤ Safe2.share_of x)%Qc
    | None =>
        ∀ y, y ∈ Safe2.links_epc_merged links epc → Safe2.link_key y ≠ Safe2.net_key l
    end.
Proof.
  split; [apply loaded_network_joined_fst|].
  split; [apply loaded_network_df_links|].
  intros l o Hin. unfold Safe2.loaded_network_joined in Hin.
  apply merge_left_elem in Hin as [_ [[-> Hno]|(x & -> & Hx & Hk)]].
  - intros y Hy Hky. destruct (links_with_epc_covers links epc y Hy) as (x & Hx & Hkx).
    apply (Hno x Hx). congruence.
  - split; [by apply links_with_epc_merged|]. split; [done|].
    intros y Hy Hky. apply (links_with_epc_largest links epc); [done|done|congruence].
Qed.

Lemma join_preservation_witness :
  map fst (Safe2.loaded_network_joined [scenario_link 1 2 1 100 2; special_facility_link]
             example_links example_epc)
  = [scenario_link 1 2 1 100 2; special_facility_link] ∧
  ∀ y, y ∈ Safe2.links_epc_merged example_links example_epc →
       Safe2.link_key y ≠ Safe2.net_key special_facility_link.
Proof.
  destruct (join_preservation [scenario_link 1 2 1 100 2; special_facility_link]
              example_links example_epc) as (Hfst & _ & Hrows).
  split; [exact Hfst|].
  apply (Hrows special_facility_link None). vm_compute. right. left.
Defined.

(** ** Safe 2: categorical recodes *)

Lemma in_range_false (lo hi z : Z) : ¬ (lo < z < hi) → Safe2.in_range lo hi z = false.
Proof.
  intros H. unfold Safe2.in_range. apply andb_false_iff.
  rewrite !Z.ltb_ge. lia.
Qed.

Lemma reset_index_from_elem {X} (n : nat) (l : list X) (x : Frames.indexed X) :
  x ∈ Frames.reset_index_from n l → snd x ∈ l.
Proof.
  revert n. induction l as [|y l IH]; simpl; intros n Hx.
  - by apply elem_of_nil in Hx.
  - apply elem_of_cons in Hx as [->|Hx]; [left|right; by eapply IH].
Qed.

Lemma EPC_default (r : Safe2.NetRow) :
  Safe2.row_taz_epc r ≠ Some 1 → Safe2.EPC_Non_EPC r = "Non-EPCs"%string.
Proof.
  unfold Safe2.EPC_Non_EPC, Safe2.cell_test. intros H.
  destruct (Safe2.row_taz_epc r) as [z|]; [|done].
  destruct (Z.eqb_spec 1 z) as [<-|]; [done|done].
Qed.

Lemma unmatched_taz_epc (net : list Safe2.NetLink) (links : list Safe2.LinkTaz)
    (epc : list Safe2.EpcRow) (r : Safe2.NetRow) :
  r ∈ Safe2.loaded_network_df net links epc →
  match Safe2.row_lookup r with
  | None => True
  | Some x => ∀ e, e ∈ epc → Safe2.epc_TAZ1454 e ≠ Safe2.TAZ1454 (fst (snd x))
  end →
  Safe2.row_taz_epc r = None.
Proof.
  intros Hr. unfold Safe2.row_taz_epc.
  destruct r as [[l o] f]. unfold Safe2.row_lookup. simpl.
  destruct o as [x|]; [|done]. intros Hno.
  apply merge_left_elem in Hr as [Hr _].
  apply merge_left_elem in Hr as [_ [[? _]|(x' & [= <-] & Hx & _)]]; [done|].
  apply links_with_epc_merged, reset_index_from_elem in Hx.
  destruct x as [i [lt oe]]. simpl in *.
  apply merge_left_elem in Hx as [_ [[-> _]|(e & -> & He & Hk)]]; [done|].
  exfalso. by apply (Hno e).
Qed.

(** C10. Defaults of the Safe 2 recodes, for every row of the joined
    network table: a link with no lookup row, or whose TAZ has no row in the
    EPC crosswalk, or whose taz_epc is not 1, is 'Non-EPCs'; a link whose
    tollclass is missing or at most 700000 is 'Non-tolled facilities'; a link
    whose TAZ is missing or lies in none of the listed county ranges is in
    County 'San Francisco'. *)
Theorem recode_defaults (net : list Safe2.NetLink) (links : list Safe2.LinkTaz)
    (epc : list Safe2.EpcRow) (r : Safe2.NetRow) :
  r ∈ Safe2.loaded_network_df net links epc →
  (match Safe2.row_lookup r with
   | None => True
   | Some x => ∀ e, e ∈ epc → Safe2.epc_TAZ1454 e ≠ Safe2.TAZ1454 (fst (snd x))
   end → Safe2.EPC_Non_EPC r = "Non-EPCs"%string) ∧
  (Safe2.row_taz_epc r ≠ Some 1 → Safe2.EPC_Non_EPC r = "Non-EPCs"%string) ∧
  ((∀ t, Safe2.tollclass (Safe2.row_link r) = Some t → t ≤ 700000) →
   Safe2.Tolled_Non_tolled_Facilities r = "Non-tolled facilities"%string) ∧
  ((∀ z, Safe2.row_TAZ1454 r = Some z →
         Forall (λ '(lo, hi, _), ¬ (lo < z < hi)) Safe2.county_ranges) →
   Safe2.County r = "San Francisco"%string).
Proof.
  intros Hr. repeat split.
  - intros Hno. apply EPC_default. by rewrite (unmatched_taz_epc net links epc r).
  - apply EPC_default.
  - intros Ht. unfold Safe2.Tolled_Non_tolled_Facilities, Safe2.cell_test.
    destruct (Safe2.tollclass (Safe2.row_link r)) as [t|]; [|done].
    specialize (Ht t eq_refl). destruct (Z.ltb_spec 700000 t); [lia|done].
  - intros Hz. unfold Safe2.County, Safe2.cell_test.
    destruct (Safe2.row_TAZ1454 r) as [z|]; [|done].
    specialize (Hz z eq_refl). unfold Safe2.county_ranges in *.
    repeat match goal with
           | H : Forall _ (_ :: _) |- _ => apply Forall_cons in H as [? H]
           end.
    simpl. rewrite !in_range_false by done. done.
Qed.

Lemma recode_defaults_witness :
  Safe2.EPC_Non_EPC recode_example_row = "Non-EPCs"%string ∧
  Safe2.Tolled_Non_tolled_Facilities recode_example_row = "Non-tolled facilities"%string ∧
  Safe2.County recode_example_row = "San Francisco"%string.
Proof.
  assert (recode_example_row ∈
            Safe2.loaded_network_df [recode_example_link] recode_example_links recode_example_epc)
    as Hin by (vm_compute; left).
  destruct (recode_defaults _ _ _ _ Hin) as (H1 & _ & H3 & H4).
  split; [|split].
  - apply H1. simpl. intros e He. apply list_elem_of_singleton in He as ->. done.
  - apply H3. intros t [= <-]. lia.
  - apply H4. intros z [= <-]. unfold Safe2.county_ranges.
    repeat (apply Forall_cons; split; [lia|]). apply Forall_nil_2.
Defined.

(** ** Grouped sums *)

Lemma sum_where_cons {X} (mask : X → bool) (col : X → Qc) (x : X) (l : list X) :
  Frames.sum_where mask col (x :: l)
  = ((if mask x then col x else 0) + Frames.sum_where mask col l)%Qc.
Proof.
  unfold Frames.sum_where. simpl. destruct (mask x); simpl.
  - apply Qc_sum_cons.
  - symmetry. apply Qcplus_0_l.
Qed.

Lemma sum_where_perm {X} (mask : X → bool) (col : X → Qc) (l1 l2 : list X) :
  l1 ≡ₚ l2 → Frames.sum_where mask col l1 = Frames.sum_where mask col l2.
Proof.
  induction 1 as [|x l1 l2 _ IH|x y l|l1 l2 l3 _ IH1 _ IH2].
  - reflexivity.
  - rewrite !sum_where_cons, IH. reflexivity.
  - rewrite !sum_where_cons. ring.
  - congruence.
Qed.

Lemma sum_where_all {X} (mask : X → bool) (col : X → Qc) (l : list X) :
  (∀ x, x ∈ l → mask x = true) → Frames.sum_where mask col l = Qc_sum (map col l).
Proof.
  induction l as [|x l IH]; intros Hall; [reflexivity|].
  rewrite sum_where_cons, Hall by left. simpl map. rewrite Qc_sum_cons.
  rewrite IH; [done|]. intros y Hy. apply Hall. by right.
Qed.

Section GroupByFacts.
Context {R K V : Type} `{EqDecision K}.
Context (by_ : R → option K) (vals : R → V) (vadd : V → V → V).
Context (kle : K → K → bool).
Context (π : V → Qc) (π_add : ∀ x y, π (vadd x y) = (π x + π y)%Qc).

Abbreviation group_add := (Frames.group_add vadd).
Abbreviation groupby_sum := (Frames.groupby_sum by_ vals vadd kle).

Lemma group_add_sum (P : K → bool) (k : K) (v : V) (acc : list (K * V)) :
  Frames.sum_where (λ g, P (fst g)) (λ g, π (snd g)) (group_add k v acc)
  = (Frames.sum_where (λ g, P (fst g)) (λ g, π (snd g)) acc
     + (if P k then π v else 0))%Qc.
Proof.
  induction acc as [|[k' s] acc IH]; simpl.
  - rewrite sum_where_cons. unfold Frames.sum_where. simpl. ring.
  - destruct (decide (k = k')) as [->|Hne].
    + rewrite !sum_where_cons. simpl. rewrite π_add. destruct (P k'); ring.
    + rewrite !sum_where_cons, IH. ring.
Qed.

Lemma group_fold_sum (P : K → bool) (rows : list R) (acc : list (K * V)) :
  Frames.sum_where (λ g, P (fst g)) (λ g, π (snd g))
    (foldl (Frames.group_step by_ vals vadd) acc rows)
  = (Frames.sum_where (λ g, P (fst g)) (λ g, π (snd g)) acc
     + Frames.sum_where (λ r, Frames.key_pass P (by_ r)) (λ r, π (vals r)) rows)%Qc.
Proof.
  revert acc. induction rows as [|r rows IH]; intros acc; simpl.
  - unfold Frames.sum_where at 3. simpl. ring.
  - rewrite IH, sum_where_cons. unfold Frames.group_step.
    destruct (by_ r) as [k|]; simpl; [rewrite group_add_sum|]; ring.
Qed.

(** The sum of a measure over the groups selected by a key mask is its sum
    over the rows whose key is present and passes the mask. *)
Lemma groupby_sum_where (P : K → bool) (rows : list R) :
  Frames.sum_where (λ g, P (fst g)) (λ g, π (snd g)) (groupby_sum rows)
  = Frames.sum_where (λ r, Frames.key_pass P (by_ r)) (λ r, π (vals r)) rows.
Proof.
  unfold Frames.groupby_sum. rewrite (sum_where_perm _ _ _ _ (sort_by_perm _ _)).
  unfold Frames.group_sums. rewrite group_fold_sum.
  unfold Frames.sum_where at 1. simpl. ring.
Qed.

Lemma group_add_keys (k : K) (v : V) (acc : list (K * V)) (k' : K) :
  k' ∈ map fst (group_add k v acc) ↔ k' = k ∨ k' ∈ map fst acc.
Proof.
  induction acc as [|[k0 s] acc IH]; simpl.
  - rewrite list_elem_of_singleton, elem_of_nil. tauto.
  - destruct (decide (k = k0)) as [->|Hne]; simpl.
    + rewrite elem_of_cons. tauto.
    + rewrite !elem_of_cons, IH. tauto.
Qed.

Lemma group_add_NoDup (k : K) (v : V) (acc : list (K * V)) :
  NoDup (map fst acc) → NoDup (map fst (group_add k v acc)).
Proof.
  induction acc as [|[k0 s] acc IH]; simpl; intros Hnd.
  - apply NoDup_singleton.
  - apply NoDup_cons in Hnd as [Hk0 Hnd].
    destruct (decide (k = k0)) as [->|Hne]; simpl.
    + by apply NoDup_cons.
    + apply NoDup_cons. split; [|by apply IH].
      rewrite group_add_keys. intros [?|?]; congruence.
Qed.

Lemma group_fold_keys (rows : list R) (acc : list (K * V)) (k : K) :
  k ∈ map fst (foldl (Frames.group_step by_ vals vadd) acc rows)
  ↔ k ∈ map fst acc ∨ ∃ r, r ∈ rows ∧ by_ r = Some k.
Proof.
  revert acc. induction rows as [|r rows IH]; intros acc; simpl.
  - split; [by left|]. intros [?|(r & Hr & _)]; [done|]. by apply elem_of_nil in Hr.
  - rewrite IH. unfold Frames.group_step. split.
    + intros [Hk|(r' & Hr' & Hk)].
      * destruct (by_ r) as [k0|] eqn:Hr; [|by left].
        apply group_add_keys in Hk as [->|Hk]; [|by left].
        right. exists r. split; [left|done].
      * right. exists r'. split; [by right|done].
    + intros [Hk|(r' & Hr' & Hk)].
      * left. destruct (by_ r); [|done]. apply group_add_keys. by right.
      * apply elem_of_cons in Hr' as [->|Hr'].
        -- left. rewrite Hk. apply group_add_keys. by left.
        -- right. by exists r'.
Qed.

Lemma group_fold_NoDup (rows : list R) (acc : list (K * V)) :
  NoDup (map fst acc) →
  NoDup (map fst (foldl (Frames.group_step by_ vals vadd) acc rows)).
Proof.
  revert acc. induction rows as [|r rows IH]; intros acc Hnd; simpl; [done|].
  apply IH. unfold Frames.group_step. destruct (by_ r); [|done].
  by apply group_add_NoDup.
Qed.

Lemma groupby_sum_NoDup (rows : list R) : NoDup (map fst (groupby_sum rows)).
Proof.
  unfold Frames.groupby_sum. rewrite (map_perm fst _ _ (sort_by_perm _ _)).
  apply group_fold_NoDup. constructor.
Qed.

Lemma groupby_sum_keys (rows : list R) (k : K) :
  k ∈ map fst (groupby_sum rows) ↔ ∃ r, r ∈ rows ∧ by_ r = Some k.
Proof.
  unfold Frames.groupby_sum. rewrite (map_perm fst _ _ (sort_by_perm _ _)).
  unfold Frames.group_sums. rewrite group_fold_keys. simpl.
  rewrite elem_of_nil. tauto.
Qed.

Lemma sum_where_key (k : K) (s : V) (groups : list (K * V)) :
  NoDup (map fst groups) → (k, s) ∈ groups →
  Frames.sum_where (λ g, bool_decide (k = fst g)) (λ g, π (snd g)) groups = π s.
Proof.
  induction groups as [|[k0 s0] groups IH]; simpl; intros Hnd Hin.
  - by apply elem_of_nil in Hin.
  - apply NoDup_cons in Hnd as [Hk0 Hnd]. rewrite sum_where_cons. simpl.
    apply elem_of_cons in Hin as [[= -> ->]|Hin].
    + rewrite bool_decide_eq_true_2 by done.
      assert (Frames.sum_where (λ g, bool_decide (k0 = fst g)) (λ g, π (snd g)) groups = 0%Qc)
        as ->; [|ring].
      clear IH. induction groups as [|[k1 s1] groups IH]; [reflexivity|].
      rewrite sum_where_cons. simpl in *.
      rewrite not_elem_of_cons in Hk0. destruct Hk0 as [Hne Hk0].
      apply NoDup_cons in Hnd as [_ Hnd].
      rewrite bool_decide_eq_false_2 by done. rewrite IH by done. ring.
    + rewrite bool_decide_eq_false_2.
      * rewrite IH by done. ring.
      * intros ->. apply Hk0. apply elem_of_map. by exists (k0, s).
Qed.

(** The total of a group is the sum over exactly the rows of its key. *)
Lemma groupby_sum_group (rows : list R) (k : K) (s : V) :
  (k, s) ∈ groupby_sum rows →
  π s = Frames.sum_where (λ r, Frames.key_pass (λ k', bool_decide (k = k')) (by_ r))
          (λ r, π (vals r)) rows.
Proof.
  intros Hin. rewrite <- groupby_sum_where.
  symmetry. apply sum_where_key; [apply groupby_sum_NoDup|done].
Qed.

(** Totals over all groups: the rows with a missing key do not count. *)
Lemma groupby_sum_total (rows : list R) :
  Qc_sum (map (λ g, π (snd g)) (groupby_sum rows))
  = Frames.sum_where (λ r, Frames.key_pass (λ _, true) (by_ r)) (λ r, π (vals r)) rows.
Proof.
  rewrite <- groupby_sum_where. symmetry. by apply sum_where_all.
Qed.
End GroupByFacts.

Section GroupByRows.
Context {R K V : Type} `{EqDecision K}.
Context (by_ : R → option K) (vals : R → V) (vadd : V → V → V).
Context (kle : K → K → bool).

Lemma group_add_elem (k : K) (v : V) (acc : list (K * V)) (k' : K) (s' : V) :
  NoDup (map fst acc) →
  (k', s') ∈ Frames.group_add vadd k v acc →
  (k' ≠ k ∧ (k', s') ∈ acc) ∨
  (k' = k ∧ (((k ∉ map fst acc) ∧ s' = v) ∨ (∃ s0, (k, s0) ∈ acc ∧ s' = vadd s0 v))).
Proof.
  induction acc as [|[k0 s0] acc IH]; simpl; intros Hnd Hin.
  - apply list_elem_of_singleton in Hin as [= -> ->]. right. split; [done|]. left.
    split; [apply not_elem_of_nil|done].
  - apply NoDup_cons in Hnd as [Hk0 Hnd].
    destruct (decide (k = k0)) as [->|Hne].
    + apply elem_of_cons in Hin as [[= -> ->]|Hin].
      * right. split; [done|]. right. exists s0. split; [left|done].
      * left. split; [|by right]. intros ->. apply Hk0. apply elem_of_map. by exists (k0, s').
    + apply elem_of_cons in Hin as [[= -> ->]|Hin].
      * left. split; [done|left].
      * destruct (IH Hnd Hin) as [[Hk' Hacc]|[-> [[Hnot ->]|(s1 & Hs1 & ->)]]].
        -- left. split; [done|by right].
        -- right. split; [done|]. left. split; [|done].
           rewrite not_elem_of_cons. by split.
        -- right. split; [done|]. right. exists s1. split; [by right|done].
Qed.

Lemma filter_key_is_cons (k : K) (r : R) (rows : list R) :
  List.filter (key_is by_ k) (r :: rows)
  = if decide (by_ r = Some k) then r :: List.filter (key_is by_ k) rows
    else List.filter (key_is by_ k) rows.
Proof.
  simpl. unfold key_is at 1, Frames.key_pass. destruct (by_ r) as [k0|].
  - destruct (decide (k = k0)) as [->|Hne].
    + rewrite bool_decide_eq_true_2 by done. by rewrite decide_True.
    + rewrite bool_decide_eq_false_2 by done. rewrite decide_False; [done|]. by intros [= ->].
  - by rewrite decide_False.
Qed.

(** The accumulator of a group: the values of its rows, added in row order. *)
Lemma group_fold_value (rows : list R) (acc : list (K * V)) (k : K) (s : V) :
  NoDup (map fst acc) →
  (k, s) ∈ foldl (Frames.group_step by_ vals vadd) acc rows →
  (∃ s0, (k, s0) ∈ acc ∧ s = foldl vadd s0 (map vals (List.filter (key_is by_ k) rows))) ∨
  ((k ∉ map fst acc) ∧
   (∃ r0 rs, List.filter (key_is by_ k) rows = r0 :: rs ∧
             s = foldl vadd (vals r0) (map vals rs))).
Proof.
  revert acc. induction rows as [|r rows IH]; intros acc Hnd Hin.
  - left. exists s. split; [exact Hin|reflexivity].
  - simpl in Hin. rewrite filter_key_is_cons.
    unfold Frames.group_step in Hin at 2. destruct (by_ r) as [k0|] eqn:Hr.
    + assert (NoDup (map fst (Frames.group_add vadd k0 (vals r) acc))) as Hnd'
        by by apply (group_add_NoDup vadd kle).
      destruct (IH _ Hnd' Hin) as [(s0 & Hs0 & ->)|[Hnot (r0 & rs & Hf & ->)]].
      * destruct (group_add_elem _ _ _ _ _ Hnd Hs0)
          as [[Hne Hacc]|[-> [[Hnot ->]|(s1 & Hs1 & ->)]]].
        -- left. exists s0. split; [done|]. rewrite decide_False; [done|]. by intros [= ->].
        -- right. split; [done|]. rewrite decide_True by done. by eexists _, _.
        -- left. exists s1. split; [done|]. by rewrite decide_True.
      * assert (k ≠ k0) as Hne.
        { intros ->. apply Hnot. apply (group_add_keys vadd kle). by left. }
        right. split.
        -- intros Hk. apply Hnot. apply (group_add_keys vadd kle). by right.
        -- rewrite decide_False by (by intros [= ->]). by eexists _, _.
    + rewrite decide_False by done. by apply IH.
Qed.

(** The aggregated value of a group is the accumulation, in row order, over
    exactly the rows that carry the group's key, whatever the values and
    the addition are. *)
Lemma groupby_sum_rows (rows : list R) (k : K) (s : V) :
  (k, s) ∈ Frames.groupby_sum by_ vals vadd kle rows →
  ∃ r0 rs, List.filter (key_is by_ k) rows = r0 :: rs ∧ s = foldl vadd (vals r0) (map vals rs).
Proof.
  unfold Frames.groupby_sum. rewrite (sort_by_perm _ _). unfold Frames.group_sums.
  intros Hin. destruct (group_fold_value rows [] k s) as [(s0 & Hs0 & _)|[_ H]];
    [constructor|done| |done].
  by apply elem_of_nil in Hs0.
Qed.
End GroupByRows.

Lemma ft_measures_sound (π : Safe2.VmtSums → Qc) (col : Safe2.NetLink → Qc) :
  (π, col) ∈ ft_measures →
  (∀ x y, π (Safe2.sums_add x y) = (π x + π y)%Qc) ∧
  (∀ r, π (Safe2.ft_vals r) = col (Safe2.row_link r)).
Proof.
  unfold ft_measures. rewrite !elem_of_cons, elem_of_nil.
  intros [H|[H|[H|[H|[H|[H|[H|[]]]]]]]]; injection H as -> ->; done.
Qed.


(** C7, as the code has it.  A grouped sum leaves out the rows whose key is
    missing.  For every table, its groups are the distinct key tuples of the
    rows whose key is complete, and the aggregated value of a group is
    accumulated over exactly the rows of its key tuple, each once: this is
    about which rows enter a group and holds for any type of values and any
    addition.  Where the sums are exact (non-negative integer measures with
    totals below 2^53): in the Safe 2 facility roll-up every group
    total of a measure is the sum of the measure over the rows of the key
    tuple, and the totals over all groups add up to the sum over the rows
    whose key is complete, a link whose facility type has no grouping (ft 9,
    10 or unlisted) being left out; in the trip roll-up no key is ever
    missing, and the group totals add up to the sum of freq over the whole
    table. *)
Theorem aggregation_conservation (net : list Safe2.NetLink) (links : list Safe2.LinkTaz)
    (epc : list Safe2.EpcRow) (trips : list Ngfs.Trip) :
  exact_counts (map Ngfs.freq trips) = true →
  let rows := Safe2.loaded_network_df net links epc in
  let groups := Safe2.ft_metrics_df net links epc in
  (∀ (R K V : Type) (eq_dec : EqDecision K) (by_ : R → option K) (vals : R → V)
     (vadd : V → V → V) (kle : K → K → bool) (table : list R),
     let out := Frames.groupby_sum by_ vals vadd kle table in
     NoDup (map fst out) ∧
     (∀ k, k ∈ map fst out ↔ ∃ r, r ∈ table ∧ by_ r = Some k) ∧
     (∀ k s, (k, s) ∈ out →
        ∃ r0 rs, List.filter (key_is by_ k) table = r0 :: rs ∧
                 s = foldl vadd (vals r0) (map vals rs))) ∧
  (∀ π col, (π, col) ∈ ft_measures → exact_measure col net = true →
     (∀ k s, (k, s) ∈ groups →
        π s = Frames.sum_where (key_is Safe2.ft_by k) (λ r, col (Safe2.row_link r)) rows) ∧
     Qc_sum (map (λ g, π (snd g)) groups)
     = Frames.sum_where (key_present Safe2.ft_by) (λ r, col (Safe2.row_link r)) rows) ∧
  (∀ k s, (k, s) ∈ Ngfs.tm_trips_df trips →
     s = Frames.sum_where (key_is Ngfs.trips_by k) Ngfs.freq trips) ∧
  Qc_sum (map snd (Ngfs.tm_trips_df trips)) = Qc_sum (map Ngfs.freq trips).
Proof.
  intros _ rows groups. split; [|split; [|split]].
  - intros R K V eq_dec by_ vals vadd kle table out. split; [|split].
    + apply groupby_sum_NoDup.
    + apply groupby_sum_keys.
    + apply groupby_sum_rows.
  - intros π col Hin _. destruct (ft_measures_sound π col Hin) as [Hadd Hcol]. split.
    + intros k s Hks. unfold groups, Safe2.ft_metrics_df in Hks.
      rewrite (groupby_sum_group _ _ _ _ π Hadd _ _ _ Hks).
      unfold Frames.sum_where, key_is. f_equal. apply map_ext. intros r. apply Hcol.
    + unfold groups, Safe2.ft_metrics_df.
      rewrite (groupby_sum_total _ _ _ _ π Hadd).
      unfold Frames.sum_where, key_present. f_equal. apply map_ext. intros r. apply Hcol.
  - intros k s Hin. unfold Ngfs.tm_trips_df in Hin.
    apply (groupby_sum_group _ _ _ _ (λ q, q) (λ x y, eq_refl) _ _ _ Hin).
  - unfold Ngfs.tm_trips_df.
    rewrite (groupby_sum_total _ _ _ _ (λ q : Qc, q) (λ x y, eq_refl)).
    by apply sum_where_all.
Qed.

Lemma aggregation_conservation_witness :
  Qc_sum (map snd (Ngfs.tm_trips_df example_trips)) = Qc_of_Z 12 ∧
  (Qc_of_Z 3 + Qc_of_Z 5)%Qc
  = Frames.sum_where (key_is Ngfs.trips_by ("auto", "commute", "peak")%string)
      Ngfs.freq example_trips ∧
  Qc_sum (map (λ g, Safe2.sum_Total_VMT (snd g))
            (Safe2.ft_metrics_df [scenario_link 1 2 1 120 2; special_facility_link] [] []))
  = Qc_of_Z 240.
Proof.
  assert (exact_counts (map Ngfs.freq example_trips) = true) as Hexact by (vm_compute; reflexivity).
  destruct (aggregation_conservation [scenario_link 1 2 1 120 2; special_facility_link] [] []
              example_trips Hexact)
    as (_ & Hft & Hgroup & Htotal).
  split; [|split].
  - rewrite Htotal. apply Qc_is_canon. reflexivity.
  - apply (Hgroup ("auto", "commute", "peak")%string). vm_compute. left.
  - assert (exact_measure Safe2.Total_VMT [scenario_link 1 2 1 120 2; special_facility_link]
            = true) as Hnet by (vm_compute; reflexivity).
    rewrite (proj2 (Hft Safe2.sum_Total_VMT Safe2.Total_VMT ltac:(left) Hnet)).
    apply Qc_is_canon. reflexivity.
Defined.

(** C7 as stated fails on the facility roll-up: a table holding one
    special-facility link has 7 vehicle miles, and its groups have none. *)
Lemma aggregation_conservation_counterexample :
  Qc_sum (map (λ g, Safe2.sum_Total_VMT (snd g))
            (Safe2.ft_metrics_df [special_facility_link] [] []))
  ≠ Qc_sum (map Safe2.Total_VMT [special_facility_link]).
Proof.
  intros H. apply (f_equal this) in H. vm_compute in H. discriminate H.
Qed.

(** ** The two-link scenario *)

Lemma dict_get_set_eq {V} (k : Ngfs.MetricKey) (v : V) (d : Ngfs.Dict V) :
  Ngfs.dict_get k (Ngfs.dict_set k v d) = Some v.
Proof.
  induction d as [|[k' v'] d IH]; simpl.
  - by rewrite decide_True.
  - destruct (decide (k = k')) as [->|Hne]; simpl.
    + by rewrite decide_True.
    + by rewrite decide_False.
Qed.

Lemma dict_get_set_ne {V} (k k' : Ngfs.MetricKey) (v : V) (d : Ngfs.Dict V) :
  k ≠ k' → Ngfs.dict_get k' (Ngfs.dict_set k v d) = Ngfs.dict_get k' d.
Proof.
  intros Hne. induction d as [|[k0 v0] d IH]; simpl.
  - by rewrite decide_False.
  - destruct (decide (k = k0)) as [->|Hne0]; simpl.
    + by rewrite !decide_False.
    + destruct (decide (k' = k0)); [done|apply IH].
Qed.








(** ** Melt *)


Lemma flat_map_length_const {X Y Z'} (g : X → Y → Z') (xs : list X) (ys : list Y) :
  length (flat_map (λ x, map (g x) ys) xs) = (length xs * length ys)%nat.
Proof.
  induction xs as [|x xs IH]; simpl; [done|].
  by rewrite length_app, length_map, IH.
Qed.

Lemma Safe2_wide_columns (auto_times : list Safe2.AutoTimes) (net : list Safe2.NetLink)
    (links : list Safe2.LinkTaz) (epc : list Safe2.EpcRow) :
  Frames.columns (Safe2_wide auto_times net links epc)
  = ["Household/Non-Household"; "Income Level/Travel Mode"; "VMT"; "VHT";
     "Freeway/Non-Freeway"; "Facility Type Definition"; "EPC/Non-EPC";
     "Tolled/Non-tolled Facilities"; "County"; "Total VMT"; "EA VMT"; "AM VMT";
     "MD VMT"; "PM VMT"; "EV VMT"]%string.
Proof. reflexivity. Qed.






(** ** Run against base *)

Section ChangeFacts.
Context (tm_run_id BASE_SCENARIO_RUN_ID year metric_id : string).

Abbreviation change_key := (Ngfs.change_key tm_run_id year metric_id).
Abbreviation change_loop := (Ngfs.change_loop tm_run_id BASE_SCENARIO_RUN_ID year metric_id).
Abbreviation metrics_list := (Ngfs.metrics_list tm_run_id metric_id).

Lemma change_desc_inj (k k' m m' : string) :
  change_key k ("change_in_" +:+ m) = change_key k' ("change_in_" +:+ m') → m = m'.
Proof. intros [= _ H]. exact H. Qed.

Lemma pct_desc_inj (k k' m m' : string) :
  change_key k ("pct_change_in_" +:+ m) = change_key k' ("pct_change_in_" +:+ m') → m = m'.
Proof. intros [= _ H]. exact H. Qed.

Lemma change_pct_ne (k k' m m' : string) :
  change_key k ("change_in_" +:+ m) ≠ change_key k' ("pct_change_in_" +:+ m').
Proof. intros [= _ H]. Qed.

Lemma first_value_error (df : Ngfs.Dict float) (run m : string) (e : exn) :
  Ngfs.first_value df run m = inl e →
  e = IndexError ∧
  ∀ kv, kv ∈ df → Ngfs.col_modelrun_id (fst kv) = run → Ngfs.col_metric_desc (fst kv) ≠ m.
Proof.
  unfold Ngfs.first_value.
  destruct (filter _ (filter _ df)) as [|kv l] eqn:Hf; [|done].
  intros [= <-]. split; [done|]. intros kv Hkv Hrun Hdesc.
  eapply (filter_nil_not_elem_of _ _ kv Hf); [done|]. by apply list_elem_of_filter.
Qed.

Lemma first_value_found (df : Ngfs.Dict float) (run m : string) (kv : Ngfs.MetricKey * float) :
  kv ∈ df → Ngfs.col_modelrun_id (fst kv) = run → Ngfs.col_metric_desc (fst kv) = m →
  ∃ v, Ngfs.first_value df run m = inr v.
Proof.
  intros Hkv Hrun Hdesc. destruct (Ngfs.first_value df run m) as [e|v] eqn:Hv; [|by exists v].
  apply first_value_error in Hv as [_ Hno]. by destruct (Hno kv).
Qed.

Lemma metrics_list_run_value (df : Ngfs.Dict float) (m : string) :
  m ∈ metrics_list df → ∃ v, Ngfs.first_value df tm_run_id m = inr v.
Proof.
  unfold Ngfs.metrics_list. rewrite elem_of_map. intros (kv & -> & Hkv).
  apply list_elem_of_filter in Hkv as [_ Hkv]. apply list_elem_of_filter in Hkv as [Hrun Hkv].
  by eapply first_value_found.
Qed.

(** An entry that every later write would set to the same value keeps it. *)
Lemma change_loop_stable (df : Ngfs.Dict float) (ms : list string) (key : string)
    (d d' : Ngfs.Dict float) (e : option exn) (kk : Ngfs.MetricKey) (v : float) :
  (∀ k' m' vr vb,
     Ngfs.first_value df tm_run_id m' = inr vr →
     Ngfs.first_value df BASE_SCENARIO_RUN_ID m' = inr vb →
     (change_key k' ("change_in_" +:+ m') = kk → (vr - vb)%float = v) ∧
     (change_key k' ("pct_change_in_" +:+ m') = kk → ((vr - vb) / vb)%float = v)) →
  change_loop df key d ms = (d', e) →
  Ngfs.dict_get kk d = Some v → Ngfs.dict_get kk d' = Some v.
Proof.
  intros Hsame. revert key d. induction ms as [|m ms IH]; intros key d Hloop Hget; simpl in Hloop.
  - by injection Hloop as <- _.
  - destruct (Ngfs.first_value df tm_run_id m) as [e1|vr] eqn:Hvr;
      [by injection Hloop as <- _|].
    destruct (Ngfs.first_value df BASE_SCENARIO_RUN_ID m) as [e2|vb] eqn:Hvb;
      [by injection Hloop as <- _|].
    eapply IH; [exact Hloop|].
    destruct (Hsame (Ngfs.next_key key m) m vr vb Hvr Hvb) as [Hc Hp].
    set (k1 := change_key (Ngfs.next_key key m) ("change_in_" +:+ m)) in *.
    set (k2 := change_key (Ngfs.next_key key m) ("pct_change_in_" +:+ m)) in *.
    assert (Ngfs.dict_get kk (Ngfs.dict_set k1 (vr - vb)%float d) = Some v) as Hget1.
    { destruct (decide (k1 = kk)) as [Heq|Hne].
      - rewrite <- Heq, dict_get_set_eq. f_equal. by apply Hc.
      - by rewrite dict_get_set_ne. }
    destruct (decide (k2 = kk)) as [Heq|Hne].
    + rewrite <- Heq, dict_get_set_eq. f_equal. by apply Hp.
    + by rewrite dict_get_set_ne.
Qed.


(** When every listed metric has a base row the loop runs to its end and
    leaves both deltas of every listed metric in the dictionary. *)
Lemma change_loop_complete (df : Ngfs.Dict float) (ms : list string) (key : string)
    (d : Ngfs.Dict float) :
  (∀ m, m ∈ ms → ∃ vr, Ngfs.first_value df tm_run_id m = inr vr) →
  (∀ m, m ∈ ms → ∃ vb, Ngfs.first_value df BASE_SCENARIO_RUN_ID m = inr vb) →
  ∃ d', change_loop df key d ms = (d', None) ∧
    ∀ m, m ∈ ms → ∃ vr vb k,
      Ngfs.first_value df tm_run_id m = inr vr ∧
      Ngfs.first_value df BASE_SCENARIO_RUN_ID m = inr vb ∧
      Ngfs.dict_get (change_key k ("change_in_" +:+ m)) d' = Some (vr - vb)%float ∧
      Ngfs.dict_get (change_key k ("pct_change_in_" +:+ m)) d' = Some ((vr - vb) / vb)%float.
Proof.
  revert key d. induction ms as [|m ms IH]; intros key d Hrun Hbase.
  - exists d. split; [done|]. intros m Hm. by apply elem_of_nil in Hm.
  - destruct (Hrun m) as [vr Hvr]; [left|]. destruct (Hbase m) as [vb Hvb]; [left|].
    simpl. rewrite Hvr, Hvb.
    set (k1 := change_key (Ngfs.next_key key m) ("change_in_" +:+ m)).
    set (k2 := change_key (Ngfs.next_key key m) ("pct_change_in_" +:+ m)).
    set (d2 := Ngfs.dict_set k2 _ (Ngfs.dict_set k1 _ d)).
    destruct (IH (Ngfs.next_key key m) d2) as (d' & Hloop & Hall).
    { intros m' Hm'. apply Hrun. by right. }
    { intros m' Hm'. apply Hbase. by right. }
    exists d'. split; [done|]. intros m' Hm'.
    destruct (decide (m' ∈ ms)) as [Hin|Hnin]; [by apply Hall|].
    apply elem_of_cons in Hm' as [->|?]; [|done].
    exists vr, vb, (Ngfs.next_key key m). split; [done|]. split; [done|]. split.
    + eapply change_loop_stable; [|exact Hloop|].
      * intros k' m' vr' vb' Hvr' Hvb'. split.
        -- intros Heq. apply change_desc_inj in Heq as ->. congruence.
        -- intros Heq. by apply eq_sym, change_pct_ne in Heq.
      * unfold d2. rewrite dict_get_set_ne by apply not_eq_sym, change_pct_ne.
        apply dict_get_set_eq.
    + eapply change_loop_stable; [|exact Hloop|].
      * intros k' m' vr' vb' Hvr' Hvb'. split.
        -- intros Heq. by apply change_pct_ne in Heq.
        -- intros Heq. apply pct_desc_inj in Heq as ->. congruence.
      * unfold d2. apply dict_get_set_eq.
Qed.





(** Line 489 passes on a dictionary that is not empty. *)
Lemma calculate_change_nonempty (metrics_dict : Ngfs.Dict float) :
  metrics_dict ≠ [] →
  Ngfs.calculate_change_between_run_and_base tm_run_id BASE_SCENARIO_RUN_ID year metric_id
    metrics_dict
  = change_loop metrics_dict "Change" metrics_dict (metrics_list metrics_dict).
Proof. unfold Ngfs.calculate_change_between_run_and_base. by destruct metrics_dict. Qed.
End ChangeFacts.












(** ** The main loops *)

Lemma append_inj_r (s1 s2 t : string) : s1 +:+ t = s2 +:+ t → s1 = s2.
Proof.
  assert (∀ s u : string, String.length (s +:+ u) = (String.length s + String.length u)%nat)
    as Hlen by (intros s u; induction s as [|a s IHs]; simpl; [done|by rewrite IHs]).
  revert s2. induction s1 as [|c s1 IH]; intros [|c2 s2] H; simpl in *.
  - done.
  - apply (f_equal String.length) in H. simpl in H. rewrite !Hlen in H. simpl in H. lia.
  - apply (f_equal String.length) in H. simpl in H. rewrite !Hlen in H. simpl in H. lia.
  - injection H as -> H. f_equal. by apply IH.
Qed.

Lemma Safe2_out_name_inj (r r' : string) :
  Main.Safe2_out_name r = Main.Safe2_out_name r' → r = r'.
Proof.
  unfold Main.Safe2_out_name. intros H. apply String.app_inj in H.
  by apply append_inj_r in H.
Qed.

Section LoopFacts.
Context {Out : Type}.
Context (cwd_path : string → string) (out_name : string → string).
Context (process : string → Main.Logged Out) (skip_if_exists : bool).

Abbreviation out_filename := (Main.out_filename cwd_path out_name).
Abbreviation run_one := (Main.run_one cwd_path out_name process skip_if_exists).
Abbreviation main_loop := (Main.main_loop cwd_path out_name process skip_if_exists).

Abbreviation processed := (Main.announced process).

Lemma path_exists_log_info (msg path : string) (w : Main.World Out) :
  Main.path_exists path (Main.log_info msg w) = Main.path_exists path w.
Proof. reflexivity. Qed.

Lemma path_exists_processed (path r : string) (w : Main.World Out) :
  Main.path_exists path (processed w r) = Main.path_exists path w.
Proof. reflexivity. Qed.

Lemma path_exists_to_csv (path path' : string) (df : Out) (w : Main.World Out) :
  Main.path_exists path' (Main.to_csv path df w)
  = if decide (path = path') then true else Main.path_exists path' w.
Proof.
  unfold Main.path_exists, Main.to_csv. simpl. destruct (decide (path = path')) as [->|Hne].
  - rewrite lookup_insert_eq. by apply bool_decide_eq_true_2.
  - by rewrite lookup_insert_ne.
Qed.

Lemma run_one_skip (w : Main.World Out) (r : string) :
  skip_if_exists && Main.path_exists (out_filename r) w = true →
  run_one w r
  = (Main.log_info ("Skipping " +:+ r +:+ " -- " +:+ out_filename r +:+ " exists") w, None).
Proof. unfold Main.run_one. by intros ->. Qed.

Lemma run_one_process (w : Main.World Out) (r : string) :
  skip_if_exists && Main.path_exists (out_filename r) w = false →
  run_one w r
  = match snd (process r) with
    | inl e => (processed w r, Some e)
    | inr metrics_df =>
        (Main.log_info ("Wrote " +:+ out_filename r)
           (Main.to_csv (out_filename r) metrics_df (processed w r)), None)
    end.
Proof. unfold Main.run_one. by intros ->. Qed.

Lemma main_loop_app (w : Main.World Out) (pre post : list string) :
  main_loop w (pre ++ post)
  = match main_loop w pre with
    | (w1, None) => main_loop w1 post
    | (w1, Some e) => (w1, Some e)
    end.
Proof.
  revert w. induction pre as [|r pre IH]; intros w; simpl; [done|].
  destruct (run_one w r) as [w1 [e|]]; [done|apply IH].
Qed.

(** The files after a batch that ran to its end. *)
Lemma main_loop_files (w w' : Main.World Out) (runs : list string) :
  (∀ r r', out_filename r = out_filename r' → r = r') →
  main_loop w runs = (w', None) →
  (∀ r, r ∈ runs →
     if skip_if_exists && Main.path_exists (out_filename r) w
     then Main.files w' !! out_filename r = Main.files w !! out_filename r
     else ∃ metrics_df, snd (process r) = inr metrics_df ∧
                        Main.files w' !! out_filename r = Some metrics_df) ∧
  (∀ path, (∀ r, r ∈ runs → out_filename r ≠ path) →
           Main.files w' !! path = Main.files w !! path).
Proof.
  intros Hinj. revert w. induction runs as [|r0 runs IH]; intros w Hloop.
  - injection Hloop as <-. split; [|done]. intros r Hr. by apply elem_of_nil in Hr.
  - simpl in Hloop. destruct (run_one w r0) as [w1 [e|]] eqn:Hone; [done|].
    destruct (IH w1 Hloop) as [IHruns IHframe]. clear IH.
    assert (∀ r, r ∉ runs → Main.files w' !! out_filename r = Main.files w1 !! out_filename r)
      as Hout.
    { intros r Hr. apply IHframe. intros r' Hr' Heq. apply Hinj in Heq as ->. done. }
    destruct (skip_if_exists && Main.path_exists (out_filename r0) w) eqn:Hgate.
    + rewrite run_one_skip in Hone by done. injection Hone as <-.
      split.
      * intros r Hr. destruct (decide (r ∈ runs)) as [Hin|Hnin]; [by apply IHruns|].
        apply elem_of_cons in Hr as [->|?]; [|done]. rewrite Hgate. by apply Hout.
      * intros path Hpath. apply IHframe. intros r Hr. apply Hpath. by right.
    + rewrite run_one_process in Hone by done.
      destruct (snd (process r0)) as [e|df0] eqn:Hproc; [done|]. injection Hone as <-.
      split.
      * intros r Hr. destruct (decide (r = r0)) as [->|Hne].
        -- rewrite Hgate. exists df0. split; [done|].
           destruct (decide (r0 ∈ runs)) as [Hin|Hnin].
           ++ specialize (IHruns r0 Hin). rewrite path_exists_log_info in IHruns.
              rewrite path_exists_to_csv, decide_True in IHruns by done.
              destruct skip_if_exists; simpl in IHruns.
              ** rewrite IHruns. simpl. apply lookup_insert_eq.
              ** destruct IHruns as (df & Hdf & ->). congruence.
           ++ rewrite Hout by done. simpl. apply lookup_insert_eq.
        -- apply elem_of_cons in Hr as [?|Hr]; [done|]. specialize (IHruns r Hr).
           assert (out_filename r0 ≠ out_filename r) as Hpath
             by (intros Heq; apply Hinj in Heq; congruence).
           rewrite path_exists_log_info, path_exists_to_csv, decide_False in IHruns by done.
           rewrite path_exists_processed in IHruns.
           simpl in IHruns. rewrite lookup_insert_ne in IHruns by done. exact IHruns.
      * intros path Hpath. rewrite IHframe.
        -- simpl. apply lookup_insert_ne. apply Hpath. left.
        -- intros r Hr. apply Hpath. by right.
Qed.

(** A batch that ends with an exception ends at the first run whose body
    raises: the runs before it were handled, and the world is the one they
    left plus what the failing run logged. *)
Lemma main_loop_raises (w w' : Main.World Out) (runs : list string) (e : exn) :
  main_loop w runs = (w', Some e) →
  ∃ before r after w1,
    runs = before ++ r :: after ∧
    main_loop w before = (w1, None) ∧
    skip_if_exists && Main.path_exists (out_filename r) w1 = false ∧
    snd (process r) = inl e ∧
    w' = processed w1 r.
Proof.
  revert w. induction runs as [|r0 runs IH]; intros w Hloop; simpl in Hloop; [done|].
  destruct (run_one w r0) as [w1 [e1|]] eqn:Hone.
  - injection Hloop as <- <-. exists [], r0, runs, w.
    destruct (skip_if_exists && Main.path_exists (out_filename r0) w) eqn:Hgate.
    + by rewrite run_one_skip in Hone.
    + rewrite run_one_process in Hone by done.
      destruct (snd (process r0)) as [e'|df]; [|done]. by injection Hone as <- <-.
  - destruct (IH w1 Hloop) as (before & r & after & w2 & -> & Hbefore & Hgate & Hproc & ->).
    exists (r0 :: before), r, after, w2. simpl. by rewrite Hone.
Qed.
End LoopFacts.

(** C9, as the code has it.  In one iteration, when the flag is set and the
    run's output file exists, the run is skipped: the only effect is the
    message "Skipping ...", the body is not consulted and no file changes.
    Otherwise the run is announced and its body runs and logs; the output
    file is written, and "Wrote ..." logged, only if the body returns: if
    it raises, nothing is written and the exception leaves the loop.  For a
    batch that ran to its end, with distinct runs writing distinct files, a
    run whose file existed at the start under the flag still has that very
    file and every other run has the file its metrics produce.  A batch that
    ends with an exception ended at the first run whose body raised, and the
    runs after it were not reached. *)
Theorem skip_if_exists_gate {Out : Type} (cwd_path out_name : string → string)
    (process : string → Main.Logged Out) (skip_if_exists : bool) :
  let out := Main.out_filename cwd_path out_name in
  let run_one := Main.run_one cwd_path out_name process skip_if_exists in
  let main_loop := Main.main_loop cwd_path out_name process skip_if_exists in
  let announced w tm_run_id :=
    Main.log_infos (fst (process tm_run_id))
      (Main.log_info ("Processing run " +:+ tm_run_id) w) in
  (∀ w tm_run_id,
     skip_if_exists = true → Main.path_exists (out tm_run_id) w = true →
     run_one w tm_run_id
     = (Main.log_info ("Skipping " +:+ tm_run_id +:+ " -- " +:+ out tm_run_id +:+ " exists") w,
        None)) ∧
  (∀ w tm_run_id,
     skip_if_exists = false ∨ Main.path_exists (out tm_run_id) w = false →
     (∀ metrics_df, snd (process tm_run_id) = inr metrics_df →
        run_one w tm_run_id
        = (Main.log_info ("Wrote " +:+ out tm_run_id)
             (Main.to_csv (out tm_run_id) metrics_df (announced w tm_run_id)), None)) ∧
     (∀ e, snd (process tm_run_id) = inl e →
        run_one w tm_run_id = (announced w tm_run_id, Some e))) ∧
  (∀ w w' current_runs_list,
     (∀ r r', out r = out r' → r = r') →
     main_loop w current_runs_list = (w', None) →
     ∀ tm_run_id, tm_run_id ∈ current_runs_list →
       if skip_if_exists && Main.path_exists (out tm_run_id) w
       then Main.files w' !! out tm_run_id = Main.files w !! out tm_run_id
       else ∃ metrics_df, snd (process tm_run_id) = inr metrics_df ∧
                          Main.files w' !! out tm_run_id = Some metrics_df) ∧
  (∀ w w' current_runs_list e,
     main_loop w current_runs_list = (w', Some e) →
     ∃ before tm_run_id after w1,
       current_runs_list = before ++ tm_run_id :: after ∧
       main_loop w before = (w1, None) ∧
       skip_if_exists && Main.path_exists (out tm_run_id) w1 = false ∧
       snd (process tm_run_id) = inl e ∧
       w' = announced w1 tm_run_id).
Proof.
  intros out run_one main_loop announced. subst out run_one main_loop announced.
  split; [|split; [|split]].
  - intros w r -> Hex. apply run_one_skip. by rewrite Hex.
  - intros w r Hgate.
    assert (skip_if_exists && Main.path_exists (Main.out_filename cwd_path out_name r) w = false)
      as Hfalse by (destruct Hgate as [->| ->]; [done|apply andb_false_r]).
    split.
    + intros df Hproc. by rewrite run_one_process, Hproc.
    + intros e Hproc. by rewrite run_one_process, Hproc.
  - intros w w' runs Hinj Hloop. by apply (main_loop_files cwd_path out_name process).
  - intros w w' runs e Hloop. by apply main_loop_raises.
Qed.

Lemma example_cwd_path_inj (out_name : string → string) :
  (∀ r r', out_name r = out_name r' → r = r') →
  ∀ r r', Main.out_filename example_cwd_path out_name r
          = Main.out_filename example_cwd_path out_name r' → r = r'.
Proof.
  intros Hinj r r' H. unfold Main.out_filename, example_cwd_path in H.
  apply String.app_inj in H. by apply Hinj.
Qed.

Lemma skip_if_exists_gate_witness :
  ∃ w', Main.Safe2_main example_cwd_path example_scenario_path example_scenarios [] true
          example_world ["2035_TM152_NGF_Path1"%string] = (w', None) ∧
        Main.files w' !! example_cwd_path (Main.Safe2_out_name "2035_TM152_NGF_Path1")
        = Some stale_frame.
Proof.
  destruct (Main.Safe2_main example_cwd_path example_scenario_path example_scenarios [] true
              example_world ["2035_TM152_NGF_Path1"%string]) as [w' e] eqn:Hmain.
  assert (e = None) as ->.
  { apply (f_equal snd) in Hmain. vm_compute in Hmain. congruence. }
  exists w'. split; [reflexivity|].
  pose proof (proj1 (proj2 (proj2 (skip_if_exists_gate example_cwd_path Main.Safe2_out_name
                              (Main.Safe2_process example_scenario_path example_scenarios [])
                              true)))
                example_world w' ["2035_TM152_NGF_Path1"%string]
                (example_cwd_path_inj _ Safe2_out_name_inj) Hmain
                "2035_TM152_NGF_Path1"%string (list_elem_of_here _ _)) as Hfile.
  exact Hfile.
Defined.

(** C9 as stated fails.  Without the flag and with no output file in place,
    a batch of a run whose directory is missing and a run whose directory is
    complete ends with FileNotFoundError at the first: nothing is written
    for it, and the second run, which alone is processed and written, is
    never reached. *)
Lemma unwritten_run_counterexample :
  let main := Main.Safe2_main example_cwd_path example_scenario_path example_scenarios []
                false empty_world in
  let out r := Main.out_filename example_cwd_path Main.Safe2_out_name r in
  let result := main ["2035_TM152_NGF_Path3"; "2035_TM152_NGF_Path1"]%string in
  snd result = Some FileNotFoundError ∧
  Main.files (fst result) !! out "2035_TM152_NGF_Path3"%string = None ∧
  Main.files (fst result) !! out "2035_TM152_NGF_Path1"%string = None ∧
  Main.log (fst result)
  = ["Processing run 2035_TM152_NGF_Path3";
     "Calculating Safe 2 for 2035_TM152_NGF_Path3"]%string ∧
  snd (main ["2035_TM152_NGF_Path1"%string]) = None ∧
  is_Some (Main.files (fst (main ["2035_TM152_NGF_Path1"%string]))
           !! out "2035_TM152_NGF_Path1"%string).
Proof.
  vm_compute. repeat split; try reflexivity. by eexists.
Qed.

Section NgfsFacts.
Context {Tables Dbf Inputs Frame : Type}.
Context (cwd_path : string → string) (tm_run_location : string → string).
Context (read_run_tables : string → exn + Tables).
Context (read_network_links_dbf : string → exn + Dbf).
Context (read_run_lookups : string → Tables → Dbf → exn + Inputs).
Context (calculate_Affordable1_transportation_costs : string → Main.Logged Frame).
Context (calculate_Affordable2_ratio_time_cost
           : string → Inputs → Ngfs.Dict float → Main.Logged (Ngfs.Dict float)).
Context (calculate_Efficient1_ratio_travel_time : string → Main.Logged Frame).
Context (calculate_Efficient2_commute_mode_share : string → Main.Logged Frame).
Context (calculate_Reliable1_change_travel_time
           : string → Inputs → Ngfs.Dict float → Main.Logged (Ngfs.Dict float)).
Context (calculate_Reliable2_ratio_peak_nonpeak
           : string → Inputs → Ngfs.Dict float → Main.Logged (Ngfs.Dict float)).
Context (calculate_Safe1_fatalities_freeways_nonfreeways
           : string → Inputs → Ngfs.Dict float → Main.Logged (Ngfs.Dict float)).
Context (calculate_Safe2_change_in_vmt : string → Main.Logged Frame).
Context (calculate_top_level_metrics : string → Inputs → Main.Logged Frame).
Context (metrics_dict_to_df : Ngfs.Dict float → Frame).
Context (empty_frame : Frame) (concat2 : Frame → Frame → Frame).
Context (select_METRICS_COLUMNS : Frame → exn + Frame).

Abbreviation ngfs_process :=
  (Main.ngfs_process tm_run_location read_run_tables read_network_links_dbf read_run_lookups
     calculate_Affordable1_transportation_costs
     calculate_Affordable2_ratio_time_cost calculate_Efficient1_ratio_travel_time
     calculate_Efficient2_commute_mode_share calculate_Reliable1_change_travel_time
     calculate_Reliable2_ratio_peak_nonpeak calculate_Safe1_fatalities_freeways_nonfreeways
     calculate_Safe2_change_in_vmt calculate_top_level_metrics metrics_dict_to_df
     empty_frame concat2 select_METRICS_COLUMNS).

Abbreviation ngfs_main :=
  (Main.ngfs_main cwd_path tm_run_location read_run_tables read_network_links_dbf
     read_run_lookups calculate_Affordable1_transportation_costs
     calculate_Affordable2_ratio_time_cost calculate_Efficient1_ratio_travel_time
     calculate_Efficient2_commute_mode_share calculate_Reliable1_change_travel_time
     calculate_Reliable2_ratio_peak_nonpeak calculate_Safe1_fatalities_freeways_nonfreeways
     calculate_Safe2_change_in_vmt calculate_top_level_metrics metrics_dict_to_df
     empty_frame concat2 select_METRICS_COLUMNS).

Abbreviation metric_message :=
  (Main.metric_message calculate_Affordable1_transportation_costs
     calculate_Affordable2_ratio_time_cost calculate_Efficient1_ratio_travel_time
     calculate_Efficient2_commute_mode_share calculate_Reliable1_change_travel_time
     calculate_Reliable2_ratio_peak_nonpeak calculate_Safe1_fatalities_freeways_nonfreeways
     calculate_Safe2_change_in_vmt calculate_top_level_metrics).

Lemma logged_bind_fst {X Y} (m : Main.Logged X) (f : X → Main.Logged Y) (msg : string) :
  msg ∈ fst (Main.logged_bind m f) → msg ∈ fst m ∨ ∃ x, snd m = inr x ∧ msg ∈ fst (f x).
Proof.
  unfold Main.logged_bind. destruct (snd m) as [e|x]; simpl; [by left|].
  rewrite elem_of_app. intros [?|?]; [by left|right; by exists x].
Qed.

Lemma logged_bind_inr {X Y} (m : Main.Logged X) (f : X → Main.Logged Y) (y : Y) :
  snd (Main.logged_bind m f) = inr y → ∃ x, snd m = inr x ∧ snd (f x) = inr y.
Proof.
  unfold Main.logged_bind. destruct (snd m) as [e|x]; simpl; [done|]. by exists x.
Qed.

(** The body of the loop logs "Reading ..." and nothing else of its own. *)
Lemma ngfs_process_messages (tm_run_id msg : string) :
  msg ∈ fst (ngfs_process tm_run_id) →
  msg = ("Reading " +:+ Main.network_links_file tm_run_location tm_run_id)%string ∨
  metric_message tm_run_id msg.
Proof.
  unfold Main.ngfs_process, Main.metric_message. intros Hmsg.
  repeat match goal with
         | H : _ ∈ fst (Main.logged_bind _ _) |- _ =>
             apply logged_bind_fst in H as [H|(? & _ & H)]
         | H : _ ∈ fst (Main.lift _) |- _ => by apply elem_of_nil in H
         | H : _ ∈ fst (Main.info _) |- _ => apply list_elem_of_singleton in H as ->; by left
         end;
    right; eauto 12.
Qed.

(** C1, as the code has it.  Nothing in the main loop catches an exception.
    The metrics of a run are available only when the reading of its inputs
    and every one of its nine metric functions returned.  When the body of a
    run raises, the loop ends there with that exception: the world is the
    one left by the runs before it, plus the message "Processing run ..."
    and what the body logged before the exception, which is "Reading ..."
    and progress messages of the metric functions; so no file is written
    for that run or for any run after it, and the loop logs nothing about
    the failure. *)
Theorem failure_aborts_batch :
  (∀ tm_run_id metrics_df,
     snd (ngfs_process tm_run_id) = inr metrics_df →
     ∃ tables dbf inputs a1 d1 e1 e2 d2 d3 d4 s2 top,
       read_run_tables tm_run_id = inr tables ∧
       read_network_links_dbf tm_run_id = inr dbf ∧
       read_run_lookups tm_run_id tables dbf = inr inputs ∧
       snd (calculate_Affordable1_transportation_costs tm_run_id) = inr a1 ∧
       snd (calculate_Affordable2_ratio_time_cost tm_run_id inputs []) = inr d1 ∧
       snd (calculate_Efficient1_ratio_travel_time tm_run_id) = inr e1 ∧
       snd (calculate_Efficient2_commute_mode_share tm_run_id) = inr e2 ∧
       snd (calculate_Reliable1_change_travel_time tm_run_id inputs d1) = inr d2 ∧
       snd (calculate_Reliable2_ratio_peak_nonpeak tm_run_id inputs d2) = inr d3 ∧
       snd (calculate_Safe1_fatalities_freeways_nonfreeways tm_run_id inputs d3) = inr d4 ∧
       snd (calculate_Safe2_change_in_vmt tm_run_id) = inr s2 ∧
       snd (calculate_top_level_metrics tm_run_id inputs) = inr top ∧
       select_METRICS_COLUMNS
         (concat2 (concat2 (concat2 (concat2 (concat2 (concat2 empty_frame a1) e1) e2) s2) top)
            (metrics_dict_to_df d4)) = inr metrics_df) ∧
  (∀ skip_if_exists w w1 before tm_run_id after e,
     ngfs_main skip_if_exists w before = (w1, None) →
     skip_if_exists
     && Main.path_exists (Main.out_filename cwd_path Main.ngfs_out_name tm_run_id) w1 = false →
     snd (ngfs_process tm_run_id) = inl e →
     ngfs_main skip_if_exists w (before ++ tm_run_id :: after)
     = ({| Main.files := Main.files w1;
           Main.log := Main.log w1 ++ ["Processing run " +:+ tm_run_id]
                       ++ fst (ngfs_process tm_run_id) |}, Some e)) ∧
  (∀ tm_run_id msg,
     msg ∈ fst (ngfs_process tm_run_id) →
     msg = ("Reading " +:+ tm_run_location tm_run_id
            +:+ "\OUTPUT\shapefile\network_links.DBF")%string ∨
     metric_message tm_run_id msg).
Proof.
  split; [|split].
  - intros r out. unfold Main.ngfs_process. intros Hout.
    repeat match goal with
           | H : snd (Main.logged_bind _ _) = inr _ |- _ =>
               apply logged_bind_inr in H as (? & ? & H)
           end.
    unfold Main.lift in *. simpl in *.
    eexists _, _, _, _, _, _, _, _, _, _, _, _. repeat split; eauto.
  - intros skip w w1 before r after e Hbefore Hgate Hproc.
    unfold Main.ngfs_main in *. rewrite main_loop_app, Hbefore. simpl.
    rewrite run_one_process by done. rewrite Hproc.
    unfold Main.announced, Main.log_infos, Main.log_info. simpl. by rewrite <- app_assoc.
  - apply ngfs_process_messages.
Qed.
End NgfsFacts.

Lemma failure_aborts_batch_witness :
  example_ngfs_main false empty_world ["2035_TM152_NGF_Path1"; "2035_TM152_NGF_Path4"]%string
  = ({| Main.files := ∅;
        Main.log := ["Processing run 2035_TM152_NGF_Path1"%string]
                    ++ fst (example_ngfs_process "2035_TM152_NGF_Path1") |},
     Some FileNotFoundError).
Proof.
  apply (proj1 (proj2 (failure_aborts_batch example_cwd_path example_run_location
                  (λ _, inr tt) (λ _, inr tt) (λ _ _ _, inr tt)
                  (example_frame_metric "Affordable 1"
       ["OUTPUT"; "core_summaries"; "travel-cost-hhldtraveltype.csv"] "") example_dict_metric
                  (example_frame_metric "Efficient 1"
       ["OUTPUT"; "core_summaries"; "ODTravelTime_byModeTimeperiodIncome.csv"]
       "2035_TM152_NGF_Path1")
                  (example_frame_metric "Efficient 2"
       ["OUTPUT"; "core_summaries"; "JourneyToWork_modes.csv"] "")
                  example_dict_metric example_dict_metric example_dict_metric
                  (example_frame_metric "Safe 2" ["OUTPUT"; "metrics"; "auto_times.csv"] "")
                  (λ tm_run_id _,
       example_frame_metric "overall" ["OUTPUT"; "core_summaries"; "TripDistance.csv"] ""
         tm_run_id)
                  (λ _, []) [] (λ x y, x ++ y) (λ df, inr df)))
           false empty_world empty_world [] "2035_TM152_NGF_Path1"%string
           ["2035_TM152_NGF_Path4"%string] FileNotFoundError);
    reflexivity.
Defined.

(** C1 as stated fails: with Efficient 1 unable to read its input for the
    first of two runs, the batch ends with that exception; the second run,
    whose metrics would all compute, is never processed, no file is written,
    and the log ends with the progress message of Efficient 1: it holds no
    record of the failure. *)
Lemma partial_failure_counterexample :
  let result := example_ngfs_main false empty_world
                  ["2035_TM152_NGF_Path1"; "2035_TM152_NGF_Path4"]%string in
  snd (example_ngfs_process "2035_TM152_NGF_Path4")
  = inr ["Affordable 1"; "Efficient 1"; "Efficient 2"; "Safe 2"; "overall"]%string ∧
  snd result = Some FileNotFoundError ∧
  Main.files (fst result)
  !! Main.out_filename example_cwd_path Main.ngfs_out_name "2035_TM152_NGF_Path4" = None ∧
  Main.log (fst result)
  = ["Processing run 2035_TM152_NGF_Path1";
     "Reading L:\Application\Model_One\NextGenFwys\Scenarios\2035_TM152_NGF_Path1\OUTPUT\shapefile\network_links.DBF";
     "Calculating Affordable 1 for 2035_TM152_NGF_Path1";
     "  Read 1 rows from L:\Application\Model_One\NextGenFwys\Scenarios\2035_TM152_NGF_Path1\OUTPUT\core_summaries\travel-cost-hhldtraveltype.csv";
     "Calculating Efficient 1 for 2035_TM152_NGF_Path1"]%string.
Proof. vm_compute. repeat split; reflexivity. Qed.

(** ** Counties *)

Lemma County_nested (r : Safe2.NetRow) (z : Z) :
  Safe2.row_TAZ1454 r = Some z →
  Safe2.County r
  = (if (1403 <? z) && (z <? 1455) then "Marin"%string
     else if (1317 <? z) && (z <? 1404) then "Sonoma"%string
     else if (1290 <? z) && (z <? 1318) then "Napa"%string
     else if (1210 <? z) && (z <? 1291) then "Solano"%string
     else if (1039 <? z) && (z <? 1211) then "Contra Costa"%string
     else if (714 <? z) && (z <? 1040) then "Alameda"%string
     else if (346 <? z) && (z <? 715) then "Santa Clara"%string
     else if (190 <? z) && (z <? 347) then "San Mateo"%string
     else "San Francisco"%string).
Proof. unfold Safe2.County. intros ->. reflexivity. Qed.

Ltac county_cases :=
  repeat match goal with
         | |- context [(?a <? ?b)] => destruct (Z.ltb_spec a b); simpl; try lia
         end.

(** X1. The county recode of the Safe 2 roll-up.  The eight masked
    assignments use exclusive bounds that neither overlap nor leave a gap
    between 191 and 1454, so their order does not matter: a link whose TAZ
    is [z] gets the county of a range exactly when lo < z < hi, and it keeps
    the initial San Francisco exactly when z <= 190 or z >= 1455.  A link
    without a TAZ (no row in the link lookup) is counted as San Francisco. *)
Theorem County_by_TAZ (r : Safe2.NetRow) :
  match Safe2.row_TAZ1454 r with
  | None => Safe2.County r = "San Francisco"%string
  | Some z =>
      (∀ lo hi name, (lo, hi, name) ∈ Safe2.county_ranges →
         Safe2.County r = name ↔ lo < z < hi) ∧
      (Safe2.County r = "San Francisco"%string ↔ z ≤ 190 ∨ 1455 ≤ z)
  end.
Proof.
  destruct (Safe2.row_TAZ1454 r) as [z|] eqn:Hz.
  - rewrite (County_nested r z Hz). split.
    + intros lo hi name Hin. unfold Safe2.county_ranges in Hin.
      rewrite !elem_of_cons, elem_of_nil in Hin.
      repeat (destruct Hin as [[= -> -> ->]|Hin];
              [county_cases; split; (reflexivity || discriminate || lia)|]).
      destruct Hin.
    + county_cases; split; (reflexivity || discriminate || lia || (intros; lia)).
  - unfold Safe2.County. rewrite Hz. reflexivity.
Qed.

(** ** The long table of Safe 2 *)

Lemma Safe2_wide_length (auto_times : list Safe2.AutoTimes) (net : list Safe2.NetLink)
    (links : list Safe2.LinkTaz) (epc : list Safe2.EpcRow) :
  length (Frames.data (Safe2_wide auto_times net links epc))
  = (length (Frames.groupby_sum Safe2.auto_by Safe2.auto_vals Safe2.pair_add
               Safe2.auto_key_le auto_times)
     + length (Safe2.ft_metrics_df net links epc))%nat.
Proof.
  unfold Safe2_wide, Frames.concat. simpl.
  rewrite !length_app, !length_map. simpl. by rewrite Nat.add_0_r.
Qed.

Lemma str_accessor_strings (col : list (option string)) (s : string) :
  Some s ∈ col → Safe2.str_accessor col = inr col.
Proof.
  intros Hin. unfold Safe2.str_accessor. destruct col as [|c col]; [done|].
  destruct (forallb _ (c :: col)) eqn:Hall; [|done].
  rewrite forallb_forall in Hall. specialize (Hall (Some s)).
  rewrite <- list_elem_of_In in Hall. specialize (Hall Hin).
  by apply bool_decide_eq_true_1 in Hall.
Qed.

Lemma str_accessor_blank (col : list (option string)) :
  col ≠ [] → (∀ c, c ∈ col → c = None) → Safe2.str_accessor col = inl AttributeError.
Proof.
  intros Hne Hall. unfold Safe2.str_accessor. destruct col as [|c col]; [done|].
  assert (forallb (λ c, bool_decide (c = None)) (c :: col) = true) as ->; [|done].
  apply forallb_forall. intros c' Hc'. apply bool_decide_eq_true_2, Hall.
  by apply list_elem_of_In.
Qed.

Lemma loc_mask_present (suffix : string) (col : list (option string)) :
  (∀ c, c ∈ col → is_Some c) →
  ∃ mask, Safe2.loc_mask (Safe2.endswith_mask suffix col) = inr mask.
Proof.
  intros Hall. unfold Safe2.loc_mask.
  assert (forallb (λ b, bool_decide (is_Some b)) (Safe2.endswith_mask suffix col) = true) as ->;
    [|by eexists].
  apply forallb_forall. intros b Hb. apply bool_decide_eq_true_2.
  unfold Safe2.endswith_mask in Hb. apply in_map_iff in Hb as (c & <- & Hc).
  apply list_elem_of_In in Hc. destruct (Hall c Hc) as [x ->]. by eexists.
Qed.

Lemma loc_mask_blank (suffix : string) (col : list (option string)) :
  None ∈ col → Safe2.loc_mask (Safe2.endswith_mask suffix col) = inl ValueError.
Proof.
  intros Hin. unfold Safe2.loc_mask.
  destruct (forallb _ (Safe2.endswith_mask suffix col)) eqn:Hall; [|done].
  rewrite forallb_forall in Hall. specialize (Hall None).
  assert (bool_decide (is_Some (@None bool)) = true) as Habs.
  { apply Hall. unfold Safe2.endswith_mask. apply in_map_iff. exists None.
    split; [done|]. by apply list_elem_of_In. }
  apply bool_decide_eq_true_1 in Habs. by destruct Habs.
Qed.

(** The masks on Mode: they are valid exactly when no Mode cell is blank. *)
Lemma Mode_masks_cases (auto_times : list Safe2.AutoTimes) :
  ((∀ r, r ∈ auto_times → is_Some (Safe2.Mode r)) →
   ∃ masks, Safe2.Mode_masks auto_times = inr masks) ∧
  (auto_times ≠ [] → (∀ r, r ∈ auto_times → Safe2.Mode r = None) →
   Safe2.Mode_masks auto_times = inl AttributeError) ∧
  ((∃ r, r ∈ auto_times ∧ Safe2.Mode r = None) →
   (∃ r, r ∈ auto_times ∧ is_Some (Safe2.Mode r)) →
   Safe2.Mode_masks auto_times = inl ValueError).
Proof.
  unfold Safe2.Mode_masks. split; [|split].
  - intros Hall.
    assert (∀ c, c ∈ map Safe2.Mode auto_times → is_Some c) as Hcol.
    { intros c Hc. apply elem_of_map in Hc as (r & -> & Hr). by apply Hall. }
    assert (Safe2.str_accessor (map Safe2.Mode auto_times) = inr (map Safe2.Mode auto_times))
      as ->.
    { destruct auto_times as [|r0 rows]; [done|].
      destruct (Hall r0) as [s Hs]; [left|].
      apply (str_accessor_strings _ s). rewrite <- Hs. apply elem_of_map. exists r0.
      split; [done|left]. }
    destruct (loc_mask_present "ix" _ Hcol) as [ix ->].
    destruct (loc_mask_present "air" _ Hcol) as [air ->]. by eexists.
  - intros Hne Hall. rewrite str_accessor_blank; [done| |].
    + by destruct auto_times.
    + intros c Hc. apply elem_of_map in Hc as (r & -> & Hr). by apply Hall.
  - intros (r & Hr & Hblank) (r' & Hr' & [s Hs]).
    rewrite (str_accessor_strings _ s).
    + rewrite loc_mask_blank; [done|]. rewrite <- Hblank. apply elem_of_map. by exists r.
    + rewrite <- Hs. apply elem_of_map. by exists r'.
Qed.

(** X2. calculate_Safe2_change_in_vmt on the tables of a run, once read.
    When auto_times.csv has rows and all of their Mode cells are blank, the
    column is not a string column and [.str] raises AttributeError; when
    some cells are blank and some are not, the mask of line 80 holds a
    missing value and raises ValueError.  When no cell of the text column
    Mode is blank the function returns: its result has the seven id
    columns, Metric Description, value, Model Run ID, Metric ID,
    Intermediate/Final and Year; it has eight rows (one per measure column)
    for every group of the auto-times roll-up and every group of the
    facility roll-up; every row has thirteen cells, the last four being the
    run id, Safe 2, final and the first four characters of the run id. *)
Theorem Safe2_output_shape (tm_run_id : string) (auto_times : list Safe2.AutoTimes)
    (net : list Safe2.NetLink) (links : list Safe2.LinkTaz) (epc : list Safe2.EpcRow) :
  let result := Safe2.calculate_Safe2_change_in_vmt tm_run_id auto_times net links epc in
  (auto_times ≠ [] → (∀ r, r ∈ auto_times → Safe2.Mode r = None) →
   result = inl AttributeError) ∧
  ((∃ r, r ∈ auto_times ∧ Safe2.Mode r = None) →
   (∃ r, r ∈ auto_times ∧ is_Some (Safe2.Mode r)) →
   result = inl ValueError) ∧
  ((∀ r, r ∈ auto_times → is_Some (Safe2.Mode r)) →
   ∃ out,
     result = inr out ∧
     Frames.columns out
     = Safe2.id_vars ++ ["Metric Description"; "value"; "Model Run ID"; "Metric ID";
                         "Intermediate/Final"; "Year"]%string ∧
     length (Frames.data out)
     = (8 * (length (Frames.groupby_sum Safe2.auto_by Safe2.auto_vals Safe2.pair_add
                       Safe2.auto_key_le auto_times)
             + length (Safe2.ft_metrics_df net links epc)))%nat ∧
     Forall (λ row, length row = 13%nat ∧
                    drop 9 row = [Frames.CStr tm_run_id; Frames.CStr "Safe 2";
                                  Frames.CStr "final";
                                  Frames.CStr (String.substring 0 4 tm_run_id)])
       (Frames.data out)).
Proof.
  intros result. subst result.
  destruct (Mode_masks_cases auto_times) as (Hok & Hattr & Hval).
  unfold Safe2.calculate_Safe2_change_in_vmt, Safe2.auto_times_df.
  split; [|split].
  - intros Hne Hall. by rewrite Hattr.
  - intros Hblank Hsome. by rewrite Hval.
  - intros Hall. destruct (Hok Hall) as [masks ->].
    pose proof (Safe2_wide_length auto_times net links epc) as Hlen.
    unfold Safe2.long_form.
    change (Frames.concat _) with (Safe2_wide auto_times net links epc).
    unfold Frames.melt, Frames.value_vars. rewrite Safe2_wide_columns.
    set (rows := Frames.data (Safe2_wide auto_times net links epc)) in *.
    set (cols := ["Household/Non-Household"; "Income Level/Travel Mode"; "VMT"; "VHT";
                  "Freeway/Non-Freeway"; "Facility Type Definition"; "EPC/Non-EPC";
                  "Tolled/Non-tolled Facilities"; "County"; "Total VMT"; "EA VMT"; "AM VMT";
                  "MD VMT"; "PM VMT"; "EV VMT"]%string).
    assert (forallb (λ c, bool_decide (c ∈ cols)) Safe2.id_vars = true) as ->
      by (vm_compute; reflexivity).
    assert (bool_decide ("value"%string ∈ cols) = false) as -> by (vm_compute; reflexivity).
    assert (filter (λ c, c ∉ Safe2.id_vars) cols
            = ["VMT"; "VHT"; "Total VMT"; "EA VMT"; "AM VMT"; "MD VMT"; "PM VMT"; "EV VMT"]%string)
      as -> by (vm_compute; reflexivity).
    eexists. split; [reflexivity|]. split; [reflexivity|].
    unfold Frames.assign_const. cbn [Frames.data Frames.columns]. split.
    + rewrite !length_map, (flat_map_length_const (Frames.melt_row cols Safe2.id_vars)).
      rewrite <- Hlen. simpl. lia.
    + rewrite !Forall_map. apply Forall_forall. intros row Hrow.
      apply list_elem_of_In, in_flat_map in Hrow as (v & _ & Hrow).
      apply in_map_iff in Hrow as (row0 & <- & _).
      unfold Frames.melt_row. rewrite !length_app, length_map. simpl. split; reflexivity.
Qed.

(** ** Facility types in the two roll-ups *)

Lemma sum_where_map {X Y} (f : X → Y) (mask : X → bool) (mask' : Y → bool)
    (col : Y → Qc) (l : list X) :
  (∀ x, x ∈ l → mask x = mask' (f x)) →
  Frames.sum_where mask (λ x, col (f x)) l = Frames.sum_where mask' col (map f l).
Proof.
  induction l as [|x l IH]; intros Hmask; [reflexivity|].
  simpl map. rewrite !sum_where_cons, Hmask by left.
  rewrite IH; [done|]. intros y Hy. apply Hmask. by right.
Qed.

Lemma sum_where_split {X} (m m1 m2 : X → bool) (col : X → Qc) (l : list X) :
  (∀ x, m x = m1 x || m2 x) → (∀ x, m1 x && m2 x = false) →
  Frames.sum_where m col l = (Frames.sum_where m1 col l + Frames.sum_where m2 col l)%Qc.
Proof.
  intros Hor Hdisj. induction l as [|x l IH].
  - unfold Frames.sum_where. simpl. ring.
  - rewrite !sum_where_cons, IH, Hor. specialize (Hdisj x).
    destruct (m1 x), (m2 x); simpl in *; try discriminate; ring.
Qed.

Lemma sum_where_ext {X} (m : X → bool) (col col' : X → Qc) (l : list X) :
  (∀ x, col x = col' x) → Frames.sum_where m col l = Frames.sum_where m col' l.
Proof.
  intros Hcol. induction l as [|x l IH]; [reflexivity|].
  by rewrite !sum_where_cons, IH, Hcol.
Qed.

Lemma column_sum_filter (P : Safe2.NetLink → Prop) `{∀ l, Decision (P l)}
    (col : Safe2.NetLink → Qc) (df : list Safe2.NetLink) :
  Ngfs.column_sum col (filter P df) = Frames.sum_where (λ l, bool_decide (P l)) col df.
Proof.
  unfold Ngfs.column_sum. induction df as [|l df IH]; [reflexivity|].
  rewrite sum_where_cons, filter_cons. destruct (decide (P l)) as [Hl|Hl].
  - rewrite bool_decide_eq_true_2 by done. simpl map. by rewrite Qc_sum_cons, IH.
  - rewrite bool_decide_eq_false_2 by done. rewrite IH. ring.
Qed.

(** The labels a link gets from the facility-type join. *)
Lemma ft_join_labels (net : list Safe2.NetLink) (links : list Safe2.LinkTaz)
    (epc : list Safe2.EpcRow) (r : Safe2.NetRow) :
  r ∈ Safe2.loaded_network_df net links epc →
  Safe2.row_Freeway_Non_Freeway r
  = (if ft_in [1; 2; 5; 8] (Safe2.row_link r) then Some "Freeway"%string
     else if ft_in [3; 4; 6; 7] (Safe2.row_link r) then Some "Non-Freeway"%string
     else None) ∧
  (is_Some (Safe2.row_Facility_Type_Definition r) ↔ is_Some (Safe2.row_Freeway_Non_Freeway r)).
Proof.
  intros Hr. destruct r as [[l o] f]. apply merge_left_elem in Hr as [_ Hcase].
  unfold Safe2.row_link, Safe2.row_Freeway_Non_Freeway, Safe2.row_Facility_Type_Definition,
    ft_in, Ngfs.isin.
  simpl in *. destruct Hcase as [[-> Hno]|(f0 & -> & Hf & Hk)].
  - simpl. split; [|by rewrite <- !not_eq_None_Some].
    rewrite !bool_decide_eq_false_2; [done| |].
    + intros Hin. rewrite !elem_of_cons, elem_of_nil in Hin.
      destruct Hin as [Hft|[Hft|[Hft|[Hft|[]]]]].
      * apply (Hno (Safe2.Build_FtRow 3 (Some "Non-Freeway"%string) (Some "Expressway"%string)));
          [unfold Safe2.ft_to_grouping_key_df; set_solver|by rewrite Hft].
      * apply (Hno (Safe2.Build_FtRow 4 (Some "Non-Freeway"%string) (Some "Collector"%string)));
          [unfold Safe2.ft_to_grouping_key_df; set_solver|by rewrite Hft].
      * apply (Hno (Safe2.Build_FtRow 6 (Some "Non-Freeway"%string) (Some "Other"%string)));
          [unfold Safe2.ft_to_grouping_key_df; set_solver|by rewrite Hft].
      * apply (Hno (Safe2.Build_FtRow 7 (Some "Non-Freeway"%string) (Some "Arterial"%string)));
          [unfold Safe2.ft_to_grouping_key_df; set_solver|by rewrite Hft].
    + intros Hin. rewrite !elem_of_cons, elem_of_nil in Hin.
      destruct Hin as [Hft|[Hft|[Hft|[Hft|[]]]]].
      * apply (Hno (Safe2.Build_FtRow 1 (Some "Freeway"%string) (Some "Freeway"%string)));
          [unfold Safe2.ft_to_grouping_key_df; set_solver|by rewrite Hft].
      * apply (Hno (Safe2.Build_FtRow 2 (Some "Freeway"%string) (Some "Freeway"%string)));
          [unfold Safe2.ft_to_grouping_key_df; set_solver|by rewrite Hft].
      * apply (Hno (Safe2.Build_FtRow 5 (Some "Freeway"%string) (Some "Freeway"%string)));
          [unfold Safe2.ft_to_grouping_key_df; set_solver|by rewrite Hft].
      * apply (Hno (Safe2.Build_FtRow 8 (Some "Freeway"%string) (Some "Freeway"%string)));
          [unfold Safe2.ft_to_grouping_key_df; set_solver|by rewrite Hft].
  - unfold Safe2.ft_to_grouping_key_df in Hf. rewrite !elem_of_cons, elem_of_nil in Hf.
    simpl. rewrite <- Hk.
    repeat (destruct Hf as [->|Hf];
            [simpl; split; [reflexivity|]; first [done|split; intros _; by eexists]|]).
    done.
Qed.

Ltac ft_mask_cases :=
  intros ?; unfold ft_in, Ngfs.isin; repeat case_bool_decide; simpl; try reflexivity;
  exfalso;
  repeat match goal with
         | H : _ ∈ _ |- _ => rewrite ?elem_of_cons, ?elem_of_nil in H
         | H : ¬ (_ ∈ _) |- _ => rewrite ?elem_of_cons, ?elem_of_nil in H
         end;
  lia.

Lemma facility_rollup_by_ft (net : list Safe2.NetLink) (links : list Safe2.LinkTaz)
    (epc : list Safe2.EpcRow) (π : Safe2.VmtSums → Qc) (col : Safe2.NetLink → Qc)
    (label : string) (codes : list Z) :
  (∀ x y, π (Safe2.sums_add x y) = (π x + π y)%Qc) →
  (∀ r, π (Safe2.ft_vals r) = col (Safe2.row_link r)) →
  (∀ r, r ∈ Safe2.loaded_network_df net links epc →
        Frames.key_pass (fwy_is label) (Safe2.ft_by r) = ft_in codes (Safe2.row_link r)) →
  Frames.sum_where (λ g, fwy_is label (fst g)) (λ g, π (snd g))
    (Safe2.ft_metrics_df net links epc)
  = Frames.sum_where (ft_in codes) col net.
Proof.
  intros Hadd Hcol Hmask. unfold Safe2.ft_metrics_df.
  rewrite (groupby_sum_where Safe2.ft_by Safe2.ft_vals Safe2.sums_add Safe2.ft_key_le
             π Hadd (fwy_is label)).
  rewrite (sum_where_ext _ _ (λ r, col (Safe2.row_link r))) by exact Hcol.
  rewrite (sum_where_map Safe2.row_link _ (ft_in codes) col) by exact Hmask.
  by rewrite loaded_network_df_links.
Qed.

Lemma ft_by_label (net : list Safe2.NetLink) (links : list Safe2.LinkTaz)
    (epc : list Safe2.EpcRow) (r : Safe2.NetRow) :
  r ∈ Safe2.loaded_network_df net links epc →
  Frames.key_pass (fwy_is "Freeway") (Safe2.ft_by r) = ft_in [1; 2; 5; 8] (Safe2.row_link r) ∧
  Frames.key_pass (fwy_is "Non-Freeway") (Safe2.ft_by r)
  = ft_in [3; 4; 6; 7] (Safe2.row_link r).
Proof.
  intros Hr. destruct (ft_join_labels net links epc r Hr) as [Hlabel Hdef].
  unfold Safe2.ft_by. rewrite Hlabel in *.
  assert (ft_in [1; 2; 5; 8] (Safe2.row_link r) && ft_in [3; 4; 6; 7] (Safe2.row_link r) = false)
    as Hdisj by (revert r Hr Hlabel Hdef; intros r _ _ _; generalize (Safe2.row_link r); ft_mask_cases).
  destruct (ft_in [1; 2; 5; 8] (Safe2.row_link r)) eqn:H1;
    destruct (ft_in [3; 4; 6; 7] (Safe2.row_link r)) eqn:H2; try discriminate; simpl.
  - destruct (Safe2.row_Facility_Type_Definition r) as [d|] eqn:Hd; [done|].
    destruct (proj2 Hdef) as [? [=]]. by eexists.
  - destruct (Safe2.row_Facility_Type_Definition r) as [d|] eqn:Hd; [done|].
    destruct (proj2 Hdef) as [? [=]]. by eexists.
  - done.
Qed.

(** X3. The two roll-ups by facility type agree up to ramps and dummy
    links, on a network whose sums are exact.  For VMT and for VHT, the
    Safe 2 total of the groups labelled Freeway is the sum over the links of
    facility type 1, 2, 5 or 8, which is the top-level Freeway entry (types
    1, 2 and 8) plus the sum over the freeway ramps (type 5); the total of
    the groups labelled Non-Freeway is the top-level Arterial, Expressway
    and Collector entries plus the sum over the dummy links (type 6).  Links
    of any other type count in neither. *)
Theorem facility_type_reconciliation (net : list Safe2.NetLink) (links : list Safe2.LinkTaz)
    (epc : list Safe2.EpcRow) (tm_run_id year : string) (metrics_dict : Ngfs.Dict Qc) :
  let groups := Safe2.ft_metrics_df net links epc in
  let d := Ngfs.top_level_vmt_vht tm_run_id year net metrics_dict in
  ∀ measure π col, (measure, π, col) ∈ shared_measures → exact_measure col net = true →
    ∃ fwy art exp coll,
      Ngfs.dict_get (Ngfs.top_key tm_run_id year "Freeway" measure "Freeway") d = Some fwy ∧
      Ngfs.dict_get (Ngfs.top_key tm_run_id year "Non-Freeway" measure "Arterial") d = Some art ∧
      Ngfs.dict_get (Ngfs.top_key tm_run_id year "Non-Freeway" measure "Expressway") d = Some exp ∧
      Ngfs.dict_get (Ngfs.top_key tm_run_id year "Non-Freeway" measure "Collector") d = Some coll ∧
      Frames.sum_where (λ g, fwy_is "Freeway" (fst g)) (λ g, π (snd g)) groups
      = (fwy + Frames.sum_where (ft_in [5]) col net)%Qc ∧
      Frames.sum_where (λ g, fwy_is "Non-Freeway" (fst g)) (λ g, π (snd g)) groups
      = (art + exp + coll + Frames.sum_where (ft_in [6]) col net)%Qc.
Proof.
  intros groups d measure π col Hin _. unfold shared_measures in Hin.
  assert ((∀ x y, π (Safe2.sums_add x y) = (π x + π y)%Qc) ∧
          (∀ r, π (Safe2.ft_vals r) = col (Safe2.row_link r))) as [Hadd Hcol].
  { rewrite !elem_of_cons, elem_of_nil in Hin.
    destruct Hin as [[= -> -> ->]|[[= -> -> ->]|[]]]; split; try done.
    intros r. unfold Safe2.ft_vals, Ngfs.total_vmt, Safe2.Total_VMT. simpl. ring. }
  exists (Ngfs.column_sum col (Ngfs.fwy_vmt_df net)),
         (Ngfs.column_sum col (Ngfs.arterial_vmt_df net)),
         (Ngfs.column_sum col (Ngfs.expressway_vmt_df net)),
         (Ngfs.column_sum col (Ngfs.collector_vmt_df net)).
  split; [|split; [|split; [|split; [|split]]]].
  1-4: unfold d, Ngfs.top_level_vmt_vht;
       rewrite !elem_of_cons, elem_of_nil in Hin;
       destruct Hin as [[= -> -> ->]|[[= -> -> ->]|[]]];
       repeat (rewrite dict_get_set_ne by (unfold Ngfs.top_key; intros [=]));
       apply dict_get_set_eq.
  - unfold groups.
    rewrite (facility_rollup_by_ft net links epc π col "Freeway" [1; 2; 5; 8] Hadd Hcol)
      by (intros r Hr; apply (ft_by_label net links epc r Hr)).
    unfold Ngfs.fwy_vmt_df. rewrite column_sum_filter.
    apply sum_where_split; ft_mask_cases.
  - unfold groups.
    rewrite (facility_rollup_by_ft net links epc π col "Non-Freeway" [3; 4; 6; 7] Hadd Hcol)
      by (intros r Hr; apply (ft_by_label net links epc r Hr)).
    unfold Ngfs.arterial_vmt_df, Ngfs.expressway_vmt_df, Ngfs.collector_vmt_df.
    rewrite !column_sum_filter.
    rewrite (sum_where_split (ft_in [3; 4; 6; 7]) (ft_in [3; 4; 7]) (ft_in [6]))
      by ft_mask_cases.
    f_equal.
    rewrite (sum_where_split (ft_in [3; 4; 7]) (ft_in [3; 7]) (λ l, bool_decide (Safe2.ft l = 4)))
      by ft_mask_cases.
    f_equal.
    apply sum_where_split; ft_mask_cases.
Qed.

Lemma facility_type_reconciliation_witness :
  ∃ fwy,
    Ngfs.dict_get (Ngfs.top_key "2035_TM152_NGF" "2035" "Freeway" "VMT" "Freeway")
      (Ngfs.top_level_vmt_vht "2035_TM152_NGF" "2035" example_ramp_network []) = Some fwy ∧
    Frames.sum_where (λ g, fwy_is "Freeway" (fst g)) (λ g, Safe2.sum_Total_VMT (snd g))
      (Safe2.ft_metrics_df example_ramp_network [] [])
    = (fwy + Qc_of_Z 50)%Qc.
Proof.
  assert (("VMT"%string, Safe2.sum_Total_VMT, Ngfs.total_vmt) ∈ shared_measures) as Hin
    by (unfold shared_measures; left).
  assert (exact_measure Ngfs.total_vmt example_ramp_network = true) as Hexact
    by (vm_compute; reflexivity).
  destruct (facility_type_reconciliation example_ramp_network [] [] "2035_TM152_NGF" "2035" []
              "VMT" Safe2.sum_Total_VMT Ngfs.total_vmt Hin Hexact)
    as (fwy & _ & _ & _ & Hfwy & _ & _ & _ & Hsum & _).
  exists fwy. split; [exact Hfwy|]. rewrite Hsum. f_equal.
Defined.

(** ** Corridor names in the metric descriptions *)

Lemma string_app_nil_r (s : string) : s +:+ "" = s.
Proof.
  induction s as [|a s IH]; [done|].
  change (String a (s +:+ "") = String a s). by rewrite IH.
Qed.

Lemma string_app_assoc (s t u : string) : (s +:+ t) +:+ u = s +:+ t +:+ u.
Proof.
  induction s as [|a s IH]; [done|].
  change (String a ((s +:+ t) +:+ u) = String a (s +:+ t +:+ u)). by rewrite IH.
Qed.

Lemma str_contains_cons (sep : string) (a : Ascii.ascii) (s : string) :
  Ngfs.str_contains sep (String a s) = false →
  String.prefix sep (String a s) = false ∧ Ngfs.str_contains sep s = false.
Proof.
  unfold Ngfs.str_contains. cbn [String.index].
  destruct (String.prefix sep (String a s)); [done|].
  by destruct (String.index 0 sep s).
Qed.

(** Without an occurrence of the separator the split has one part. *)
Lemma split_go_absent (sep cur s : string) :
  Ngfs.str_contains sep s = false → Ngfs.split_go sep 0 cur s = [cur +:+ s].
Proof.
  revert cur. induction s as [|a s IH]; intros cur Hno; cbn [Ngfs.split_go].
  - by rewrite string_app_nil_r.
  - apply str_contains_cons in Hno as [Hpre Hno]. rewrite Hpre.
    rewrite IH by done. by rewrite string_app_assoc.
Qed.

(** [_AM] has no proper prefix that is also a suffix, so no occurrence can
    straddle the end of a string it does not occur in. *)
Lemma prefix_AM_app (a : Ascii.ascii) (p : string) :
  String.prefix "_AM" (String a p) = false →
  String.prefix "_AM" (String a p +:+ "_AM") = false.
Proof.
  change (String a p +:+ "_AM") with (String a (p +:+ "_AM")).
  cbn [String.prefix]. destruct (Ascii.ascii_dec _ a) as [_|]; [|done].
  destruct p as [|b p]; [intros _; reflexivity|].
  change (String b p +:+ "_AM") with (String b (p +:+ "_AM")).
  cbn [String.prefix]. destruct (Ascii.ascii_dec _ b) as [_|]; [|done].
  destruct p as [|c p]; [intros _; reflexivity|].
  change (String c p +:+ "_AM") with (String c (p +:+ "_AM")).
  cbn [String.prefix]. destruct (Ascii.ascii_dec _ c); [|done].
  destruct p; simpl; intros [=].
Qed.

Lemma split_go_AM (cur p : string) :
  Ngfs.str_contains "_AM" p = false →
  Ngfs.split_go "_AM" 0 cur (p +:+ "_AM") = [cur +:+ p; ""%string].
Proof.
  revert cur. induction p as [|a p IH]; intros cur Hno.
  - simpl. by rewrite string_app_nil_r.
  - apply str_contains_cons in Hno as [Hpre Hno].
    apply prefix_AM_app in Hpre.
    change (String a p +:+ "_AM") with (String a (p +:+ "_AM")) in *.
    cbn [Ngfs.split_go]. rewrite Hpre, IH by done. by rewrite string_app_assoc.
Qed.

Lemma str_contains_app_AM (p : string) : Ngfs.str_contains "_AM" (p +:+ "_AM") = true.
Proof.
  unfold Ngfs.str_contains. induction p as [|a p IH]; [reflexivity|].
  change (String a p +:+ "_AM") with (String a (p +:+ "_AM")).
  cbn [String.index]. destruct (String.prefix "_AM" (String a (p +:+ "_AM"))); [done|].
  by destruct (String.index 0 "_AM" (p +:+ "_AM")).
Qed.

Lemma prefix_app_false (sep u rest : string) :
  String.prefix sep u = false → String.prefix u sep = false →
  String.prefix sep (u +:+ rest) = false.
Proof.
  revert u. induction sep as [|a sep IH]; intros [|b u]; try done.
  change (String b u +:+ rest) with (String b (u +:+ rest)).
  cbn [String.prefix].
  destruct (Ascii.ascii_dec a b) as [->|Hne].
  - destruct (Ascii.ascii_dec b b); [apply IH|done].
  - done.
Qed.

Lemma prefix_app_true (sep rest : string) : String.prefix sep (sep +:+ rest) = true.
Proof.
  induction sep as [|a sep IH]; [by destruct rest|].
  change (String a sep +:+ rest) with (String a (sep +:+ rest)).
  cbn [String.prefix]. by destruct (Ascii.ascii_dec a a).
Qed.

Lemma split_go_walk (sep pre cur rest : string) :
  no_overlap sep pre = true →
  Ngfs.split_go sep 0 cur (pre +:+ rest) = Ngfs.split_go sep 0 (cur +:+ pre) rest.
Proof.
  revert cur. induction pre as [|a pre IH]; intros cur Hno.
  - by rewrite string_app_nil_r.
  - cbn [no_overlap] in Hno. apply andb_prop in Hno as [Hno Hrest].
    apply andb_prop in Hno as [H1 H2].
    apply negb_true_iff in H1, H2.
    pose proof (prefix_app_false sep (String a pre) rest H1 H2) as Hpre.
    change (String a pre +:+ rest) with (String a (pre +:+ rest)) in *.
    cbn [Ngfs.split_go]. rewrite Hpre, IH by done. by rewrite string_app_assoc.
Qed.

Lemma split_go_skip (sep pre cur rest : string) :
  Ngfs.split_go sep (String.length pre) cur (pre +:+ rest) = Ngfs.split_go sep 0 cur rest.
Proof.
  induction pre as [|a pre IH]; [done|].
  change (String a pre +:+ rest) with (String a (pre +:+ rest)).
  cbn [String.length Ngfs.split_go]. exact IH.
Qed.

Lemma split_go_sep (a : Ascii.ascii) (sep cur rest : string) :
  Ngfs.split_go (String a sep) 0 cur (String a sep +:+ rest)
  = cur :: Ngfs.split_go (String a sep) 0 "" rest.
Proof.
  pose proof (prefix_app_true (String a sep) rest) as Hpre.
  change (String a sep +:+ rest) with (String a (sep +:+ rest)) in *.
  cbn [Ngfs.split_go]. rewrite Hpre. f_equal.
  cbn [String.length]. rewrite Nat.sub_1_r. cbn [Nat.pred].
  apply split_go_skip.
Qed.

(** The part after the stem, for a stem that ends in travel_time_. *)
Lemma split_travel_time (pre i : string) :
  no_overlap "travel_time_" pre = true →
  Ngfs.str_contains "travel_time_" i = false →
  List.last (Ngfs.str_split "travel_time_" (pre +:+ "travel_time_" +:+ i)) ""%string = i.
Proof.
  intros Hpre Hno. unfold Ngfs.str_split.
  rewrite split_go_walk by done.
  rewrite (split_go_sep _ _ _ i). by rewrite split_go_absent.
Qed.

(** X4. The corridor name survives the round trip through the metric
    description.  calculate_change_between_run_and_base recovers the grouping
    key of a delta from the description of the metric: for a description
    built as <stem><corridor>_AM with one of the travel-time stems, the key is
    the corridor name again, provided _AM does not occur in <stem><corridor>
    and travel_time_ does not occur in the corridor name.  For the
    average-speed descriptions, which have no travel_time_ in them, the key
    is not the corridor name but the whole of average_speed_<corridor>. *)
Theorem corridor_key_round_trip (key i : string) :
  (∀ stem, stem ∈ travel_time_stems →
     Ngfs.str_contains "_AM" (stem +:+ i) = false →
     Ngfs.str_contains "travel_time_" i = false →
     Ngfs.next_key key (corridor_metric_desc stem i) = i) ∧
  (Ngfs.str_contains "_AM" ("average_speed_" +:+ i) = false →
   Ngfs.str_contains "travel_time_" ("average_speed_" +:+ i) = false →
   Ngfs.next_key key (corridor_metric_desc "average_speed_" i) = "average_speed_" +:+ i).
Proof.
  split.
  - intros stem Hstem HAM Htt. unfold Ngfs.next_key, corridor_metric_desc.
    rewrite <- string_app_assoc, str_contains_app_AM.
    unfold Ngfs.str_split at 2. rewrite split_go_AM by done.
    cbn [hd]. change ("" +:+ (stem +:+ i)) with (stem +:+ i).
    unfold travel_time_stems in Hstem. rewrite !elem_of_cons, elem_of_nil in Hstem.
    destruct Hstem as [->|[->|[->|[->|[]]]]].
    + by apply (split_travel_time "").
    + by apply (split_travel_time "Freeway_").
    + by apply (split_travel_time "Parallel_Arterial_").
    + by apply (split_travel_time "Tolled_Arterial_").
  - intros HAM Htt. unfold Ngfs.next_key, corridor_metric_desc.
    rewrite <- string_app_assoc, str_contains_app_AM.
    unfold Ngfs.str_split at 2. rewrite split_go_AM by done.
    cbn [hd]. change ("" +:+ ("average_speed_" +:+ i)) with ("average_speed_" +:+ i).
    unfold Ngfs.str_split. rewrite split_go_absent by done. reflexivity.
Qed.

Lemma corridor_key_round_trip_witness :
  Ngfs.next_key "Change" (corridor_metric_desc "Freeway_travel_time_" "EastBay_880680")
  = "EastBay_880680"%string.
Proof.
  apply (proj1 (corridor_key_round_trip "Change" "EastBay_880680")
           "Freeway_travel_time_"%string).
  - unfold travel_time_stems. apply (bool_decide_unpack _). vm_compute. reflexivity.
  - vm_compute. reflexivity.
  - vm_compute. reflexivity.
Defined.

(** ** What the run-against-base comparison leaves alone *)






(** X6. The base run compared with itself, for a plain metric id and a
    dictionary that is not empty.  When tm_run_id is the base scenario,
    every listed metric finds a base row, the row its run value is read
    from: the function returns without an exception and stores, for every
    listed metric of value v, the subtraction v - v and the quotient
    (v - v) / v. *)
Theorem base_run_against_itself (tm_run_id year metric_id : string)
    (metrics_dict : Ngfs.Dict float) :
  Ngfs.regex_plain metric_id = true →
  metrics_dict ≠ [] →
  ∃ d', Ngfs.calculate_change_between_run_and_base tm_run_id tm_run_id year metric_id
          metrics_dict = (d', None) ∧
    ∀ metric, metric ∈ Ngfs.metrics_list tm_run_id metric_id metrics_dict →
      ∃ v k, Ngfs.first_value metrics_dict tm_run_id metric = inr v ∧
        Ngfs.dict_get (Ngfs.change_key tm_run_id year metric_id k ("change_in_" +:+ metric)) d'
        = Some (v - v)%float ∧
        Ngfs.dict_get (Ngfs.change_key tm_run_id year metric_id k ("pct_change_in_" +:+ metric)) d'
        = Some ((v - v) / v)%float.
Proof.
  intros _ Hne. rewrite calculate_change_nonempty by done.
  destruct (change_loop_complete tm_run_id tm_run_id year metric_id metrics_dict
              (Ngfs.metrics_list tm_run_id metric_id metrics_dict) "Change" metrics_dict)
    as (d' & Hloop & Hall).
  - intros m Hm. by eapply metrics_list_run_value.
  - intros m Hm. by eapply metrics_list_run_value.
  - exists d'. split; [done|]. intros m Hm.
    destruct (Hall m Hm) as (vr & vb & k & Hvr & Hvb & Hc & Hp).
    assert (vb = vr) as -> by congruence.
    by exists vr, k.
Qed.

Lemma base_run_against_itself_witness :
  ∃ d', Ngfs.calculate_change_between_run_and_base "2035_TM152_NGF_Path1"
          "2035_TM152_NGF_Path1" "2035" "Reliable 1" (delta_example_dict 120%float None)
        = (d', None).
Proof.
  destruct (base_run_against_itself "2035_TM152_NGF_Path1" "2035" "Reliable 1"
              (delta_example_dict 120%float None) eq_refl ltac:(discriminate))
    as (d' & Hcall & _).
  by exists d'.
Defined.

(** ** What the main loops leave alone *)

Section LoopFrame.
Context {Out : Type}.
Context (cwd_path : string → string) (out_name : string → string).
Context (process : string → Main.Logged Out) (skip_if_exists : bool).

Abbreviation out_filename := (Main.out_filename cwd_path out_name).
Abbreviation run_one := (Main.run_one cwd_path out_name process skip_if_exists).
Abbreviation main_loop := (Main.main_loop cwd_path out_name process skip_if_exists).

Lemma run_one_effect (w : Main.World Out) (r : string) :
  let w' := fst (run_one w r) in
  (Main.files w' = Main.files w ∨ ∃ df, Main.files w' = <[out_filename r := df]> (Main.files w)) ∧
  Main.log w `prefix_of` Main.log w'.
Proof.
  unfold Main.run_one. destruct (skip_if_exists && _); simpl.
  - split; [by left|]. by apply prefix_app_r.
  - destruct (snd (process r)) as [e|df]; simpl.
    + split; [by left|]. rewrite <- app_assoc. by apply prefix_app_r.
    + split; [right; by exists df|]. rewrite <- !app_assoc. by apply prefix_app_r.
Qed.

Lemma main_loop_cons (w : Main.World Out) (r : string) (runs : list string) :
  fst (main_loop w (r :: runs))
  = match snd (run_one w r) with
    | None => fst (main_loop (fst (run_one w r)) runs)
    | Some _ => fst (run_one w r)
    end.
Proof. simpl. by destruct (run_one w r) as [w1 [e|]]. Qed.

Lemma main_loop_frame (w : Main.World Out) (runs : list string) (path : string) :
  (∀ r, r ∈ runs → out_filename r ≠ path) →
  Main.files (fst (main_loop w runs)) !! path = Main.files w !! path.
Proof.
  revert w. induction runs as [|r runs IH]; intros w Hpath; [done|].
  rewrite main_loop_cons.
  destruct (run_one_effect w r) as [Hfiles _].
  assert (Main.files (fst (run_one w r)) !! path = Main.files w !! path) as Hone.
  { destruct Hfiles as [->|[df ->]]; [done|]. apply lookup_insert_ne, Hpath. left. }
  destruct (snd (run_one w r)); [done|].
  rewrite IH; [done|]. intros r' Hr'. apply Hpath. by right.
Qed.



End LoopFrame.





(** ** Which runs are processed *)

Lemma current_runs_list_elem (all_runs : list Runs.RunRow) (dir : string) :
  dir ∈ Runs.current_runs_list all_runs ↔
  ∃ row, row ∈ all_runs ∧ Runs.directory row = dir ∧
         Runs.status row = Some "current"%string ∧ Runs.year row = Some 2035.
Proof.
  unfold Runs.current_runs_list, Runs.current_runs_df. rewrite elem_of_map. split.
  - intros (row & -> & Hrow). apply list_elem_of_filter in Hrow as [Hyear Hrow].
    apply list_elem_of_filter in Hrow as [Hstatus Hrow]. by exists row.
  - intros (row & Hrow & <- & Hstatus & Hyear). exists row. split; [done|].
    apply list_elem_of_filter. split; [done|]. by apply list_elem_of_filter.
Qed.

(** X9. Only current 2035 runs are processed.  Both scripts loop over the
    directories of the rows of the run sheet whose status is current and
    whose year is 2035, in sheet order.  With output paths that are distinct
    for distinct runs, the output file of a run that has no such row is the
    same after the loop as before, whether the loop ends or raises: the
    scripts never write metrics for a run of another year or status. *)
Theorem only_current_2035_runs_written {Out : Type} (cwd_path out_name : string → string)
    (process : string → Main.Logged Out) (skip_if_exists : bool)
    (all_runs : list Runs.RunRow) (w : Main.World Out) (dir : string) :
  (∀ n n', cwd_path n = cwd_path n' → n = n') →
  (∀ r r', out_name r = out_name r' → r = r') →
  (∀ row, row ∈ all_runs → Runs.directory row = dir →
          Runs.status row ≠ Some "current"%string ∨ Runs.year row ≠ Some 2035) →
  let w' := fst (Main.main_loop cwd_path out_name process skip_if_exists w
                   (Runs.current_runs_list all_runs)) in
  Main.files w' !! Main.out_filename cwd_path out_name dir
  = Main.files w !! Main.out_filename cwd_path out_name dir.
Proof.
  intros Hcwd Hname Hnot w'. apply main_loop_frame.
  intros r Hr Heq. unfold Main.out_filename in Heq.
  apply Hcwd, Hname in Heq as ->.
  apply current_runs_list_elem in Hr as (row & Hrow & Hdir & Hstatus & Hyear).
  destruct (Hnot row Hrow Hdir); done.
Qed.

Lemma only_current_2035_runs_written_witness :
  Runs.current_runs_list example_all_runs = ["2035_TM152_NGF_Path1"%string] ∧
  Main.files (fst (Main.Safe2_main example_cwd_path example_scenario_path example_scenarios []
                     false empty_world (Runs.current_runs_list example_all_runs)))
    !! example_cwd_path (Main.Safe2_out_name "2015_TM152_NGF_05")
  = None.
Proof.
  split; [reflexivity|].
  apply (only_current_2035_runs_written example_cwd_path Main.Safe2_out_name
           (Main.Safe2_process example_scenario_path example_scenarios []) false
           example_all_runs empty_world "2015_TM152_NGF_05").
  - intros n n' H. unfold example_cwd_path in H. by apply String.app_inj in H.
  - apply Safe2_out_name_inj.
  - intros row Hrow Hdir. unfold example_all_runs in Hrow.
    rewrite !elem_of_cons, elem_of_nil in Hrow.
    destruct Hrow as [->|[->|[->|[]]]]; simpl in *; try discriminate Hdir.
    right. discriminate.
Defined.

(** ** Shares of trips *)

Lemma map_fst_determined {X Y} (f : X → X * Y) (l : list (X * Y)) (rows : list X) :
  map fst l = rows → (∀ x, x ∈ l → x = f (fst x)) → l = map f rows.
Proof.
  intros <- Hdet. induction l as [|x l IH]; [done|].
  simpl. rewrite <- (Hdet x) by left. f_equal. apply IH.
  intros y Hy. apply Hdet. by right.
Qed.

Section ShareFacts.
Context {G K : Type} `{EqDecision K}.
Context (coarse : G → K) (val : G → Qc) (kle : K → K → bool) (rows : list G).

Abbreviation totals := (Frames.groupby_sum (λ g, Some (coarse g)) val Qcplus kle rows).
Abbreviation total_of :=
  (λ k, Frames.sum_where (λ g, bool_decide (k = coarse g)) val rows).

(** Every row is joined to the total of its own group. *)
Lemma merge_totals :
  Frames.merge_left coarse fst rows totals
  = map (λ g, (g, Some (coarse g, total_of (coarse g)))) rows.
Proof.
  apply map_fst_determined.
  - apply merge_left_fst.
    apply (groupby_sum_NoDup (λ g, Some (coarse g)) val Qcplus kle).
  - intros [g o] Hx. simpl. f_equal.
    apply merge_left_elem in Hx as [Hg [[-> Hno]|((k & s) & -> & Hr & Hk)]].
    + exfalso.
      assert (coarse g ∈ map fst totals) as Hkey.
      { apply (groupby_sum_keys (λ g, Some (coarse g)) val Qcplus kle). by exists g. }
      apply elem_of_map in Hkey as (r & Hfst & Hr). by apply (Hno r).
    + simpl in Hk. subst k. do 2 f_equal.
      apply (groupby_sum_group (λ g, Some (coarse g)) val Qcplus kle (λ q, q) (λ x y, eq_refl)
               rows (coarse g) s Hr).
Qed.
End ShareFacts.

Lemma tm_trips_df_total (P : string * string * string → bool) (TripDistance : list Ngfs.Trip) :
  Frames.sum_where (λ g, P (fst g)) TripShares.trips (Ngfs.tm_trips_df TripDistance)
  = Frames.sum_where
      (λ t, P (Ngfs.agg_trip_mode t, Ngfs.commute_non t, Ngfs.peak_non t))
      Ngfs.freq TripDistance.
Proof.
  unfold Ngfs.tm_trips_df.
  exact (groupby_sum_where Ngfs.trips_by Ngfs.freq Qcplus Ngfs.trips_key_le
           (λ q, q) (λ x y, eq_refl) P TripDistance).
Qed.

(** X10. The shares of trips_commute_mode_pkop, on a trip table whose counts
    are exact.  Every group of the roll-up (aggregate mode, commute class,
    period) has exactly one peak-vs-offpeak share row and one mode share
    row.  The first is the binary64 quotient of the group's trips by the
    trips of its mode and commute class over the whole trip table, the
    second the quotient of the group's trips by the trips of its commute
    class and period over the whole table; the trips of a group are the sum
    of freq over the trips of its key.  So the numerators of the rows that
    share a description add up to their common denominator, while the
    quotients themselves are rounded one by one. *)
Theorem trip_share_quotients (metric_id : string) (TripDistance : list Ngfs.Trip) :
  exact_counts (map Ngfs.freq TripDistance) = true →
  let groups := Ngfs.tm_trips_df TripDistance in
  TripShares.metrics_peak_offpeak_share_df metric_id groups
  = map (λ g, {| TripShares.grouping1 := None; TripShares.grouping2 := None;
                 TripShares.grouping3 := None;
                 TripShares.key := TripShares.peak_non g;
                 TripShares.intermediate_final := metric_id;
                 TripShares.metric_desc :=
                   TripShares.agg_trip_mode g +:+ "_" +:+ TripShares.commute_non g
                   +:+ "_peak-vs-offpeak_share";
                 TripShares.value :=
                   (Qc_to_float (TripShares.trips g)
                    / Qc_to_float (Frames.sum_where (same_mode_commute g) Ngfs.freq TripDistance))
                   %float |}) groups ∧
  TripShares.metrics_modeshare_df metric_id groups
  ≡ₚ map (λ g, {| TripShares.grouping1 := Some (TripShares.peak_non g);
                  TripShares.grouping2 := Some (TripShares.commute_non g);
                  TripShares.grouping3 := None;
                  TripShares.key := TripShares.agg_trip_mode g;
                  TripShares.intermediate_final := metric_id;
                  TripShares.metric_desc :=
                    TripShares.peak_non g +:+ "_" +:+ TripShares.commute_non g +:+ "_mode_share";
                  TripShares.value :=
                    (Qc_to_float (TripShares.trips g)
                     / Qc_to_float (Frames.sum_where (same_commute_peak g) Ngfs.freq TripDistance))
                    %float |}) groups ∧
  (∀ g, g ∈ groups →
     TripShares.trips g
     = Frames.sum_where (key_is Ngfs.trips_by (fst g)) Ngfs.freq TripDistance ∧
     Frames.sum_where
       (λ g', bool_decide ((TripShares.agg_trip_mode g, TripShares.commute_non g)
                           = (TripShares.agg_trip_mode g', TripShares.commute_non g')))
       TripShares.trips groups
     = Frames.sum_where (same_mode_commute g) Ngfs.freq TripDistance ∧
     Frames.sum_where
       (λ g', bool_decide ((TripShares.commute_non g, TripShares.peak_non g)
                           = (TripShares.commute_non g', TripShares.peak_non g')))
       TripShares.trips groups
     = Frames.sum_where (same_commute_peak g) Ngfs.freq TripDistance).
Proof.
  intros _ groups.
  assert (∀ g, Frames.sum_where
                 (λ g', bool_decide ((TripShares.agg_trip_mode g, TripShares.commute_non g)
                                     = (TripShares.agg_trip_mode g', TripShares.commute_non g')))
                 TripShares.trips groups
               = Frames.sum_where (same_mode_commute g) Ngfs.freq TripDistance) as Hmc.
  { intros g.
    exact (tm_trips_df_total
             (λ k, bool_decide ((TripShares.agg_trip_mode g, TripShares.commute_non g)
                                = (fst (fst k), snd (fst k)))) TripDistance). }
  assert (∀ g, Frames.sum_where
                 (λ g', bool_decide ((TripShares.commute_non g, TripShares.peak_non g)
                                     = (TripShares.commute_non g', TripShares.peak_non g')))
                 TripShares.trips groups
               = Frames.sum_where (same_commute_peak g) Ngfs.freq TripDistance) as Hcp.
  { intros g.
    exact (tm_trips_df_total
             (λ k, bool_decide ((TripShares.commute_non g, TripShares.peak_non g)
                                = (snd (fst k), snd k))) TripDistance). }
  split; [|split].
  - unfold TripShares.metrics_peak_offpeak_share_df, TripShares.peak_offpeak_trips.
    rewrite merge_totals, map_map. apply map_ext. intros g. simpl.
    unfold TripShares.pandas_div. by rewrite Hmc.
  - unfold TripShares.metrics_modeshare_df, TripShares.allmode_trips.
    rewrite (sort_by_perm _ _). rewrite merge_totals, map_map.
    apply Permutation_refl'. apply map_ext. intros g. simpl.
    unfold TripShares.pandas_div. by rewrite Hcp.
  - intros g Hg. split; [|split; [apply Hmc|apply Hcp]].
    destruct g as [k n]. unfold groups, Ngfs.tm_trips_df in Hg.
    exact (groupby_sum_group Ngfs.trips_by Ngfs.freq Qcplus Ngfs.trips_key_le
             (λ q, q) (λ x y, eq_refl) TripDistance k n Hg).
Qed.

Lemma trip_share_quotients_witness :
  map TripShares.value
    (TripShares.metrics_peak_offpeak_share_df "top_level" (Ngfs.tm_trips_df example_trips))
  = [1%float; 1%float].
Proof.
  assert (exact_counts (map Ngfs.freq example_trips) = true) as Hexact
    by (vm_compute; reflexivity).
  rewrite (proj1 (trip_share_quotients "top_level" example_trips Hexact)).
  vm_compute. reflexivity.
Defined.

(** ** Reliable 2: peak against nonpeak travel time *)

Lemma Qc_div_pos (s w : Qc) : (0 < s)%Qc → (0 < w)%Qc → (0 < s / w)%Qc.
Proof.
  intros Hs Hw. apply Qcnot_le_lt. intros Hle.
  apply (Qcmult_le_compat_r _ _ w) in Hle; [|by apply Qclt_le_weak].
  rewrite Qcmult_0_l, (Qcmult_comm (s / w) w) in Hle.
  rewrite Qcmult_div_r in Hle by (apply not_eq_sym, Qclt_not_eq; exact Hw).
  by apply (Qclt_not_le _ _ Hs).
Qed.

Lemma Qc_pos_of_nonneg (w : Qc) : (0 ≤ w)%Qc → w ≠ 0%Qc → (0 < w)%Qc.
Proof. intros Hle Hne. by destruct (Qcle_lt_or_eq _ _ Hle) as [?|<-]. Qed.

Lemma weighted_sums (rows : list Reliable2.ODRow) :
  (∀ r, r ∈ rows →
     (0 < Reliable2.avg_travel_time_in_mins r)%Qc ∧ (0 ≤ Reliable2.num_trips r)%Qc) →
  (0 ≤ Qc_sum (map Reliable2.num_trips rows))%Qc ∧
  (0 ≤ Qc_sum (map (λ r, Reliable2.avg_travel_time_in_mins r * Reliable2.num_trips r)%Qc rows))%Qc ∧
  (Qc_sum (map Reliable2.num_trips rows) ≠ 0%Qc →
   (0 < Qc_sum (map (λ r, Reliable2.avg_travel_time_in_mins r * Reliable2.num_trips r)%Qc rows))%Qc).
Proof.
  induction rows as [|r rows IH]; intros Hrows.
  - simpl. repeat split; try apply Qcle_refl. intros H. by destruct H.
  - destruct (Hrows r) as [Ha Hn]; [left|].
    destruct IH as (HW & HS & Hpos); [intros r' Hr'; apply Hrows; by right|].
    simpl map. rewrite !Qc_sum_cons.
    set (a := Reliable2.avg_travel_time_in_mins r) in *.
    set (n := Reliable2.num_trips r) in *.
    set (W := Qc_sum (map Reliable2.num_trips rows)) in *.
    set (S := Qc_sum (map _ rows)) in *.
    assert (0 ≤ a * n)%Qc as Han.
    { rewrite <- (Qcmult_0_l n). apply Qcmult_le_compat_r; [by apply Qclt_le_weak|done]. }
    split; [|split].
    + rewrite <- (Qcplus_0_l 0). by apply Qcplus_le_compat.
    + rewrite <- (Qcplus_0_l 0). by apply Qcplus_le_compat.
    + intros Hne. destruct (Qcle_lt_or_eq _ _ Hn) as [Hlt|Heq].
      * apply (Qclt_le_trans _ (a * n)).
        -- rewrite <- (Qcmult_0_l n). by apply Qcmult_lt_compat_r.
        -- rewrite <- (Qcplus_0_r (a * n)) at 1. apply Qcplus_le_compat; [apply Qcle_refl|done].
      * rewrite <- Heq in *. rewrite Qcplus_0_l in Hne. rewrite Qcmult_0_r, Qcplus_0_l.
        by apply Hpos.
Qed.

Lemma numpy_average_pos (rows : list Reliable2.ODRow) (avg : Qc) :
  (∀ r, r ∈ rows →
     (0 < Reliable2.avg_travel_time_in_mins r)%Qc ∧ (0 ≤ Reliable2.num_trips r)%Qc) →
  Reliable2.numpy_average rows = Some avg → (0 < avg)%Qc.
Proof.
  intros Hrows. unfold Reliable2.numpy_average.
  destruct (weighted_sums rows Hrows) as (HW & HS & Hpos).
  destruct (decide (Qc_sum (map Reliable2.num_trips rows) = 0%Qc)) as [|Hne]; [done|].
  intros [= <-]. apply Qc_div_pos; [by apply Hpos|by apply Qc_pos_of_nonneg].
Qed.

Lemma od_rows_positive (od : string * string) (df : list Reliable2.ODRow) (r : Reliable2.ODRow) :
  (∀ r, r ∈ df → (0 ≤ Reliable2.num_trips r)%Qc) →
  r ∈ Reliable2.od_rows od (Reliable2.od_tt_peak_df df) ∨
  r ∈ Reliable2.od_rows od (Reliable2.od_tt_nonpeak_df df) →
  (0 < Reliable2.avg_travel_time_in_mins r)%Qc ∧ (0 ≤ Reliable2.num_trips r)%Qc.
Proof.
  intros Hdf Hr.
  unfold Reliable2.od_rows, Reliable2.od_tt_peak_df, Reliable2.od_tt_nonpeak_df,
    Reliable2.tm_od_travel_times_df in Hr.
  destruct Hr as [Hr|Hr]; apply list_elem_of_In in Hr;
    do 3 (apply filter_In in Hr as [Hr _]);
    apply filter_In in Hr as [Hr Hpos]; apply filter_In in Hr as [Hr _].
  all: split; [|apply Hdf; by apply list_elem_of_In].
  all: apply Qcnot_le_lt; intros Hle; apply Qc_leb_le in Hle; by rewrite Hle in Hpos.
Qed.

Lemma exact_od_table_trips (df : list Reliable2.ODRow) (r : Reliable2.ODRow) :
  exact_od_table df = true → r ∈ df → (0 ≤ Reliable2.num_trips r)%Qc.
Proof.
  unfold exact_od_table. rewrite !andb_true_iff, forallb_forall.
  intros [[Hall _] _] Hr. apply list_elem_of_In in Hr. specialize (Hall r Hr).
  unfold count_like in Hall. rewrite !andb_true_iff in Hall.
  destruct Hall as [[_ Hn] _]. by apply Qc_leb_le.
Qed.

(** X11. A zero ratio means missing data, on a table whose weighted sums are
    exact.  For one origin-destination pair, the ratio of peak to nonpeak
    travel time that Reliable 2 records is 0 exactly when one of the two
    weighted averages cannot be computed (its trips add up to zero, as for a
    pair without rows), and then both averages are recorded as 0, also the
    one that could be computed.  Otherwise the two averages are recorded as
    computed and both are positive, since rows with a travel time of 0 or
    less were filtered out. *)
Theorem Reliable2_zero_ratio (df : list Reliable2.ODRow) (od : string * string) :
  exact_od_table df = true →
  let peak := Reliable2.numpy_average (Reliable2.od_rows od (Reliable2.od_tt_peak_df df)) in
  let nonpeak := Reliable2.numpy_average (Reliable2.od_rows od (Reliable2.od_tt_nonpeak_df df)) in
  (Reliable2.ratio_peak_nonpeak od df = 0%Qc ↔ peak = None ∨ nonpeak = None) ∧
  (peak = None ∨ nonpeak = None → Reliable2.od_averages od df = (0, 0)%Qc) ∧
  (∀ p q, peak = Some p → nonpeak = Some q →
     (0 < p)%Qc ∧ (0 < q)%Qc ∧ Reliable2.od_averages od df = (p, q)).
Proof.
  intros Hexact peak nonpeak.
  assert (∀ r, r ∈ df → (0 ≤ Reliable2.num_trips r)%Qc) as Hdf
    by (intros r Hr; by apply (exact_od_table_trips df)).
  assert (∀ p, peak = Some p → (0 < p)%Qc) as Hp.
  { intros p. apply numpy_average_pos. intros r Hr. apply (od_rows_positive od df r Hdf).
    by left. }
  assert (∀ q, nonpeak = Some q → (0 < q)%Qc) as Hq.
  { intros q. apply numpy_average_pos. intros r Hr. apply (od_rows_positive od df r Hdf).
    by right. }
  unfold Reliable2.ratio_peak_nonpeak, Reliable2.od_averages.
  fold peak. fold nonpeak.
  destruct peak as [p|]; [destruct nonpeak as [q|]|].
  - specialize (Hp p eq_refl). specialize (Hq q eq_refl).
    assert (q ≠ 0%Qc) as Hq0 by (apply not_eq_sym, Qclt_not_eq; exact Hq).
    rewrite decide_False by done. split; [|split].
    + split; [|by intros [?|?]]. intros Hzero. exfalso.
      apply (Qclt_not_eq _ _ (Qc_div_pos p q Hp Hq)). by rewrite Hzero.
    + by intros [?|?].
    + intros p' q' [= <-] [= <-]. repeat split; done.
  - rewrite decide_True by done. split; [|split].
    + split; [by right|done].
    + done.
    + intros p' q' _ [=].
  - rewrite decide_True by done. split; [|split].
    + split; [by left|done].
    + done.
    + intros p' q' [=].
Qed.

Lemma Reliable2_zero_ratio_witness :
  Reliable2.od_averages ("OAKLAND", "SAN FRANCISCO")%string example_od_rows
  = (Qc_of_Z 30, Qc_of_Z 20).
Proof.
  assert (exact_od_table example_od_rows = true) as Hexact by (vm_compute; reflexivity).
  apply (proj2 (proj2 (Reliable2_zero_ratio example_od_rows
                         ("OAKLAND", "SAN FRANCISCO")%string Hexact))
           (Qc_of_Z 30) (Qc_of_Z 20)).
  - unfold Reliable2.numpy_average.
    match goal with |- context [decide ?P] => destruct (decide P) as [H0|_] end.
    + apply (f_equal (λ q, Qnum (this q))) in H0. vm_compute in H0. discriminate H0.
    + f_equal. apply Qc_is_canon. reflexivity.
  - unfold Reliable2.numpy_average.
    match goal with |- context [decide ?P] => destruct (decide P) as [H0|_] end.
    + apply (f_equal (λ q, Qnum (this q))) in H0. vm_compute in H0. discriminate H0.
    + f_equal. apply Qc_is_canon. reflexivity.
Defined.

(** ** Reliable 2: the dictionary entries *)

Section Reliable2Loop.
Context (tm_run_id year : string) (df : list Reliable2.ODRow).

Abbreviation od_step := (Reliable2.od_step tm_run_id year df).
Abbreviation metric_key := (Reliable2.metric_key tm_run_id year).
Abbreviation od_entries := (od_entries tm_run_id year df).

Lemma od_step_frame (d : Ngfs.Dict Qc) (n : Z) (t : Qc) (od : string * string)
    (k : Ngfs.MetricKey) :
  Ngfs.col_metric_id k ≠ "Reliable 2"%string ∨ Reliable2.od_key od ≠ Ngfs.col_key k →
  Ngfs.dict_get k (fst (fst (od_step (d, n, t) od))) = Ngfs.dict_get k d.
Proof.
  intros Hne. simpl.
  repeat (rewrite dict_get_set_ne by (intros <-; by destruct Hne)). done.
Qed.

Lemma od_step_entries (d : Ngfs.Dict Qc) (n : Z) (t : Qc) (od : string * string)
    (k : Ngfs.MetricKey) (v : Qc) :
  (k, v) ∈ od_entries od →
  Ngfs.dict_get k (fst (fst (od_step (d, n, t) od))) = Some v.
Proof.
  unfold od_entries. rewrite !elem_of_cons, elem_of_nil. simpl.
  intros [[= -> ->]|[[= -> ->]|[[= -> ->]|[[= -> ->]|[[= -> ->]|[]]]]]];
    repeat (rewrite dict_get_set_ne by (unfold Reliable2.metric_key; intros [=]));
    apply dict_get_set_eq.
Qed.

Lemma od_fold (ods : list (string * string)) (d : Ngfs.Dict Qc) (n : Z) (t : Qc) :
  ∃ d', foldl od_step (d, n, t) ods
        = (d', n + Z.of_nat (length ods),
           (t + Qc_sum (map (λ od, Reliable2.ratio_peak_nonpeak od df) ods))%Qc) ∧
    (∀ k, (∀ od, od ∈ ods → Ngfs.col_metric_id k ≠ "Reliable 2"%string ∨
                              Reliable2.od_key od ≠ Ngfs.col_key k) →
          Ngfs.dict_get k d' = Ngfs.dict_get k d) ∧
    (NoDup (map Reliable2.od_key ods) →
     ∀ od k v, od ∈ ods → (k, v) ∈ od_entries od → Ngfs.dict_get k d' = Some v).
Proof.
  revert d n t. induction ods as [|od0 ods IH]; intros d n t.
  - exists d. simpl. rewrite Z.add_0_r, Qcplus_0_r. split; [done|]. split; [done|].
    intros _ od k v Hod. by apply elem_of_nil in Hod.
  - destruct (od_step (d, n, t) od0) as [[d1 n1] t1] eqn:Hstep.
    assert (n1 = n + 1 ∧ t1 = (t + Reliable2.ratio_peak_nonpeak od0 df)%Qc) as [-> ->]
      by (simpl in Hstep; by injection Hstep as _ <- <-).
    destruct (IH d1 (n + 1) (t + Reliable2.ratio_peak_nonpeak od0 df)%Qc)
      as (d' & Hfold & Hframe & Hentries).
    exists d'. split; [|split].
    + cbn [foldl]. rewrite Hstep, Hfold. f_equal; [f_equal|].
      * cbn [length]. lia.
      * simpl map. rewrite Qc_sum_cons. ring.
    + intros k Hk. rewrite Hframe by (intros od Hod; apply Hk; by right).
      pose proof (od_step_frame d n t od0 k (Hk od0 (list_elem_of_here _ _))) as H0.
      by rewrite Hstep in H0.
    + intros Hnd od k v Hod Hkv. simpl in Hnd. apply NoDup_cons in Hnd as [Hnew Hnd].
      destruct (decide (od ∈ ods)) as [Hin|Hnin]; [by eapply Hentries|].
      apply elem_of_cons in Hod as [->|?]; [|done].
      rewrite Hframe.
      * pose proof (od_step_entries d n t od0 k v Hkv) as H0. by rewrite Hstep in H0.
      * intros od Hod. right. intros Heq. apply Hnew. apply elem_of_map.
        exists od. split; [|done].
        unfold od_entries in Hkv. rewrite !elem_of_cons, elem_of_nil in Hkv.
        destruct Hkv as [[= -> _]|[[= -> _]|[[= -> _]|[[= -> _]|[[= -> _]|[]]]]]];
          simpl in Heq; congruence.
Qed.
End Reliable2Loop.

(** X12. The entries of the O-D loop of Reliable 2.  After the loop over the
    ten pairs the dictionary holds, for every pair, the two averages, the
    ratio and the two observed trip totals of that pair: the keys of
    different pairs are different, so no pair overwrites another.  The final
    entry is the sum of the ten ratios divided by 10, pairs without data
    counting as 0.  Entries of other metrics are left as they were. *)
Theorem Reliable2_entries (tm_run_id year : string) (df : list Reliable2.ODRow)
    (metrics_dict : Ngfs.Dict Qc) :
  let d := Reliable2.od_pairs tm_run_id year df metrics_dict in
  (∀ od k v, od ∈ Reliable2.NGFS_OD_CITIES_OF_INTEREST →
             (k, v) ∈ od_entries tm_run_id year df od → Ngfs.dict_get k d = Some v) ∧
  Ngfs.dict_get (Reliable2.metric_key tm_run_id year "final" "Average across 10 O-D pairs"
                   "ratio_travel_time_peak_nonpeak_across_pairs") d
  = Some (Qc_sum (map (λ od, Reliable2.ratio_peak_nonpeak od df)
                    Reliable2.NGFS_OD_CITIES_OF_INTEREST) / Qc_of_Z 10)%Qc ∧
  (∀ k, Ngfs.col_metric_id k ≠ "Reliable 2"%string →
        Ngfs.dict_get k d = Ngfs.dict_get k metrics_dict).
Proof.
  intros d. unfold d, Reliable2.od_pairs.
  destruct (od_fold tm_run_id year df Reliable2.NGFS_OD_CITIES_OF_INTEREST metrics_dict 0 0%Qc)
    as (d' & -> & Hframe & Hentries).
  split; [|split].
  - intros od k v Hod Hkv. rewrite dict_get_set_ne.
    + apply (Hentries ltac:(apply (bool_decide_unpack _); vm_compute; reflexivity) od k v Hod Hkv).
    + unfold od_entries in Hkv. rewrite !elem_of_cons, elem_of_nil in Hkv.
      destruct Hkv as [[= -> _]|[[= -> _]|[[= -> _]|[[= -> _]|[[= -> _]|[]]]]]];
        unfold Reliable2.metric_key; intros [=].
  - rewrite dict_get_set_eq. do 2 f_equal. apply Qcplus_0_l.
  - intros k Hk. rewrite dict_get_set_ne by (intros <-; by apply Hk).
    apply Hframe. intros od _. by left.
Qed.

(** ** Safe 1: collision classes *)

Ltac recode_cases :=
  repeat match goal with
         | |- context [if ?b then _ else _] =>
             lazymatch b with
             | context [if _ then _ else _] => fail
             | _ => destruct b eqn:?
             end
         end;
  repeat match goal with
         | H : (_ =? _) = true |- _ => apply Z.eqb_eq in H
         | H : (_ =? _) = false |- _ => apply Z.eqb_neq in H
         | H : (_ <? _) = true |- _ => apply Z.ltb_lt in H
         | H : (_ <? _) = false |- _ => apply Z.ltb_ge in H
         | H : (_ <=? _) = true |- _ => apply Z.leb_le in H
         | H : (_ <=? _) = false |- _ => apply Z.leb_gt in H
         end.

Lemma ft_collision_cases (ft lanes : Z) :
  Safe1.kept ft lanes = true → 1 ≤ ft →
  0 < lanes ∧
  ((ft = 1 ∨ ft = 2 ∨ ft = 8) ∧ Safe1.ft_collision ft lanes = 2 ∨
   ft = 3 ∧ Safe1.ft_collision ft lanes = 3 ∨
   (ft = 4 ∨ ft = 5 ∨ ft = 7 ∨ 9 ≤ ft) ∧ Safe1.ft_collision ft lanes = 4).
Proof.
  unfold Safe1.kept, Safe1.ft_collision. rewrite negb_true_iff, Z.eqb_neq.
  recode_cases; lia.
Qed.

(** X13. The collision classes of calculate_fatalitites.  The area type
    used for the join is always 3 or 4.  The facility type used for the join
    is never above 4 and is -1, which removes the link, exactly for dummy
    links (ft 6), links with no lanes and links whose ft is -1 already.  A
    link that stays, with ft at least 1, is joined as class 2, 3 or 4 and
    always gets an exponent for the speed adjustment: 4.6 for ft 1, 2, 3 and
    8, and 3 for every other type, ramps (ft 5) included, because types
    above 4 were capped to 4 before the exponent is chosen. *)
Theorem collision_classes (ft lanes at_ : Z) :
  (Safe1.at_collision at_ = 3 ∨ Safe1.at_collision at_ = 4) ∧
  Safe1.ft_collision ft lanes ≤ 4 ∧
  (Safe1.kept ft lanes = false ↔ ft = 6 ∨ lanes ≤ 0 ∨ ft = -1) ∧
  (Safe1.kept ft lanes = true → 1 ≤ ft →
   Safe1.ft_collision ft lanes ∈ [2; 3; 4] ∧
   Safe1.fatality_exponent (Safe1.ft_collision ft lanes)
   = Some (if Ngfs.isin ft [1; 2; 3; 8] then Q2Qc (46 # 10) else Qc_of_Z 3)).
Proof.
  split; [|split; [|split]].
  - unfold Safe1.at_collision. recode_cases; lia.
  - unfold Safe1.ft_collision. recode_cases; lia.
  - unfold Safe1.kept, Safe1.ft_collision. rewrite negb_false_iff, Z.eqb_eq.
    recode_cases; lia.
  - intros Hkept Hft.
    destruct (ft_collision_cases ft lanes Hkept Hft)
      as [_ [[Hcase Heq] | [[Hcase Heq] | [Hcase Heq]]]]; rewrite Heq.
    + split; [repeat constructor|]. by destruct Hcase as [-> | [-> | ->]].
    + split; [repeat constructor|]. by rewrite Hcase.
    + split; [repeat constructor|].
      assert (Ngfs.isin ft [1; 2; 3; 8] = false) as ->; [|reflexivity].
      apply bool_decide_eq_false_2. rewrite !elem_of_cons, elem_of_nil. lia.
Qed.

(** X14. The freeway network of Safe 1 is the whole network.  The mask of
    fwy_network_df is a disjunction of four inequalities on ft, which every
    link satisfies: the table passed to calculate_fatalitites as the freeway
    network is the loaded network itself, in order, and so contains every
    link of the non-freeway network (ft 3, 4 and 7). *)
Theorem Safe1_freeway_network_is_whole (tm_loaded_network_df : list Safe2.NetLink) :
  Safe1.fwy_network_df tm_loaded_network_df = tm_loaded_network_df ∧
  (∀ l, l ∈ Safe1.nonfwy_network_df tm_loaded_network_df ↔
        l ∈ tm_loaded_network_df ∧ Safe2.ft l ∈ [3; 4; 7]) ∧
  (∀ l, l ∈ Safe1.nonfwy_network_df tm_loaded_network_df →
        l ∈ Safe1.fwy_network_df tm_loaded_network_df).
Proof.
  assert (Safe1.fwy_network_df tm_loaded_network_df = tm_loaded_network_df) as Hall.
  { unfold Safe1.fwy_network_df.
    induction tm_loaded_network_df as [|l df IH]; [done|].
    rewrite filter_cons, decide_True by lia. by rewrite IH. }
  split; [exact Hall|]. split.
  - intros l. unfold Safe1.nonfwy_network_df. rewrite list_elem_of_filter.
    rewrite !elem_of_cons, elem_of_nil. tauto.
  - intros l Hl. rewrite Hall. unfold Safe1.nonfwy_network_df in Hl.
    by apply list_elem_of_filter in Hl as [_ Hl].
Qed.

